(** * Course catalog service (app.py): storage and telemetry of the handlers

    A shallow embedding of [app.py]: the JSON file that holds the course
    catalog ([load_courses], [save_courses], the rewrite done by
    [delete_course]), the lookup of [course_details], the form handling of
    [add_course], and the spans, counters and log records the handlers
    produce.

    Python text ([str]) is a list of Unicode code points.  The calls the
    program makes into the Python standard library ([json.dump] with
    [indent=4], [json.load], [str.strip], [os.path.exists], [open]) and into
    Flask, OpenTelemetry and [logging] are modelled next to the handlers that
    use them. *)

From Stdlib Require Import List NArith ZArith Bool Lia ZifyBool String Ascii.
From stdpp Require Import base gmap strings.
Import ListNotations.

Local Open Scope N_scope.

(** ** Python text *)

(** A [str] is a sequence of code points; [text] is the decoded content of a
    file, also a [str]. *)
Definition str := list N.
Definition text := list N.

(** A literal of the program. *)
Definition lit (s : string) : str :=
  List.map N_of_ascii (list_ascii_of_string s).

Fixpoint str_eqb (a b : str) : bool :=
  match a, b with
  | [], [] => true
  | x :: a', y :: b' => (x =? y) && str_eqb a' b'
  | _, _ => false
  end.

(** Code points that UTF-8 decoding can yield: Unicode scalar values. *)
Definition is_surrogate (c : N) : bool := (55296 <=? c) && (c <=? 57343).
Definition scalar (c : N) : bool := (c <? 1114112) && negb (is_surrogate c).
Definition valid_str (s : str) : bool := forallb scalar s.

(** ** [str.strip()] *)

(** [Py_UNICODE_ISSPACE]: the code points [str.strip()] removes. *)
Definition isspace (c : N) : bool :=
  ((9 <=? c) && (c <=? 13)) || ((28 <=? c) && (c <=? 32))
  || (c =? 133) || (c =? 160) || (c =? 5760)
  || ((8192 <=? c) && (c <=? 8202))
  || (c =? 8232) || (c =? 8233) || (c =? 8239) || (c =? 8287) || (c =? 12288).

Fixpoint lstrip (s : str) : str :=
  match s with
  | c :: s' => if isspace c then lstrip s' else s
  | [] => []
  end.

Definition rstrip (s : str) : str := rev (lstrip (rev s)).

Definition strip (s : str) : str := rstrip (lstrip s).

(** ** Exceptions *)

Inductive exn : Type :=
| PermissionError
| JSONDecodeError
| RecursionError
| ValueError
| AttributeError
| TypeError
| KeyError.

Inductive result (A : Type) : Type :=
| Ok (a : A)
| Raise (e : exn).
Arguments Ok {A} a.
Arguments Raise {A} e.

(** ** Numbers *)

(** A [float]: not a number, an infinity, or [m * 2 ^ e] with its sign.
    [m] is from [2 ^ 52] to below [2 ^ 53] and [e] from [-1074] to [971];
    the subnormal numbers have a smaller [m] with [e = -1074], and zero is
    [m = 0] with [e = 0]. *)
Inductive pyfloat : Type :=
| FNan
| FInf (negative : bool)
| FFinite (negative : bool) (m : N) (e : Z).

Local Open Scope Z_scope.

(** [num / den] rounded to the nearest integer, a tie going to the even
    one. *)
Definition round_half_even (num den : Z) : Z :=
  let q := num / den in
  let r := num mod den in
  if 2 * r <? den then q
  else if den <? 2 * r then q + 1
  else if Z.even q then q else q + 1.

(** The float nearest to [num / den], for positive [num] and [den]:
    [float(...)] rounds to 53 bits, to the nearest, ties to even; the
    exponent stays at [-1074] in the subnormal range, and a value that
    rounds to [2 ^ 1024] or more is an infinity. *)
Definition float_of_ratio (negative : bool) (num den : Z) : pyfloat :=
  let t := Z.log2 num - Z.log2 den in
  let l := if 0 <=? t
           then (if den * 2 ^ t <=? num then t else t - 1)
           else (if den <=? num * 2 ^ (- t) then t else t - 1) in
  let k := Z.max (l - 52) (-1074) in
  let q := if 0 <=? k then round_half_even num (den * 2 ^ k)
           else round_half_even (num * 2 ^ (- k)) den in
  let '(q, k) := if q =? 2 ^ 53 then (2 ^ 52, k + 1) else (q, k) in
  if 971 <? k then FInf negative
  else if q =? 0 then FFinite negative 0 0
  else FFinite negative (Z.to_N q) k.

(** [float(s)] for a literal of value [m * 10 ^ e]: a value of [10 ^ 311]
    or more is an infinity, one below [2 ^ -1080] is zero. *)
Definition float_of_decimal (negative : bool) (m : N) (e : Z) : pyfloat :=
  if (m =? 0)%N then FFinite negative 0 0
  else if 310 <? e then FInf negative
  else if Z.log2 (Z.of_N m) + 1 + 1080 <? 3 * (- e) then FFinite negative 0 0
  else if 0 <=? e then float_of_ratio negative (Z.of_N m * 10 ^ e) 1
  else float_of_ratio negative (Z.of_N m) (10 ^ (- e)).

Fixpoint digits_of_uint (u : Decimal.uint) : text :=
  match u with
  | Decimal.Nil => []
  | Decimal.D0 u' => 48%N :: digits_of_uint u'
  | Decimal.D1 u' => 49%N :: digits_of_uint u'
  | Decimal.D2 u' => 50%N :: digits_of_uint u'
  | Decimal.D3 u' => 51%N :: digits_of_uint u'
  | Decimal.D4 u' => 52%N :: digits_of_uint u'
  | Decimal.D5 u' => 53%N :: digits_of_uint u'
  | Decimal.D6 u' => 54%N :: digits_of_uint u'
  | Decimal.D7 u' => 55%N :: digits_of_uint u'
  | Decimal.D8 u' => 56%N :: digits_of_uint u'
  | Decimal.D9 u' => 57%N :: digits_of_uint u'
  end.

(** The decimal digits of a natural number, [0] giving one digit. *)
Definition digits_of (n : N) : text := digits_of_uint (N.to_uint n).

(** [int.__repr__] *)
Definition int_repr (n : Z) : text :=
  if n <? 0 then 45%N :: digits_of (Z.abs_N n) else digits_of (Z.abs_N n).

(** [10 ^ p <= num / den] *)
Definition reaches_pow10 (num den p : Z) : bool :=
  if 0 <=? p then den * 10 ^ p <=? num else den <=? num * 10 ^ (- p).

(** The largest [p] with [10 ^ p <= num / den], looked for upwards from an
    estimate that lies below it. *)
Fixpoint raise_pow10 (steps : nat) (num den p : Z) : Z :=
  match steps with
  | O => p
  | S steps' =>
      if reaches_pow10 num den (p + 1) then raise_pow10 steps' num den (p + 1)
      else p
  end.

Definition ilog10 (num den : Z) : Z :=
  raise_pow10 8 num den ((Z.log2 num - Z.log2 den - 1) * 30102 / 100000 - 2).

(** The shortest run of digits that [float] reads back as the same float,
    and among such runs the one nearest to it: [c] with [c * 10 ^ s] the
    value, tried with 1 to 17 digits. *)
Fixpoint shortest_digits (tries : nat) (n : Z) (x : pyfloat) (num den p : Z)
  : Z * Z :=
  let s := p - n + 1 in
  let '(a, b) := if 0 <=? s then (num, den * 10 ^ s)
                 else (num * 10 ^ (- s), den) in
  let near := round_half_even a b in
  let low := a / b in
  let other := if near =? low then low + 1 else low in
  let reads c :=
    match x, float_of_decimal false (Z.to_N c) s with
    | FFinite _ m e, FFinite _ m' e' => (m =? m')%N && (e =? e')
    | _, _ => false
    end in
  match tries with
  | O => (near, s)
  | S tries' =>
      if reads near then (near, s)
      else if (0 <? other) && reads other then (other, s)
      else shortest_digits tries' (n + 1) x num den p
  end.

(** The digits, last one first, without the zeros they end with. *)
Fixpoint strip_zeros (rev_digits : text) : text :=
  match rev_digits with
  | 48%N :: rest =>
      match rest with
      | [] => rev_digits
      | _ :: _ => strip_zeros rest
      end
  | _ => rev_digits
  end.

(** [float.__repr__]: the digits with the point in place when the decimal
    exponent is between -4 and 16, the scientific notation otherwise. *)
Definition float_repr (x : pyfloat) : text :=
  match x with
  | FNan => lit "nan"
  | FInf negative => if negative then lit "-inf" else lit "inf"
  | FFinite negative m e =>
      let sign := if negative then [45%N] else [] in
      if (m =? 0)%N then sign ++ lit "0.0"
      else
        let '(num, den) := if 0 <=? e then (Z.of_N m * 2 ^ e, 1)
                           else (Z.of_N m, 2 ^ (- e)) in
        let p := ilog10 num den in
        let '(c, s) := shortest_digits 16 1 x num den p in
        let all := digits_of (Z.to_N c) in
        let d := rev (strip_zeros (rev all)) in
        let nd := Z.of_nat (List.length d) in
        let decpt := Z.of_nat (List.length all) + s in
        if (decpt <=? -4) || (16 <? decpt) then
          let ex := decpt - 1 in
          let exd := digits_of (Z.abs_N ex) in
          let exd := match exd with [_] => 48%N :: exd | _ => exd end in
          sign
          ++ match d with
             | [] => []
             | c0 :: [] => [c0]
             | c0 :: rest => c0 :: 46%N :: rest
             end
          ++ [101%N] ++ (if ex <? 0 then [45%N] else [43%N]) ++ exd
        else if decpt <=? 0 then
          sign ++ lit "0." ++ repeat 48%N (Z.to_nat (- decpt)) ++ d
        else if nd <=? decpt then
          sign ++ d ++ repeat 48%N (Z.to_nat (decpt - nd)) ++ lit ".0"
        else
          sign ++ firstn (Z.to_nat decpt) d ++ [46%N]
          ++ skipn (Z.to_nat decpt) d
  end.

Local Close Scope Z_scope.

(** ** Values held by the program: what [json.load] returns *)

(** [None], [bool], [int], [float], [str], [list] and [dict] with [str]
    keys.  A [dict] keeps its insertion order and is a list of entries. *)
#[warnings="-register-all"]
Inductive pyval : Type :=
| PNone
| PBool (b : bool)
| PInt (n : Z)
| PFloat (x : pyfloat)
| PStr (s : str)
| PList (l : list pyval)
| PDict (d : list (str * pyval)).

Definition pydict := list (str * pyval).

(** [d.get(k)] on the entries of a dict. *)
Fixpoint dict_get (d : pydict) (k : str) : option pyval :=
  match d with
  | [] => None
  | (k', v) :: d' => if str_eqb k' k then Some v else dict_get d' k
  end.

(** [d[k] = v]: an existing key keeps its position. *)
Fixpoint dict_set (d : pydict) (k : str) (v : pyval) : pydict :=
  match d with
  | [] => [(k, v)]
  | (k', v') :: d' =>
      if str_eqb k' k then (k', v) :: d' else (k', v') :: dict_set d' k v
  end.

(** [dict(pairs)]. *)
Definition dict_of_pairs (ps : list (str * pyval)) : pydict :=
  fold_left (fun d kv => dict_set d (fst kv) (snd kv)) ps [].

Fixpoint keys_distinct (ks : list str) : bool :=
  match ks with
  | [] => true
  | k :: ks' => negb (existsb (str_eqb k) ks') && keys_distinct ks'
  end.

(** [sys.getrecursionlimit()]: the interpreter raises [RecursionError]
    when calls nest deeper. *)
Definition recursion_limit : nat := 1000.

(** The calls that are under way when a handler reaches [json.load]: those
    of the server, of the WSGI and Flask dispatch, of the instrumentation
    and of the handler, and those of [json] down to the scanner.  Their
    number depends on the deployment; the model takes a hundred, more than
    the server started by [app.run] has under way, so that what the model
    loads the program loads. *)
Definition frames_in_use : nat := 100.

(** The levels of lists and dicts that [json.load] can go down: every level
    is one call of the scanner on the stack. *)
Definition nesting_room : nat := recursion_limit - frames_in_use.

(** [sys.get_int_max_str_digits()]: [int(s)] raises [ValueError] on more
    digits. *)
Definition int_max_str_digits : nat := 4300.

(** Values made of text only, whose text is valid, whose dicts have distinct
    keys and whose lists and dicts nest at most [room] deep. *)
Fixpoint wf_within (room : nat) (v : pyval) {struct v} : bool :=
  match v with
  | PNone | PBool _ => true
  | PInt _ | PFloat _ => false
  | PStr s => valid_str s
  | PList l =>
      match room with
      | O => false
      | S room' => forallb (wf_within room') l
      end
  | PDict d =>
      match room with
      | O => false
      | S room' =>
          keys_distinct (List.map fst d)
          && forallb (fun kv => valid_str (fst kv) && wf_within room' (snd kv))
               d
      end
  end.

(** The records of a catalog that [json.load] gives back as they were
    dumped: the list that holds them is one more level.  Every record the
    program builds from a decoded form is of this kind. *)
Definition wf (v : pyval) : bool := wf_within (Nat.pred nesting_room) v.

(** ** [json.dump(obj, file, indent=4)] *)

Definition hexdigit (d : N) : N := if d <? 10 then 48 + d else 87 + d.

(** ['\\u{0:04x}'.format(n)] *)
Definition u_escape (n : N) : text :=
  [92; 117; hexdigit (n / 4096 mod 16); hexdigit (n / 256 mod 16);
   hexdigit (n / 16 mod 16); hexdigit (n mod 16)].

(** [encode_basestring_ascii]: one code point.  Printable ASCII other than
    the quote and the backslash is copied; a code point above U+FFFF becomes
    a surrogate pair, its halves being [0xd800 | (n >> 10) & 0x3ff] and
    [0xdc00 | n & 0x3ff] for [n = c - 0x10000]. *)
Definition escape_char (c : N) : text :=
  if c =? 34 then [92; 34]
  else if c =? 92 then [92; 92]
  else if c =? 10 then [92; 110]
  else if c =? 13 then [92; 114]
  else if c =? 9 then [92; 116]
  else if c =? 12 then [92; 102]
  else if c =? 8 then [92; 98]
  else if (32 <=? c) && (c <=? 126) then [c]
  else if c <? 65536 then u_escape c
  else u_escape (55296 + ((c - 65536) / 1024) mod 1024)
       ++ u_escape (56320 + (c - 65536) mod 1024).

Definition encode_basestring_ascii (s : str) : text :=
  34 :: flat_map escape_char s ++ [34].

(** ['\n' + indent * level], with [indent] four spaces. *)
Definition newline_indent (level : nat) : text :=
  10 :: repeat 32 (4 * level)%nat.

Definition t_null : text := Eval cbv in lit "null".
Definition t_true : text := Eval cbv in lit "true".
Definition t_false : text := Eval cbv in lit "false".
Definition t_nan : text := Eval cbv in lit "NaN".
Definition t_infinity : text := Eval cbv in lit "Infinity".
Definition t_neg_infinity : text := Eval cbv in lit "-Infinity".

(** [floatstr] of the encoder: [float.__repr__], and with [allow_nan] left
    on the spellings [NaN], [Infinity] and [-Infinity]. *)
Definition floatstr (x : pyfloat) : text :=
  match x with
  | FNan => t_nan
  | FInf negative => if negative then t_neg_infinity else t_infinity
  | FFinite _ _ _ => float_repr x
  end.

(** [_iterencode] with its [_iterencode_list] and [_iterencode_dict]; the
    item separator is [","] followed by the new line and the key separator is
    [": "]. *)
Fixpoint iterencode (level : nat) (o : pyval) {struct o} : text :=
  match o with
  | PNone => t_null
  | PBool true => t_true
  | PBool false => t_false
  | PInt n => int_repr n
  | PFloat x => floatstr x
  | PStr s => encode_basestring_ascii s
  | PList [] => [91; 93]
  | PList (x :: xs) =>
      91 :: newline_indent (S level) ++ iterencode (S level) x
      ++ (fix items (l : list pyval) : text :=
            match l with
            | [] => []
            | y :: l' =>
                44 :: newline_indent (S level) ++ iterencode (S level) y
                ++ items l'
            end) xs
      ++ newline_indent level ++ [93]
  | PDict [] => [123; 125]
  | PDict ((k, x) :: kxs) =>
      123 :: newline_indent (S level) ++ encode_basestring_ascii k
      ++ [58; 32] ++ iterencode (S level) x
      ++ (fix items (l : list (str * pyval)) : text :=
            match l with
            | [] => []
            | (k', y) :: l' =>
                44 :: newline_indent (S level) ++ encode_basestring_ascii k'
                ++ [58; 32] ++ iterencode (S level) y ++ items l'
            end) kxs
      ++ newline_indent level ++ [125]
  end.

Definition json_dumps (o : pyval) : text := iterencode 0 o.

(** ** [json.load(file)] *)

Definition hexval (c : N) : option N :=
  if (48 <=? c) && (c <=? 57) then Some (c - 48)
  else if (97 <=? c) && (c <=? 102) then Some (c - 87)
  else if (65 <=? c) && (c <=? 70) then Some (c - 55)
  else None.

Definition decode_uXXXX (a b c d : N) : option N :=
  match hexval a, hexval b, hexval c, hexval d with
  | Some x, Some y, Some z, Some w => Some (((x * 16 + y) * 16 + z) * 16 + w)
  | _, _, _, _ => None
  end.

(** The [BACKSLASH] table of the decoder. *)
Definition backslash (e : N) : option N :=
  if e =? 34 then Some 34
  else if e =? 92 then Some 92
  else if e =? 47 then Some 47
  else if e =? 98 then Some 8
  else if e =? 102 then Some 12
  else if e =? 110 then Some 10
  else if e =? 114 then Some 13
  else if e =? 116 then Some 9
  else None.

Definition is_high (u : N) : bool := (55296 <=? u) && (u <=? 56319).
Definition is_low (u : N) : bool := (56320 <=? u) && (u <=? 57343).

(** [0x10000 + (((uni - 0xd800) << 10) | (uni2 - 0xdc00))] *)
Definition join_surrogates (hi lo : N) : N :=
  65536 + ((hi - 55296) * 1024 + (lo - 56320)).

(** [scanstring], strict: the text after the opening quote up to the closing
    one.  A raw control character, an unknown escape and a missing quote are
    errors. *)
Fixpoint scanstring (t : text) : option (str * text) :=
  let cons_to (c : N) (r : option (str * text)) :=
    match r with Some (s, rest) => Some (c :: s, rest) | None => None end in
  match t with
  | [] => None
  | c :: t1 =>
      if c =? 34 then Some ([], t1)
      else if c =? 92 then
        match t1 with
        | [] => None
        | e :: t2 =>
            if e =? 117 then
              match t2 with
              | h1 :: h2 :: h3 :: h4 :: t6 =>
                  match decode_uXXXX h1 h2 h3 h4 with
                  | None => None
                  | Some uni =>
                      if is_high uni then
                        match t6 with
                        | b :: u :: l1 :: l2 :: l3 :: l4 :: t12 =>
                            if (b =? 92) && (u =? 117) then
                              match decode_uXXXX l1 l2 l3 l4 with
                              | None => None
                              | Some uni2 =>
                                  if is_low uni2
                                  then cons_to (join_surrogates uni uni2)
                                         (scanstring t12)
                                  else cons_to uni (scanstring t6)
                              end
                            else cons_to uni (scanstring t6)
                        | _ => cons_to uni (scanstring t6)
                        end
                      else cons_to uni (scanstring t6)
                  end
              | _ => None
              end
            else
              match backslash e with
              | Some ch => cons_to ch (scanstring t2)
              | None => None
              end
        end
      else if c <? 32 then None
      else cons_to c (scanstring t1)
  end.

(** [WHITESPACE.match]: blanks, tabs, new lines and carriage returns. *)
Definition is_ws (c : N) : bool :=
  (c =? 32) || (c =? 9) || (c =? 10) || (c =? 13).

Fixpoint skip_ws (t : text) : text :=
  match t with
  | c :: t' => if is_ws c then skip_ws t' else t
  | [] => []
  end.

(** [string[idx:idx + len(p)] == p], giving the text after [p]. *)
Fixpoint after_prefix (p t : text) : option text :=
  match p, t with
  | [], _ => Some t
  | x :: p', y :: t' => if x =? y then after_prefix p' t' else None
  | _ :: _, [] => None
  end.

(** *** Numbers *)

Definition is_digit (c : N) : bool := (48 <=? c) && (c <=? 57).

(** The digits a text starts with, and what follows them. *)
Fixpoint span_digits (t : text) : text * text :=
  match t with
  | c :: t' =>
      if is_digit c
      then let (d, r) := span_digits t' in (c :: d, r)
      else ([], t)
  | [] => ([], [])
  end.

(** The number a run of digits writes. *)
Definition digits_value (d : text) : N :=
  fold_left (fun acc c => acc * 10 + (c - 48)) d 0.

(** [_match_number]: an optional minus, then [0] or a run of digits that
    does not start with [0]; a point counts when a digit follows it, and an
    exponent when it has a digit, the scanner going back to before the [e]
    otherwise.  A literal with neither is an [int], which [int(...)] refuses
    beyond [int_max_str_digits] digits; the others are read by
    [float(...)].  [JSONDecodeError] stands for the [StopIteration] that
    [raw_decode] turns into it. *)
Definition integer_part (t : text) : option (text * text) :=
  match t with
  | [] => None
  | c :: t' =>
      if (49 <=? c) && (c <=? 57)
      then let (d, r) := span_digits t' in Some (c :: d, r)
      else if c =? 48 then Some ([c], t')
      else None
  end.

Definition fraction_part (t : text) : option text * text :=
  match t with
  | 46 :: d :: r =>
      if is_digit d
      then let (ds, r') := span_digits r in (Some (d :: ds), r')
      else (None, t)
  | _ => (None, t)
  end.

Definition exponent_part (t : text) : option Z * text :=
  match t with
  | e :: r =>
      if (e =? 101) || (e =? 69) then
        let '(minus, r') :=
          match r with
          | 45 :: x => (true, x)
          | 43 :: x => (false, x)
          | _ => (false, r)
          end in
        let (ds, r'') := span_digits r' in
        match ds with
        | [] => (None, t)
        | _ :: _ =>
            (Some (if minus then (- Z.of_N (digits_value ds))%Z
                   else Z.of_N (digits_value ds)), r'')
        end
      else (None, t)
  | [] => (None, t)
  end.

Definition match_number (t : text) : result (pyval * text) :=
  let '(negative, t1) :=
    match t with
    | 45 :: t' => (true, t')
    | _ => (false, t)
    end in
  match integer_part t1 with
  | None => Raise JSONDecodeError
  | Some (idigits, r1) =>
      let '(fdigits, r2) := fraction_part r1 in
      let '(exponent, r3) := exponent_part r2 in
      match fdigits, exponent with
      | None, None =>
          if (int_max_str_digits <? length idigits)%nat
          then Raise ValueError
          else
            Ok (PInt (if negative then (- Z.of_N (digits_value idigits))%Z
                      else Z.of_N (digits_value idigits)), r3)
      | _, _ =>
          let fd := match fdigits with Some d => d | None => [] end in
          let ex := match exponent with Some x => x | None => 0%Z end in
          Ok (PFloat (float_of_decimal negative
                        (digits_value (idigits ++ fd))
                        (ex - Z.of_nat (length fd))%Z), r3)
      end
  end.

(** *** Values *)

(** [scan_once] with the loops of [JSONArray] and [JSONObject].  The first
    argument bounds the number of nested calls of the model; [json_loads]
    starts it above the length of the text, more than the scan of a text
    needs: every level of nesting costs two calls and has an opening and a
    closing bracket, every further item one call and a comma before the
    item.  The second argument is what is left of the recursion limit of
    the interpreter: entering a list or a dict takes one level, and
    [RecursionError] is raised when none is left.  The loops start at the
    first character of an item, the look-ahead for the empty array and the
    empty object being done by [scan_once].  [JSONDecodeError] stands for
    the [StopIteration] that [raw_decode] turns into it as well. *)
Fixpoint scan_once (n room : nat) (t : text) {struct n}
  : result (pyval * text) :=
  match n with
  | O => Raise JSONDecodeError
  | S n' =>
      match t with
      | [] => Raise JSONDecodeError
      | c :: t' =>
          if c =? 34 then
            match scanstring t' with
            | Some (s, r) => Ok (PStr s, r)
            | None => Raise JSONDecodeError
            end
          else if c =? 123 then
            match room with
            | O => Raise RecursionError
            | S room' =>
                match skip_ws t' with
                | [] => Raise JSONDecodeError
                | c' :: r =>
                    if c' =? 125 then Ok (PDict [], r)
                    else if c' =? 34 then
                      match JSONObject_loop n' room' r with
                      | Ok (ps, r') => Ok (PDict (dict_of_pairs ps), r')
                      | Raise e => Raise e
                      end
                    else Raise JSONDecodeError
                end
            end
          else if c =? 91 then
            match room with
            | O => Raise RecursionError
            | S room' =>
                match skip_ws t' with
                | [] => Raise JSONDecodeError
                | c' :: r =>
                    if c' =? 93 then Ok (PList [], r)
                    else
                      match JSONArray_loop n' room' (c' :: r) with
                      | Ok (vs, r') => Ok (PList vs, r')
                      | Raise e => Raise e
                      end
                end
            end
          else
            match after_prefix t_null t with
            | Some r => Ok (PNone, r)
            | None =>
            match after_prefix t_true t with
            | Some r => Ok (PBool true, r)
            | None =>
            match after_prefix t_false t with
            | Some r => Ok (PBool false, r)
            | None =>
            match after_prefix t_nan t with
            | Some r => Ok (PFloat FNan, r)
            | None =>
            match after_prefix t_infinity t with
            | Some r => Ok (PFloat (FInf false), r)
            | None =>
            match after_prefix t_neg_infinity t with
            | Some r => Ok (PFloat (FInf true), r)
            | None => match_number t
            end end end end end end
      end
  end

with JSONArray_loop (n room : nat) (t : text) {struct n}
  : result (list pyval * text) :=
  match n with
  | O => Raise JSONDecodeError
  | S n' =>
      match scan_once n' room t with
      | Raise e => Raise e
      | Ok (value, r) =>
          match skip_ws r with
          | [] => Raise JSONDecodeError
          | c :: r' =>
              if c =? 93 then Ok ([value], r')
              else if c =? 44 then
                match JSONArray_loop n' room (skip_ws r') with
                | Ok (vs, r'') => Ok (value :: vs, r'')
                | Raise e => Raise e
                end
              else Raise JSONDecodeError
          end
      end
  end

with JSONObject_loop (n room : nat) (t : text) {struct n}
  : result (list (str * pyval) * text) :=
  match n with
  | O => Raise JSONDecodeError
  | S n' =>
      match scanstring t with
      | None => Raise JSONDecodeError
      | Some (key, r) =>
          match skip_ws r with
          | [] => Raise JSONDecodeError
          | c :: r1 =>
              if c =? 58 then
                match scan_once n' room (skip_ws r1) with
                | Raise e => Raise e
                | Ok (value, r2) =>
                    match skip_ws r2 with
                    | [] => Raise JSONDecodeError
                    | c' :: r3 =>
                        if c' =? 125 then Ok ([(key, value)], r3)
                        else if c' =? 44 then
                          match skip_ws r3 with
                          | [] => Raise JSONDecodeError
                          | q :: r4 =>
                              if q =? 34 then
                                match JSONObject_loop n' room r4 with
                                | Ok (ps, r5) => Ok ((key, value) :: ps, r5)
                                | Raise e => Raise e
                                end
                              else Raise JSONDecodeError
                          end
                        else Raise JSONDecodeError
                    end
                end
              else Raise JSONDecodeError
          end
      end
  end.

(** [json.loads]: a leading byte order mark is refused, blanks around the
    value are skipped, and anything after it is an error ("Extra data"). *)
Definition json_loads (t : text) : result pyval :=
  match t with
  | 65279 :: _ => Raise JSONDecodeError
  | _ =>
      match scan_once (S (length t)) nesting_room (skip_ws t) with
      | Ok (obj, r) =>
          match skip_ws r with
          | [] => Ok obj
          | _ :: _ => Raise JSONDecodeError
          end
      | Raise e => Raise e
      end
  end.

(** ** Dynamic operations on values *)

(** [o[k]] for a [str] key [k]: only a dict can be indexed by text. *)
Definition subscript (o : pyval) (k : str) : result pyval :=
  match o with
  | PDict d =>
      match dict_get d k with
      | Some v => Ok v
      | None => Raise KeyError
      end
  | _ => Raise TypeError
  end.

(** [iter(o)]: a list gives its items, a dict its keys, a [str] its
    characters. *)
Definition py_iter (o : pyval) : result (list pyval) :=
  match o with
  | PList l => Ok l
  | PDict d => Ok (List.map (fun kv => PStr (fst kv)) d)
  | PStr s => Ok (List.map (fun c => PStr [c]) s)
  | PNone | PBool _ | PInt _ | PFloat _ => Raise TypeError
  end.

(** [len(o)] *)
Definition py_len (o : pyval) : result Z :=
  match o with
  | PList l => Ok (Z.of_nat (length l))
  | PDict d => Ok (Z.of_nat (length d))
  | PStr s => Ok (Z.of_nat (length s))
  | PNone | PBool _ | PInt _ | PFloat _ => Raise TypeError
  end.

(** [o.append(x)]: only a list has the method. *)
Definition py_append (o x : pyval) : result pyval :=
  match o with
  | PList l => Ok (PList (l ++ [x]))
  | _ => Raise AttributeError
  end.

(** [o == code] for a [str] [code]. *)
Definition eq_str (o : pyval) (code : str) : bool :=
  match o with
  | PStr s => str_eqb s code
  | _ => false
  end.

(** [bool(o)] *)
Definition truthy (o : pyval) : bool :=
  match o with
  | PNone => false
  | PBool b => b
  | PInt n => negb (n =? 0)%Z
  | PFloat (FFinite _ m _) => negb (m =? 0)
  | PFloat _ => true
  | PStr s => negb (str_eqb s [])
  | PList l => match l with [] => false | _ :: _ => true end
  | PDict d => match d with [] => false | _ :: _ => true end
  end.

(** [[course for course in courses if course['code'] != code]] on the items
    of [courses]. *)
Fixpoint without_code (items : list pyval) (code : str)
  : result (list pyval) :=
  match items with
  | [] => Ok []
  | course :: items' =>
      match subscript course (lit "code") with
      | Raise e => Raise e
      | Ok c =>
          match without_code items' code with
          | Raise e => Raise e
          | Ok kept =>
              Ok (if negb (eq_str c code) then course :: kept else kept)
          end
      end
  end.

(** [next((course for course in courses if course['code'] == code), None)]
    on the items of [courses]: the generator stops at the first match, the
    items after it are never looked at. *)
Fixpoint first_with_code (items : list pyval) (code : str)
  : result (option pyval) :=
  match items with
  | [] => Ok None
  | course :: items' =>
      match subscript course (lit "code") with
      | Raise e => Raise e
      | Ok c =>
          if eq_str c code then Ok (Some course)
          else first_with_code items' code
      end
  end.

(** ** The catalog file, [COURSE_FILE] *)

(** What the program may do with the file, and the text that [file.read()]
    gives: the file is opened in text mode, and its content is the decoded
    text. *)
Record file : Type := File {
  readable : bool;
  writable : bool;
  content : text
}.

(** [json.load(file)]: [json.loads(file.read())]. *)
Definition json_load (t : text) : result pyval := json_loads t.

(** [load_courses()] on the state of the file, [None] when it does not
    exist. *)
Definition load_courses_from (fs : option file) : result pyval :=
  match fs with
  | None => Ok (PList [])
  | Some f =>
      if readable f then json_load (content f) else Raise PermissionError
  end.

(** [with open(COURSE_FILE, 'w') as file: json.dump(data, file, indent=4)]:
    a missing file is created, an existing one is replaced whole.  The
    state holds the file and not its directory: the working directory is
    taken to be one where the program may create the file, so that [open]
    fails on a file that exists and is not writable, and on nothing else. *)
Definition dump_to (fs : option file) (data : pyval) : result (option file) :=
  match fs with
  | None => Ok (Some (File true true (json_dumps data)))
  | Some f =>
      if writable f
      then Ok (Some (File (readable f) true (json_dumps data)))
      else Raise PermissionError
  end.

(** ** Telemetry and the state of the process *)

(** What an attribute or a log field holds: a value of the program, a
    count, or a difference of two readings of the clock. *)
Inductive value : Type :=
| VPy (o : pyval)
| VInt (n : Z)
| VSeconds (d : Z).

Definition VStr (s : str) : value := VPy (PStr s).

Inductive span_kind : Type := INTERNAL | SERVER.

Record span : Type := Span {
  span_name : string;
  kind : span_kind;
  attributes : list (string * value);
  events : list string;
  status_error : bool
}.

Inductive level : Type := INFO | WARNING | ERROR.

Record log_record : Type := LogRecord {
  log_level : level;
  log_fields : list (string * value)
}.

(** The module's globals and what the process has written so far.
    [finished_spans] holds the spans that the handlers open themselves (the
    request span that [FlaskInstrumentor] adds around every handler is not a
    handler's doing and is left out), [app_log] the lines of [app.log].
    [time_source] gives the successive readings of [time.time()], in clock
    ticks; [ticks] counts the readings taken. *)
Record state : Type := State {
  course_file : option file;
  requests_count : gmap string Z;
  error_count : gmap string Z;
  open_spans : list span;
  finished_spans : list span;
  app_log : list log_record;
  flashed : list (str * string);
  time_source : nat -> Z;
  ticks : nat
}.

Record request : Type := Request {
  method : str;
  url : str;
  remote_addr : str;
  form : list (str * str)
}.

Inductive response : Type :=
| Render (template : string) (argument : option pyval)
| Redirect (endpoint : string)
| Body (body : string) (status_code : Z).

(** Handlers run in a state and either return or raise; what they wrote
    before raising stays written. *)
Definition M (A : Type) : Type := state -> result A * state.

Definition ret {A} (a : A) : M A := fun st => (Ok a, st).

Definition bind {A B} (m : M A) (k : A -> M B) : M B :=
  fun st =>
    match m st with
    | (Ok a, st') => k a st'
    | (Raise e, st') => (Raise e, st')
    end.

Notation "x <- m ;; k" := (bind m (fun x => k))
  (at level 100, m at next level, right associativity).
Notation "m ;;; k" := (bind m (fun _ => k))
  (at level 100, right associativity).

Definition lift {A} (r : result A) : M A := fun st => (r, st).

Definition exec {A} (m : M A) (st : state) : state := snd (m st).
Definition outcome {A} (m : M A) (st : state) : result A := fst (m st).

(** [time.time()] *)
Definition time_time : M Z := fun st =>
  (Ok (time_source st (ticks st)),
   State (course_file st) (requests_count st) (error_count st)
     (open_spans st) (finished_spans st) (app_log st) (flashed st)
     (time_source st) (S (ticks st))).

(** [counter[name]] on a [defaultdict(int)]. *)
Definition count_of (counter : gmap string Z) (name : string) : Z :=
  default 0%Z (counter !! name).

(** [counter[name] += 1] *)
Definition increment (counter : gmap string Z) (name : string)
  : gmap string Z :=
  <[name := (count_of counter name + 1)%Z]> counter.

Definition incr_requests (name : string) : M unit := fun st =>
  (Ok tt,
   State (course_file st) (increment (requests_count st) name)
     (error_count st) (open_spans st) (finished_spans st) (app_log st)
     (flashed st) (time_source st) (ticks st)).

Definition incr_errors (name : string) : M unit := fun st =>
  (Ok tt,
   State (course_file st) (requests_count st)
     (increment (error_count st) name) (open_spans st) (finished_spans st)
     (app_log st) (flashed st) (time_source st) (ticks st)).

Definition get_requests (name : string) : M Z := fun st =>
  (Ok (count_of (requests_count st) name), st).

Definition get_errors (name : string) : M Z := fun st =>
  (Ok (count_of (error_count st) name), st).

Definition set_open_spans (l : list span) (st : state) : state :=
  State (course_file st) (requests_count st) (error_count st) l
    (finished_spans st) (app_log st) (flashed st) (time_source st) (ticks st).

(** [span.set_attribute(key, v)] on the current span: a key already set is
    overwritten. *)
Fixpoint attr_set (l : list (string * value)) (key : string) (v : value)
  : list (string * value) :=
  match l with
  | [] => [(key, v)]
  | (k', v') :: l' =>
      if String.eqb k' key then (k', v) :: l' else (k', v') :: attr_set l' key v
  end.

Fixpoint attr_get (l : list (string * value)) (key : string) : option value :=
  match l with
  | [] => None
  | (k', v') :: l' => if String.eqb k' key then Some v' else attr_get l' key
  end.

Definition set_attribute (key : string) (v : value) : M unit := fun st =>
  match open_spans st with
  | [] => (Ok tt, st)
  | s :: rest =>
      (Ok tt,
       set_open_spans
         (Span (span_name s) (kind s) (attr_set (attributes s) key v)
            (events s) (status_error s) :: rest) st)
  end.

(** [span.add_event(name)] *)
Definition add_event (name : string) : M unit := fun st =>
  match open_spans st with
  | [] => (Ok tt, st)
  | s :: rest =>
      (Ok tt,
       set_open_spans
         (Span (span_name s) (kind s) (attributes s) (events s ++ [name])
            (status_error s) :: rest) st)
  end.

(** The exit of [tracer.start_as_current_span]: the current span ends and
    goes to the span processor. *)
Definition end_span (st : state) : state :=
  match open_spans st with
  | [] => st
  | s :: rest =>
      State (course_file st) (requests_count st) (error_count st) rest
        (finished_spans st ++ [s]) (app_log st) (flashed st) (time_source st)
        (ticks st)
  end.

(** An exception leaving the block is recorded on the span as an event and
    as its status, before the span ends. *)
Definition record_exception (st : state) : state :=
  match open_spans st with
  | [] => st
  | s :: rest =>
      set_open_spans
        (Span (span_name s) (kind s) (attributes s)
           (events s ++ ["exception"%string]) true :: rest) st
  end.

(** [with tracer.start_as_current_span(name, kind=k) as span: block]: the
    span ends on every way out of the block, and an exception goes on to the
    caller. *)
Definition with_span {A} (name : string) (k : span_kind) (block : M A)
  : M A := fun st =>
  match block (set_open_spans (Span name k [] [] false :: open_spans st) st)
  with
  | (Ok a, st') => (Ok a, end_span st')
  | (Raise e, st') => (Raise e, end_span (record_exception st'))
  end.

(** [logger.info], [logger.warning], [logger.error]: the logger's level is
    [INFO], each call writes one line to [app.log]. *)
Definition logger (lv : level) (fields : list (string * value)) : M unit :=
  fun st =>
  (Ok tt,
   State (course_file st) (requests_count st) (error_count st)
     (open_spans st) (finished_spans st)
     (app_log st ++ [LogRecord lv fields]) (flashed st) (time_source st)
     (ticks st)).

(** [flash(message, category)] *)
Definition flash (message : str) (category : string) : M unit := fun st =>
  (Ok tt,
   State (course_file st) (requests_count st) (error_count st)
     (open_spans st) (finished_spans st) (app_log st)
     (flashed st ++ [(message, category)]) (time_source st) (ticks st)).

Definition set_course_file (fs : option file) (st : state) : state :=
  State fs (requests_count st) (error_count st) (open_spans st)
    (finished_spans st) (app_log st) (flashed st) (time_source st) (ticks st).

(** ** Utility functions *)

Definition load_courses : M pyval := fun st =>
  (load_courses_from (course_file st), st).

(** The [with open(COURSE_FILE, 'w')] block. *)
Definition dump_courses (data : pyval) : M unit := fun st =>
  match dump_to (course_file st) data with
  | Ok fs' => (Ok tt, set_course_file fs' st)
  | Raise e => (Raise e, st)
  end.

Definition save_courses (data : pyval) : M unit :=
  courses <- load_courses ;;
  courses' <- lift (py_append courses data) ;;
  dump_courses courses'.

(** ** Routes *)

Definition index (req : request) : M response :=
  ret (Render "index.html" None).

Definition course_catalog (req : request) : M response :=
  start_time <- time_time ;;
  incr_requests "catalog" ;;;
  with_span "render-course-catalog" INTERNAL (
    set_attribute "http.method" (VStr (method req)) ;;;
    set_attribute "http.url" (VStr (url req)) ;;;
    set_attribute "user.ip" (VStr (remote_addr req)) ;;;
    count <- get_requests "catalog" ;;
    set_attribute "requests.count" (VInt count) ;;;
    add_event "Loading course catalog" ;;;
    courses <- load_courses ;;
    total <- lift (py_len courses) ;;
    set_attribute "total_courses" (VInt total) ;;;
    now <- time_time ;;
    set_attribute "processing_time" (VSeconds (now - start_time)) ;;;
    total' <- lift (py_len courses) ;;
    now' <- time_time ;;
    logger INFO
      [("event", VStr (lit "Page Rendered"));
       ("route", VStr (lit "/catalog"));
       ("total_courses", VInt total');
       ("processing_time", VSeconds (now' - start_time))] ;;;
    ret (Render "course_catalog.html" (Some courses))).

(** [request.form.get(key, '')]: the first value sent under [key]. *)
Fixpoint form_get (f : list (str * str)) (key : str) : str :=
  match f with
  | [] => []
  | (k, v) :: f' => if str_eqb k key then v else form_get f' key
  end.

Definition field (req : request) (key : string) : str * pyval :=
  (lit key, PStr (strip (form_get (form req) (lit key)))).

(** The dict built from the form by [add_course]. *)
Definition course_of_form (req : request) : pydict :=
  [field req "code"; field req "name"; field req "instructor";
   field req "semester"; field req "schedule"; field req "classroom";
   field req "prerequisites"; field req "grading"; field req "description"].

(** [f"{o}"] for a value that is text. *)
Definition format_str (o : pyval) : str :=
  match o with
  | PStr s => s
  | _ => []
  end.

(** The three required fields are read from the dict built just above, where
    the subscripts cannot raise: reading all three before the test gives what
    the short-circuit [or] gives. *)
Definition add_course (req : request) : M response :=
  start_time <- time_time ;;
  incr_requests "add_course" ;;;
  with_span "add-course" INTERNAL (
    set_attribute "http.method" (VStr (method req)) ;;;
    set_attribute "http.url" (VStr (url req)) ;;;
    set_attribute "user.ip" (VStr (remote_addr req)) ;;;
    count <- get_requests "add_course" ;;
    set_attribute "requests.count" (VInt count) ;;;
    if str_eqb (method req) (lit "POST") then
      let course := PDict (course_of_form req) in
      code <- lift (subscript course (lit "code")) ;;
      name <- lift (subscript course (lit "name")) ;;
      instructor <- lift (subscript course (lit "instructor")) ;;
      if negb (truthy code) || negb (truthy name) || negb (truthy instructor)
      then
        incr_errors "add_course" ;;;
        add_event "Validation failed: Missing required fields" ;;;
        errors <- get_errors "add_course" ;;
        set_attribute "error_count" (VInt errors) ;;;
        logger WARNING
          [("event", VStr (lit "Form Validation Error"));
           ("route", VStr (lit "/add_course"));
           ("error", VStr (lit "Missing required fields"))] ;;;
        flash (lit "Course Code, Course Name and Instructor are required!")
          "error" ;;;
        ret (Render "add_course.html" None)
      else
        save_courses course ;;;
        add_event "Course saved successfully" ;;;
        now <- time_time ;;
        set_attribute "processing_time" (VSeconds (now - start_time)) ;;;
        logger INFO
          [("event", VStr (lit "Course Added"));
           ("course_code", VPy code);
           ("course_name", VPy name)] ;;;
        flash (lit "Course '" ++ format_str name
               ++ lit "' added successfully!") "success" ;;;
        ret (Redirect "course_catalog")
    else ret (Render "add_course.html" None)).

Definition delete_course (code : str) (req : request) : M response :=
  courses <- load_courses ;;
  items <- lift (py_iter courses) ;;
  updated_courses <- lift (without_code items code) ;;
  dump_courses (PList updated_courses) ;;;
  flash (lit "Course with code '" ++ code ++ lit "' deleted successfully!")
    "success" ;;;
  ret (Redirect "course_catalog").

(** The branch taken by [course_details] when [not course] holds. *)
Definition course_not_found (code : str) : M response :=
  incr_errors "course_details" ;;;
  add_event "Course not found" ;;;
  errors <- get_errors "course_details" ;;
  set_attribute "error_count" (VInt errors) ;;;
  logger ERROR
    [("event", VStr (lit "Course Not Found"));
     ("route", VStr (lit "/course/<code>"));
     ("course_code", VStr code)] ;;;
  flash (lit "No course found with code '" ++ code ++ lit "'.") "error" ;;;
  ret (Redirect "course_catalog").

Definition course_details (code : str) (req : request) : M response :=
  start_time <- time_time ;;
  with_span "view-course-details" INTERNAL (
    set_attribute "http.method" (VStr (method req)) ;;;
    set_attribute "http.url" (VStr (url req)) ;;;
    set_attribute "user.ip" (VStr (remote_addr req)) ;;;
    set_attribute "course_code" (VStr code) ;;;
    courses <- load_courses ;;
    items <- lift (py_iter courses) ;;
    found <- lift (first_with_code items code) ;;
    match found with
    | None => course_not_found code
    | Some course =>
        if negb (truthy course) then course_not_found code
        else
          add_event "Course details rendered successfully" ;;;
          now <- time_time ;;
          set_attribute "processing_time" (VSeconds (now - start_time)) ;;;
          course_code <- lift (subscript course (lit "code")) ;;
          now' <- time_time ;;
          logger INFO
            [("event", VStr (lit "Course Details Rendered"));
             ("course_code", VPy course_code);
             ("processing_time", VSeconds (now' - start_time))] ;;;
          ret (Render "course_details.html" (Some course))
    end).

Definition manual_trace (req : request) : M response :=
  with_span "manual-span" SERVER (
    set_attribute "http.method" (VStr (method req)) ;;;
    set_attribute "http.url" (VStr (url req)) ;;;
    add_event "Processing request" ;;;
    ret (Body "Manual trace recorded!" 200)).

Definition auto_instrumented (req : request) : M response :=
  ret (Body "This route is auto-instrumented!" 200).

(** The URL map built by the [@app.route] decorators. *)
Inductive route : Type :=
| RIndex
| RCatalog
| RAddCourse
| RDeleteCourse (code : str)
| RCourseDetails (code : str)
| RManualTrace
| RAutoInstrumented.

Definition handle (r : route) (req : request) : M response :=
  match r with
  | RIndex => index req
  | RCatalog => course_catalog req
  | RAddCourse => add_course req
  | RDeleteCourse code => delete_course code req
  | RCourseDetails code => course_details code req
  | RManualTrace => manual_trace req
  | RAutoInstrumented => auto_instrumented req
  end.

(** ** Auxiliary definitions for the proofs *)

(** What the scanner does with a character it keeps. *)
Definition keep (c : N) (r : option (str * text)) : option (str * text) :=
  match r with
  | Some (s, rest) => Some (c :: s, rest)
  | None => None
  end.

(** The items after the first one, as [_iterencode_list] and
    [_iterencode_dict] write them. *)
Definition list_items (level : nat) : list pyval -> text :=
  fix items (l : list pyval) : text :=
    match l with
    | [] => []
    | y :: l' =>
        44 :: newline_indent (S level) ++ iterencode (S level) y ++ items l'
    end.

Definition dict_items (level : nat) : list (str * pyval) -> text :=
  fix items (l : list (str * pyval)) : text :=
    match l with
    | [] => []
    | (k', y) :: l' =>
        44 :: newline_indent (S level) ++ encode_basestring_ascii k'
        ++ [58; 32] ++ iterencode (S level) y ++ items l'
    end.

(** An encoded value starts with a character that is neither blank nor a
    closing bracket. *)
Definition opens_value (c : N) : bool :=
  negb (is_ws c) && negb (c =? 93) && negb (c =? 125).

Definition is_number (v : pyval) : bool :=
  match v with
  | PInt _ | PFloat _ => true
  | _ => false
  end.

(** Induction on values, with the hypothesis on every item of a list and on
    every entry of a dict. *)
Section pyval_induction.
Variable P : pyval -> Prop.
Hypothesis HNone : P PNone.
Hypothesis HBool : forall b, P (PBool b).
Hypothesis HInt : forall n, P (PInt n).
Hypothesis HFloat : forall x, P (PFloat x).
Hypothesis HStr : forall s, P (PStr s).
Hypothesis HList : forall l, Forall P l -> P (PList l).
Hypothesis HDict : forall d, Forall (fun kv => P (snd kv)) d -> P (PDict d).

Fixpoint pyval_nested_ind (v : pyval) : P v :=
  match v with
  | PNone => HNone
  | PBool b => HBool b
  | PInt n => HInt n
  | PFloat x => HFloat x
  | PStr s => HStr s
  | PList l =>
      HList l
        ((fix all (l : list pyval) : Forall P l :=
            match l with
            | [] => List.Forall_nil P
            | x :: l' => List.Forall_cons P x l' (pyval_nested_ind x) (all l')
            end) l)
  | PDict d =>
      HDict d
        ((fix all (d : list (str * pyval))
            : Forall (fun kv => P (snd kv)) d :=
            match d with
            | [] => List.Forall_nil _
            | kv :: d' =>
                List.Forall_cons _ kv d' (pyval_nested_ind (snd kv)) (all d')
            end) d)
  end.
End pyval_induction.

(** Scanning the encoding of a value gives the value back and stops right
    after it, whatever follows and at any indentation. *)
Definition scans_back (room : nat) (v : pyval) : Prop :=
  forall (level n : nat) (rest : text),
    (length (iterencode level v) < n)%nat ->
    scan_once n room (iterencode level v ++ rest) = Ok (v, rest).

(** The catalog file can be read and replaced, or does not exist yet. *)
Definition usable (fs : option file) : bool :=
  match fs with
  | None => true
  | Some f => readable f && writable f
  end.

(** The code of a record, when it is a dict that has one. *)
Definition code_of (course : pyval) : option pyval :=
  match course with
  | PDict d => dict_get d (lit "code")
  | _ => None
  end.

Definition has_code_field (course : pyval) : bool :=
  match code_of course with
  | Some _ => true
  | None => false
  end.

(** The record's code is the text [code]. *)
Definition has_code (code : str) (course : pyval) : bool :=
  match code_of course with
  | Some c => eq_str c code
  | None => false
  end.

(** A sequence of [save_courses] calls, one after the other. *)
Fixpoint save_all (records : list pyval) : M unit :=
  match records with
  | [] => ret tt
  | data :: records' => save_courses data ;;; save_all records'
  end.

(** The required field [key] of the form is absent or blank. *)
Definition missing (req : request) (key : string) : bool :=
  str_eqb (strip (form_get (form req) (lit key))) [].

Definition required_missing (req : request) : bool :=
  missing req "code" || missing req "name" || missing req "instructor".

(** Text that neither starts nor ends with a character [isspace] accepts. *)
Definition no_edge_space (s : str) : bool :=
  match s with
  | [] => true
  | c :: _ => negb (isspace c)
  end
  && match rev s with
     | [] => true
     | c :: _ => negb (isspace c)
     end.

(** The readings of the clock never go back. *)
Definition monotone (clock : nat -> Z) : Prop :=
  forall i : nat, (clock i <= clock (S i))%Z.

(** The handler that took [st] to [st'] ended the span [s], and no other. *)
Definition closes_span (st st' : state) (s : span) : Prop :=
  finished_spans st' = finished_spans st ++ [s].

(** The attribute [key] of the span [s] holds [v]. *)
Definition span_has (s : span) (key : string) (v : value) : Prop :=
  attr_get (attributes s) key = Some v.

(** Between [st] and [st'] one record went to the log and one span ended. *)
Definition one_record_one_span (st st' : state) : Prop :=
  (exists r, app_log st' = app_log st ++ [r])
  /\ (exists s, closes_span st st' s).

(** The span ended between [st] and [st'] carries an elapsed time that is
    not negative. *)
Definition elapsed_time_recorded (st st' : state) : Prop :=
  exists s d, closes_span st st' s
              /\ span_has s "processing_time" (VSeconds d) /\ (0 <= d)%Z.

(** One log record, one closed span, and the elapsed time on it: what a
    request to the route [r] would have to leave behind. *)
Definition fully_traced (r : route) (req : request) (st : state) : Prop :=
  one_record_one_span st (exec (handle r req) st)
  /\ elapsed_time_recorded st (exec (handle r req) st).

(** The span holds the method, the URL, the caller's address and a request
    count. *)
Definition records_request (req : request) (s : span) : Prop :=
  span_has s "http.method" (VStr (method req))
  /\ span_has s "http.url" (VStr (url req))
  /\ span_has s "user.ip" (VStr (remote_addr req))
  /\ exists n, span_has s "requests.count" (VInt n).

(** A process that has just started, with a clock that advances by one tick
    at each reading, and two requests. *)
Definition fresh_state : state :=
  State None ∅ ∅ [] [] [] [] (fun i => Z.of_nat i) 0.

Definition get_request : request :=
  Request (lit "GET") (lit "http://localhost:5000/") (lit "127.0.0.1") [].

Definition blank_name_form : request :=
  Request (lit "POST") (lit "http://localhost:5000/add_course")
    (lit "127.0.0.1")
    [(lit "code", lit "CS101"); (lit "name", lit "  ");
     (lit "instructor", lit "Dr. X")].

Definition nameless_form : request :=
  Request (lit "POST") (lit "http://localhost:5000/add_course")
    (lit "127.0.0.1")
    [(lit "code", lit "CS101"); (lit "instructor", lit "Dr. X")].

Definition intro_form : request :=
  Request (lit "POST") (lit "http://localhost:5000/add_course")
    (lit "127.0.0.1")
    [(lit "code", lit " CS101"); (lit "name", lit "Intro ");
     (lit "instructor", lit "Dr. X")].

Definition intro_course : pyval :=
  PDict [(lit "code", PStr (lit "CS101")); (lit "name", PStr (lit "Intro"));
         (lit "instructor", PStr (lit "Dr. X"))].

Definition logic_course : pyval :=
  PDict [(lit "code", PStr (lit "CS203")); (lit "name", PStr (lit "Logic"));
         (lit "instructor", PStr (lit "Dr. Y"))].

(** A second record with the code of [intro_course]. *)
Definition intro_again : pyval :=
  PDict [(lit "code", PStr (lit "CS101")); (lit "name", PStr (lit "Again"));
         (lit "instructor", PStr (lit "Dr. Z"))].

(** A process whose catalog file holds the given records. *)
Definition state_with (courses : list pyval) : state :=
  State (Some (File true true (json_dumps (PList courses)))) ∅ ∅ [] [] [] []
    (fun i => Z.of_nat i) 0.

(** A process whose catalog file is not JSON. *)
Definition state_corrupt : state :=
  State (Some (File true true (lit "[{"))) ∅ ∅ [] [] [] []
    (fun i => Z.of_nat i) 0.

Definition delete_request : request :=
  Request (lit "POST") (lit "http://localhost:5000/delete_course/CS101")
    (lit "127.0.0.1") [].

(** ** Definitions for the properties of the handlers *)

(** Every value of the form is text as a decoded request body holds it. *)
Definition form_valid (req : request) : bool :=
  forallb (fun kv => valid_str (snd kv)) (form req).

(** The required field [key] of a record is text that is not empty and has
    no blank at either end. *)
Definition field_filled (course : pyval) (key : string) : bool :=
  match course with
  | PDict d =>
      match dict_get d (lit key) with
      | Some (PStr s) => negb (str_eqb s []) && no_edge_space s
      | _ => false
      end
  | _ => false
  end.

(** A record as [add_course] accepts them: code, name and instructor are
    filled. *)
Definition complete (course : pyval) : bool :=
  field_filled course "code" && field_filled course "name"
  && field_filled course "instructor".

(** The catalog file loads as a list of complete records and can be written
    again. *)
Definition good_store (st : state) : Prop :=
  exists cs,
    load_courses_from (course_file st) = Ok (PList cs)
    /\ usable (course_file st) = true
    /\ forallb wf cs = true
    /\ forallb complete cs = true.

(** The routes whose handler writes the catalog file. *)
Definition writes_catalog (r : route) : bool :=
  match r with
  | RAddCourse | RDeleteCourse _ => true
  | _ => false
  end.

Definition is_catalog (r : route) : bool :=
  match r with
  | RCatalog => true
  | _ => false
  end.

Definition is_add_course (r : route) : bool :=
  match r with
  | RAddCourse => true
  | _ => false
  end.

(** Requests handled one after the other by the same process: the module's
    globals and the files carry over, and a handler that raises ends its own
    request only. *)
Fixpoint serve (requests : list (route * request)) (st : state) : state :=
  match requests with
  | [] => st
  | (r, req) :: requests' => serve requests' (exec (handle r req) st)
  end.

(** The list grew by one item at most, at its end. *)
Definition grows_by_one {A : Type} (l l' : list A) : Prop :=
  l' = l \/ exists x, l' = l ++ [x].

(** A process whose catalog file holds a JSON object, not a list. *)
Definition state_object : state :=
  State (Some (File true true (lit "{}"))) ∅ ∅ [] [] [] []
    (fun i => Z.of_nat i) 0.

(** A record that has no code. *)
Definition codeless_course : pyval :=
  PDict [(lit "name", PStr (lit "Nameless"))].

(** A character of the ASCII range. *)
Definition is_ascii (c : N) : bool := c <? 128.

(** The keys of the dict that [add_course] builds, in its order. *)
Definition course_keys : list string :=
  ["code"; "name"; "instructor"; "semester"; "schedule"; "classroom";
   "prerequisites"; "grading"; "description"]%string.

(** ** The JSON texts that [json.load] reads *)

(** The grammar of RFC 8259, with the three constants [NaN], [Infinity] and
    [-Infinity] that [json.load] reads as well.  It is written from the
    standard, not from the scanner.  A text is laid out as
    [ws value ws]; the index [d] bounds how deep its arrays and objects
    nest, the index [D] how many digits an integer literal has. *)
Definition blank (t : text) : bool := forallb is_ws t.

Definition is_hex (c : N) : bool :=
  is_digit c || ((97 <=? c) && (c <=? 102)) || ((65 <=? c) && (c <=? 70)).

(** The characters between the quotes of a string: any character from
    U+0020 on but the quote and the backslash, a backslash with a quote, a
    backslash, a slash or one of [b], [f], [n], [r] and [t], or [\u] with
    four hexadecimal digits. *)
Inductive json_chars : text -> Prop :=
| chars_end : json_chars []
| chars_plain (c : N) (t : text) :
    32 <= c -> c <> 34 -> c <> 92 -> json_chars t -> json_chars (c :: t)
| chars_escape (e : N) (t : text) :
    In e [34; 92; 47; 98; 102; 110; 114; 116] -> json_chars t ->
    json_chars (92 :: e :: t)
| chars_unicode (h1 h2 h3 h4 : N) (t : text) :
    forallb is_hex [h1; h2; h3; h4] = true -> json_chars t ->
    json_chars (92 :: 117 :: h1 :: h2 :: h3 :: h4 :: t).

(** One digit or more. *)
Definition digits (t : text) : Prop := t <> [] /\ forallb is_digit t = true.

(** [int = zero / ( digit1-9 *DIGIT )] *)
Inductive json_int : text -> Prop :=
| int_zero : json_int [48]
| int_digits (c : N) (t : text) :
    49 <= c <= 57 -> forallb is_digit t = true -> json_int (c :: t).

(** [[ frac ]], with [frac = decimal-point 1*DIGIT] *)
Inductive json_frac : text -> Prop :=
| frac_none : json_frac []
| frac_digits (t : text) : digits t -> json_frac (46 :: t).

(** [[ exp ]], with [exp = e [ minus / plus ] 1*DIGIT] *)
Inductive json_exp : text -> Prop :=
| exp_none : json_exp []
| exp_digits (e : N) (sign t : text) :
    e = 101 \/ e = 69 -> sign = [] \/ sign = [43] \/ sign = [45] ->
    digits t -> json_exp (e :: sign ++ t).

(** [number = [ minus ] int [ frac ] [ exp ]]; a number without fraction
    and exponent is an integer literal. *)
Inductive json_number (D : nat) : text -> Prop :=
| number_of (minus i f x : text) :
    minus = [] \/ minus = [45] -> json_int i -> json_frac f -> json_exp x ->
    (f = [] -> x = [] -> (length i <= D)%nat) ->
    json_number D (minus ++ i ++ f ++ x).

Inductive json_value (D : nat) : nat -> text -> Prop :=
| value_null (d : nat) : json_value D d t_null
| value_true (d : nat) : json_value D d t_true
| value_false (d : nat) : json_value D d t_false
| value_nan (d : nat) : json_value D d t_nan
| value_infinity (d : nat) : json_value D d t_infinity
| value_neg_infinity (d : nat) : json_value D d t_neg_infinity
| value_string (d : nat) (s : text) :
    json_chars s -> json_value D d (34 :: s ++ [34])
| value_number (d : nat) (t : text) :
    json_number D t -> json_value D d t
| value_empty_array (d : nat) (w : text) :
    blank w = true -> json_value D (S d) (91 :: w ++ [93])
| value_array (d : nat) (t : text) :
    json_items D d t -> json_value D (S d) (91 :: t ++ [93])
| value_empty_object (d : nat) (w : text) :
    blank w = true -> json_value D (S d) (123 :: w ++ [125])
| value_object (d : nat) (t : text) :
    json_members D d t -> json_value D (S d) (123 :: t ++ [125])

(** [ws value ws *( value-separator ws value ws )] *)
with json_items (D : nat) : nat -> text -> Prop :=
| items_last (d : nat) (w1 v w2 : text) :
    blank w1 = true -> json_value D d v -> blank w2 = true ->
    json_items D d (w1 ++ v ++ w2)
| items_more (d : nat) (w1 v w2 t : text) :
    blank w1 = true -> json_value D d v -> blank w2 = true ->
    json_items D d t ->
    json_items D d (w1 ++ v ++ w2 ++ 44 :: t)

(** [ws string ws name-separator ws value ws], separated likewise. *)
with json_members (D : nat) : nat -> text -> Prop :=
| members_last (d : nat) (w1 k w2 w3 v w4 : text) :
    blank w1 = true -> json_chars k -> blank w2 = true ->
    blank w3 = true -> json_value D d v -> blank w4 = true ->
    json_members D d (w1 ++ 34 :: k ++ 34 :: w2 ++ 58 :: w3 ++ v ++ w4)
| members_more (d : nat) (w1 k w2 w3 v w4 t : text) :
    blank w1 = true -> json_chars k -> blank w2 = true ->
    blank w3 = true -> json_value D d v -> blank w4 = true ->
    json_members D d t ->
    json_members D d
      (w1 ++ 34 :: k ++ 34 :: w2 ++ 58 :: w3 ++ v ++ w4 ++ 44 :: t).

Scheme json_value_mut := Minimality for json_value Sort Prop
  with json_items_mut := Minimality for json_items Sort Prop
  with json_members_mut := Minimality for json_members Sort Prop.
Combined Scheme json_mutual_ind
  from json_value_mut, json_items_mut, json_members_mut.

(** [JSON-text = ws value ws] *)
Definition json_document (D d : nat) (t : text) : Prop :=
  exists w1 v w2,
    blank w1 = true /\ json_value D d v /\ blank w2 = true
    /\ t = w1 ++ v ++ w2.

(** What a scan that started with [room] levels left may come to on a text
    of the grammar with bounds [D] and [d], followed by [rest]: it stops
    right after the text, or it ran out of levels or met too long an
    integer. *)
Definition scanned {A : Type} (D d room : nat) (rest : text)
    (r : result (A * text)) : Prop :=
  match r with
  | Ok (_, r') => r' = rest
  | Raise e =>
      (e = RecursionError /\ (room < d)%nat)
      \/ (e = ValueError /\ (int_max_str_digits < D)%nat)
  end.

(** What may follow a value: nothing, a blank, a comma or a closing
    bracket. *)
Definition delimited (rest : text) : bool :=
  match rest with
  | [] => true
  | c :: _ => is_ws c || (c =? 44) || (c =? 93) || (c =? 125)
  end.

(** The scan of the members of an object, from the blanks before a key. *)
Definition members_scan (n room : nat) (t : text)
  : result (list (str * pyval) * text) :=
  match skip_ws t with
  | [] => Raise JSONDecodeError
  | q :: r => if q =? 34 then JSONObject_loop n room r
              else Raise JSONDecodeError
  end.

(** What the scan is to do on the texts of the grammar: on a value followed
    by [rest], on the items of an array up to its closing bracket and on the
    members of an object up to its closing brace. *)
Definition value_scans (D d : nat) (v : text) : Prop :=
  forall (n room : nat) (rest : text),
    (length v < n)%nat -> delimited rest = true ->
    scanned D d room rest (scan_once n room (v ++ rest)).

Definition items_scan (D d : nat) (t : text) : Prop :=
  forall (n room : nat) (rest : text),
    (S (length t) < n)%nat ->
    scanned D d room rest (JSONArray_loop n room (skip_ws (t ++ 93 :: rest))).

Definition members_scanned (D d : nat) (t : text) : Prop :=
  forall (n room : nat) (rest : text),
    (S (length t) < n)%nat ->
    scanned D d room rest (members_scan n room (t ++ 125 :: rest)).

(** The text does not go on with a digit, a point, an exponent. *)
Definition no_digit_ahead (t : text) : bool :=
  match t with
  | [] => true
  | c :: _ => negb (is_digit c)
  end.

Definition no_point_ahead (t : text) : bool :=
  match t with
  | [] => true
  | c :: _ => negb (c =? 46)
  end.

Definition no_exponent_ahead (t : text) : bool :=
  match t with
  | [] => true
  | c :: _ => negb ((c =? 101) || (c =? 69))
  end.








(** * Properties *)

(** ** Text *)

Lemma str_eqb_eq (a b : str) : str_eqb a b = true <-> a = b.
Proof.
  revert b; induction a as [|x a IH]; intros [|y b]; simpl;
    try (split; [discriminate | congruence]); try tauto.
  rewrite andb_true_iff, N.eqb_eq, IH. split.
  - intros [-> ->]; reflexivity.
  - intros H; injection H; auto.
Qed.

Lemma str_eqb_refl (a : str) : str_eqb a a = true.
Proof. apply str_eqb_eq; reflexivity. Qed.

Lemma str_eqb_neq (a b : str) : str_eqb a b = false <-> a <> b.
Proof.
  rewrite <- str_eqb_eq. destruct (str_eqb a b); split; congruence.
Qed.

(** ** The string codec *)

Local Ltac Zify.zify_post_hook ::= Z.to_euclidean_division_equations.

Lemma hexval_hexdigit (d : N) : d < 16 -> hexval (hexdigit d) = Some d.
Proof.
  intros H.
  assert (d = 0 \/ d = 1 \/ d = 2 \/ d = 3 \/ d = 4 \/ d = 5 \/ d = 6
          \/ d = 7 \/ d = 8 \/ d = 9 \/ d = 10 \/ d = 11 \/ d = 12
          \/ d = 13 \/ d = 14 \/ d = 15) as Hd by lia.
  repeat (destruct Hd as [-> | Hd]; [reflexivity |]).
  subst d; reflexivity.
Qed.

Lemma decode_u_escape (n : N) :
  n < 65536 ->
  decode_uXXXX (hexdigit (n / 4096 mod 16)) (hexdigit (n / 256 mod 16))
    (hexdigit (n / 16 mod 16)) (hexdigit (n mod 16)) = Some n.
Proof.
  intros H. unfold decode_uXXXX.
  rewrite !hexval_hexdigit by (apply N.mod_lt; discriminate).
  f_equal. lia.
Qed.

Lemma scanstring_u (a b c d : N) (t : text) :
  scanstring (92 :: 117 :: a :: b :: c :: d :: t) =
  match decode_uXXXX a b c d with
  | None => None
  | Some uni =>
      if is_high uni then
        match t with
        | e :: u :: l1 :: l2 :: l3 :: l4 :: t12 =>
            if (e =? 92) && (u =? 117) then
              match decode_uXXXX l1 l2 l3 l4 with
              | None => None
              | Some uni2 =>
                  if is_low uni2
                  then keep (join_surrogates uni uni2) (scanstring t12)
                  else keep uni (scanstring t)
              end
            else keep uni (scanstring t)
        | _ => keep uni (scanstring t)
        end
      else keep uni (scanstring t)
  end.
Proof. reflexivity. Qed.

Lemma scanstring_plain (c : N) (t : text) :
  (c =? 34) = false -> (c =? 92) = false -> (c <? 32) = false ->
  scanstring (c :: t) = keep c (scanstring t).
Proof. intros H1 H2 H3. simpl. rewrite H1, H2, H3. reflexivity. Qed.

Lemma scanstring_escape_char (c : N) (t : text) :
  scalar c = true ->
  scanstring (escape_char c ++ t) = keep c (scanstring t).
Proof.
  intros Hc. unfold scalar, is_surrogate in Hc.
  unfold escape_char.
  repeat match goal with
  | |- context [if ?x =? ?k then _ else _] =>
      destruct (N.eqb_spec x k) as [-> | ?]; [reflexivity |]
  end.
  destruct ((32 <=? c) && (c <=? 126)) eqn:Hp.
  - apply scanstring_plain; lia.
  - destruct (N.ltb_spec c 65536) as [Hlt | Hge].
    + unfold u_escape. cbn [List.app]. rewrite scanstring_u.
      rewrite decode_u_escape by assumption.
      replace (is_high c) with false by (unfold is_high; lia).
      reflexivity.
    + unfold u_escape. cbn [List.app]. rewrite scanstring_u.
      rewrite decode_u_escape by lia.
      replace (is_high _) with true by (unfold is_high; lia).
      cbn [N.eqb Pos.eqb andb].
      rewrite decode_u_escape by lia.
      replace (is_low _) with true by (unfold is_low; lia).
      f_equal. unfold join_surrogates. lia.
Qed.

Lemma scanstring_encoded (s : str) (rest : text) :
  valid_str s = true ->
  scanstring (flat_map escape_char s ++ 34 :: rest) = Some (s, rest).
Proof.
  induction s as [|c s IH]; intros H.
  - reflexivity.
  - simpl in H. apply andb_true_iff in H as [Hc Hs].
    cbn [flat_map]. rewrite <- List.app_assoc.
    rewrite scanstring_escape_char by assumption.
    rewrite IH by assumption. reflexivity.
Qed.

(** ** The value codec *)

Lemma iterencode_list_cons (level : nat) (x : pyval) (xs : list pyval) :
  iterencode level (PList (x :: xs)) =
  91 :: newline_indent (S level) ++ iterencode (S level) x
  ++ list_items level xs ++ newline_indent level ++ [93].
Proof. reflexivity. Qed.

Lemma iterencode_dict_cons (level : nat) (k : str) (x : pyval)
    (kxs : list (str * pyval)) :
  iterencode level (PDict ((k, x) :: kxs)) =
  123 :: newline_indent (S level) ++ encode_basestring_ascii k
  ++ [58; 32] ++ iterencode (S level) x
  ++ dict_items level kxs ++ newline_indent level ++ [125].
Proof. reflexivity. Qed.

Lemma skip_ws_indent (level : nat) (t : text) :
  skip_ws (newline_indent level ++ t) = skip_ws t.
Proof.
  unfold newline_indent. cbn [List.app skip_ws is_ws N.eqb Pos.eqb orb].
  induction (4 * level)%nat as [|k IH]; [reflexivity | exact IH].
Qed.

Lemma iterencode_head (level : nat) (v : pyval) :
  is_number v = false ->
  exists c r, iterencode level v = c :: r /\ opens_value c = true.
Proof.
  destruct v as [| [|] | z | x | s | [|x xs] | [|[k x] kxs]]; intros H;
    try discriminate; cbn; eauto.
Qed.

Lemma skip_ws_head (c : N) (t : text) :
  is_ws c = false -> skip_ws (c :: t) = c :: t.
Proof. intros H. simpl. rewrite H. reflexivity. Qed.

Lemma newline_indent_length (level : nat) :
  (0 < length (newline_indent level))%nat.
Proof. unfold newline_indent. cbn [length]. lia. Qed.

Lemma skip_ws_value (level : nat) (v : pyval) (t : text) :
  is_number v = false ->
  skip_ws (iterencode level v ++ t) = iterencode level v ++ t.
Proof.
  intros Hv.
  destruct (iterencode_head level v Hv) as (c & r & E & Hc). rewrite E.
  apply skip_ws_head. unfold opens_value in Hc.
  destruct (is_ws c); [discriminate | reflexivity].
Qed.

Lemma list_items_cons (level : nat) (y : pyval) (l : list pyval) :
  list_items level (y :: l) =
  44 :: newline_indent (S level) ++ iterencode (S level) y
  ++ list_items level l.
Proof. reflexivity. Qed.

Lemma dict_items_cons (level : nat) (k : str) (y : pyval)
    (l : list (str * pyval)) :
  dict_items level ((k, y) :: l) =
  44 :: newline_indent (S level) ++ encode_basestring_ascii k
  ++ [58; 32] ++ iterencode (S level) y ++ dict_items level l.
Proof. reflexivity. Qed.

Lemma JSONArray_loop_S (n room : nat) (t : text) :
  JSONArray_loop (S n) room t =
  match scan_once n room t with
  | Raise e => Raise e
  | Ok (value, r) =>
      match skip_ws r with
      | [] => Raise JSONDecodeError
      | c :: r' =>
          if c =? 93 then Ok ([value], r')
          else if c =? 44 then
            match JSONArray_loop n room (skip_ws r') with
            | Ok (vs, r'') => Ok (value :: vs, r'')
            | Raise e => Raise e
            end
          else Raise JSONDecodeError
      end
  end.
Proof. reflexivity. Qed.

Lemma JSONObject_loop_S (n room : nat) (t : text) :
  JSONObject_loop (S n) room t =
  match scanstring t with
  | None => Raise JSONDecodeError
  | Some (key, r) =>
      match skip_ws r with
      | [] => Raise JSONDecodeError
      | c :: r1 =>
          if c =? 58 then
            match scan_once n room (skip_ws r1) with
            | Raise e => Raise e
            | Ok (value, r2) =>
                match skip_ws r2 with
                | [] => Raise JSONDecodeError
                | c' :: r3 =>
                    if c' =? 125 then Ok ([(key, value)], r3)
                    else if c' =? 44 then
                      match skip_ws r3 with
                      | [] => Raise JSONDecodeError
                      | q :: r4 =>
                          if q =? 34 then
                            match JSONObject_loop n room r4 with
                            | Ok (ps, r5) => Ok ((key, value) :: ps, r5)
                            | Raise e => Raise e
                            end
                          else Raise JSONDecodeError
                      end
                    else Raise JSONDecodeError
                end
            end
          else Raise JSONDecodeError
      end
  end.
Proof. reflexivity. Qed.

Lemma scan_once_array (n room level level' : nat) (v : pyval) (t : text) :
  is_number v = false ->
  scan_once (S n) (S room)
    (91 :: newline_indent level' ++ iterencode level v ++ t) =
  match JSONArray_loop n room (iterencode level v ++ t) with
  | Ok (vs, r') => Ok (PList vs, r')
  | Raise e => Raise e
  end.
Proof.
  intros Hv.
  cbn [scan_once N.eqb Pos.eqb]. rewrite skip_ws_indent, skip_ws_value by exact Hv.
  destruct (iterencode_head level v Hv) as (c & r & E & Hc). rewrite E.
  cbn [List.app]. unfold opens_value in Hc.
  destruct (c =? 93); [| reflexivity].
  rewrite andb_false_r in Hc; discriminate.
Qed.

Lemma scan_once_object (n room level : nat) (k : str) (t : text) :
  scan_once (S n) (S room)
    (123 :: newline_indent level ++ encode_basestring_ascii k ++ t) =
  match JSONObject_loop n room (flat_map escape_char k ++ 34 :: t) with
  | Ok (ps, r') => Ok (PDict (dict_of_pairs ps), r')
  | Raise e => Raise e
  end.
Proof.
  cbn [scan_once N.eqb Pos.eqb]. rewrite skip_ws_indent.
  unfold encode_basestring_ascii.
  cbn [List.app skip_ws is_ws N.eqb Pos.eqb orb].
  rewrite <- List.app_assoc. reflexivity.
Qed.

Lemma JSONArray_loop_items (room level : nat) (xs : list pyval) :
  forall (x : pyval) (n : nat) (rest : text),
    scans_back room x -> Forall (scans_back room) xs ->
    Forall (fun y => is_number y = false) xs ->
    (1 + length (iterencode (S level) x) + length (list_items level xs) < n)%nat ->
    JSONArray_loop n room
      (iterencode (S level) x ++ list_items level xs
       ++ newline_indent level ++ 93 :: rest) = Ok (x :: xs, rest).
Proof.
  induction xs as [|y ys IH]; intros x n rest Hx Hxs Hnum Hn;
    (destruct n as [|n]; [lia |]); rewrite JSONArray_loop_S.
  - rewrite Hx by (cbn in Hn; lia).
    cbn [list_items List.app]. rewrite skip_ws_indent. reflexivity.
  - rewrite Hx by lia. rewrite list_items_cons in *.
    cbn [List.app skip_ws is_ws N.eqb Pos.eqb orb].
    rewrite <- !List.app_assoc.
    inversion Hxs as [|? ? Hy Hys]; subst.
    inversion Hnum as [|? ? Hny Hnys]; subst.
    rewrite skip_ws_indent, skip_ws_value by exact Hny.
    rewrite IH; [reflexivity | assumption | assumption | assumption |].
    cbn [length] in Hn. rewrite !length_app in Hn. lia.
Qed.

Lemma JSONObject_loop_items (room level : nat) (kxs : list (str * pyval)) :
  forall (k : str) (x : pyval) (n : nat) (rest : text),
    valid_str k = true -> scans_back room x -> is_number x = false ->
    Forall (fun kv => valid_str (fst kv) = true /\ scans_back room (snd kv)
                      /\ is_number (snd kv) = false) kxs ->
    (1 + length (iterencode (S level) x) + length (dict_items level kxs) < n)%nat ->
    JSONObject_loop n room
      (flat_map escape_char k
       ++ 34 :: [58; 32] ++ iterencode (S level) x ++ dict_items level kxs
       ++ newline_indent level ++ 125 :: rest) = Ok ((k, x) :: kxs, rest).
Proof.
  induction kxs as [|[k' y] kys IH]; intros k x n rest Hk Hx Hnx Hkxs Hn;
    (destruct n as [|n]; [lia |]); rewrite JSONObject_loop_S;
    rewrite scanstring_encoded by assumption;
    cbn [List.app skip_ws is_ws N.eqb Pos.eqb orb];
    rewrite skip_ws_value by exact Hnx.
  - rewrite Hx by (cbn in Hn; lia).
    cbn [dict_items List.app]. rewrite skip_ws_indent. reflexivity.
  - rewrite Hx by lia. rewrite dict_items_cons in *.
    cbn [List.app skip_ws is_ws N.eqb Pos.eqb orb].
    rewrite <- !List.app_assoc. rewrite skip_ws_indent.
    unfold encode_basestring_ascii at 1.
    cbn [List.app skip_ws is_ws N.eqb Pos.eqb orb].
    rewrite <- !List.app_assoc.
    inversion Hkxs as [|? ? (Hk' & Hy & Hny) Hkys]; subst.
    cbn [fst snd] in *.
    assert (1 + length (iterencode (S level) y)
            + length (dict_items level kys) < n)%nat as Hn'.
    { cbn [length] in Hn. rewrite !length_app in Hn. cbn [length] in Hn.
      lia. }
    pose proof (IH k' y n rest Hk' Hy Hny Hkys Hn') as E.
    cbn [List.app] in E |- *. rewrite E. reflexivity.
Qed.

(** ** Dicts with distinct keys *)

Lemma existsb_str_eqb (k : str) (ks : list str) :
  existsb (str_eqb k) ks = false -> ~ In k ks.
Proof.
  induction ks as [|k' ks IH]; simpl; [tauto |].
  intros H. apply orb_false_iff in H as [H1 H2].
  apply str_eqb_neq in H1. intros [E | E]; [congruence | exact (IH H2 E)].
Qed.

Lemma dict_set_fresh (d : pydict) (k : str) (v : pyval) :
  ~ In k (List.map fst d) -> dict_set d k v = d ++ [(k, v)].
Proof.
  induction d as [|[k' v'] d IH]; simpl; intros H; [reflexivity |].
  destruct (str_eqb k' k) eqn:E.
  - apply str_eqb_eq in E. tauto.
  - rewrite IH by tauto. reflexivity.
Qed.

Lemma dict_of_pairs_from (ps d : pydict) :
  keys_distinct (List.map fst (d ++ ps)) = true ->
  fold_left (fun d kv => dict_set d (fst kv) (snd kv)) ps d = d ++ ps.
Proof.
  revert d; induction ps as [|[k v] ps IH]; intros d H; simpl.
  - rewrite List.app_nil_r. reflexivity.
  - rewrite dict_set_fresh.
    + rewrite IH; rewrite <- List.app_assoc; [reflexivity | exact H].
    + clear IH. induction d as [|[k' v'] d IHd]; simpl in *; [tauto |].
      apply andb_true_iff in H as [H1 H2]. apply negb_true_iff in H1.
      apply existsb_str_eqb in H1. intros [E | E].
      * apply H1. subst k'. rewrite List.map_app. apply in_or_app.
        right; left; reflexivity.
      * exact (IHd H2 E).
Qed.

Lemma dict_of_pairs_distinct (d : pydict) :
  keys_distinct (List.map fst d) = true -> dict_of_pairs d = d.
Proof. intros H. exact (dict_of_pairs_from d [] H). Qed.

(** ** Round trip of the JSON codec *)

Example json_dumps_sample :
  json_dumps (PList [PDict [(lit "code", PStr (lit "CS101"));
                            (lit "name", PStr [233; 10])];
                     PList []])
  = lit "[" ++ [10] ++ lit "    {" ++ [10]
    ++ lit "        " ++ [34] ++ lit "code" ++ [34] ++ lit ": "
    ++ [34] ++ lit "CS101" ++ [34] ++ lit "," ++ [10]
    ++ lit "        " ++ [34] ++ lit "name" ++ [34] ++ lit ": "
    ++ [34] ++ lit "\u00e9\n" ++ [34] ++ [10]
    ++ lit "    }," ++ [10] ++ lit "    []" ++ [10] ++ lit "]".
Proof. reflexivity. Qed.

Example json_loads_sample :
  json_loads (lit "[ {" ++ [34] ++ lit "code" ++ [34] ++ lit ":"
              ++ [34] ++ lit "\ud83d\ude00\t" ++ [34] ++ lit "} , null ]")
  = Ok (PList [PDict [(lit "code", PStr [128512; 9])]; PNone]).
Proof. vm_compute. reflexivity. Qed.

Example json_loads_trailing_comma :
  json_loads (lit "[null,]") = Raise JSONDecodeError.
Proof. vm_compute. reflexivity. Qed.

Example json_loads_extra_data :
  json_loads (lit "[] []") = Raise JSONDecodeError.
Proof. vm_compute. reflexivity. Qed.

Example json_loads_numbers :
  json_loads (lit "[0, -12, 3.50, 1e2, -0.0, 2.5e-3, 1E400, NaN, -Infinity]")
  = Ok (PList [PInt 0; PInt (-12);
               PFloat (FFinite false 7881299347898368 (-51));
               PFloat (FFinite false 7036874417766400 (-46));
               PFloat (FFinite true 0 0);
               PFloat (FFinite false 5764607523034235 (-61));
               PFloat (FInf false); PFloat FNan; PFloat (FInf true)]).
Proof. vm_compute. reflexivity. Qed.

Example json_loads_not_numbers :
  List.map json_loads [lit "01"; lit "1."; lit ".5"; lit "+1"; lit "-";
                       lit "1e5x"; lit "nan"; lit "0x10"]
  = repeat (Raise JSONDecodeError) 8.
Proof. vm_compute. reflexivity. Qed.

Example json_dumps_numbers :
  json_dumps
    (PDict [(lit "credits", PInt (-3));
            (lit "hours", PFloat (FFinite false 7881299347898368 (-51)));
            (lit "weight", PFloat (FFinite false 5764607523034235 (-61)));
            (lit "load", PFloat (FFinite false 4503599627370496 3));
            (lit "cap", PFloat (FInf false))])
  = lit "{" ++ [10]
    ++ lit "    " ++ [34] ++ lit "credits" ++ [34] ++ lit ": -3," ++ [10]
    ++ lit "    " ++ [34] ++ lit "hours" ++ [34] ++ lit ": 3.5," ++ [10]
    ++ lit "    " ++ [34] ++ lit "weight" ++ [34] ++ lit ": 0.0025," ++ [10]
    ++ lit "    " ++ [34] ++ lit "load" ++ [34]
    ++ lit ": 3.602879701896397e+16," ++ [10]
    ++ lit "    " ++ [34] ++ lit "cap" ++ [34] ++ lit ": Infinity" ++ [10]
    ++ lit "}".
Proof. vm_compute. reflexivity. Qed.

Example strip_sample :
  strip (lit "  Intro to  CS " ++ [160; 10]) = lit "Intro to  CS".
Proof. reflexivity. Qed.

Lemma wf_within_not_number (room : nat) (v : pyval) :
  wf_within room v = true -> is_number v = false.
Proof. destruct v; try reflexivity; discriminate. Qed.

Lemma scan_once_iterencode (v : pyval) :
  forall room, wf_within room v = true -> scans_back room v.
Proof.
  induction v as [| b | z | x | s | l IH | d IH] using pyval_nested_ind;
    intros room Hwf level n rest Hn; (destruct n as [|n]; [lia |]).
  - reflexivity.
  - destruct b; reflexivity.
  - discriminate.
  - discriminate.
  - cbn [iterencode]. unfold encode_basestring_ascii.
    cbn [List.app scan_once N.eqb Pos.eqb]. rewrite <- List.app_assoc.
    cbn [List.app]. rewrite scanstring_encoded by exact Hwf. reflexivity.
  - destruct room as [|room]; [discriminate |].
    destruct l as [|x xs]; [reflexivity |].
    rewrite iterencode_list_cons in *. cbn [List.app].
    rewrite <- !List.app_assoc.
    cbn [wf_within] in Hwf. cbn [forallb] in Hwf.
    apply andb_true_iff in Hwf as [Hx Hxs].
    rewrite scan_once_array by exact (wf_within_not_number _ _ Hx).
    inversion IH as [|? ? IHx IHxs]; subst.
    cbn [List.app].
    rewrite JSONArray_loop_items; [reflexivity | auto | | |].
    + clear - Hxs IHxs. induction IHxs as [|y ys Hy Hys IHl];
        [constructor |].
      cbn [forallb] in Hxs. apply andb_true_iff in Hxs as [H1 H2].
      constructor; auto.
    + clear - Hxs. induction xs as [|y ys IHl]; [constructor |].
      cbn [forallb] in Hxs. apply andb_true_iff in Hxs as [H1 H2].
      constructor; [exact (wf_within_not_number _ _ H1) | auto].
    + cbn [length] in Hn. rewrite !length_app in Hn. cbn [length] in Hn.
      pose proof (newline_indent_length (S level)). lia.
  - destruct room as [|room]; [discriminate |].
    destruct d as [|[k x] kxs]; [reflexivity |].
    rewrite iterencode_dict_cons in *. cbn [List.app].
    rewrite <- !List.app_assoc. rewrite scan_once_object.
    cbn [wf_within] in Hwf. apply andb_true_iff in Hwf as [Hkeys Hall].
    cbn [forallb fst snd] in Hall.
    apply andb_true_iff in Hall as [Hkx Hkxs].
    apply andb_true_iff in Hkx as [Hk Hx].
    inversion IH as [|? ? IHx IHkxs]; subst. cbn [snd] in IHx.
    assert (JSONObject_loop n room
              (flat_map escape_char k
               ++ 34 :: [58; 32] ++ iterencode (S level) x
               ++ dict_items level kxs ++ newline_indent level ++ 125 :: rest)
            = Ok ((k, x) :: kxs, rest)) as E;
      [apply JSONObject_loop_items;
       [auto | auto | exact (wf_within_not_number _ _ Hx) | |] |].
    3: { cbn [List.app] in E |- *. rewrite <- !List.app_assoc.
         cbn [List.app]. rewrite E.
         rewrite dict_of_pairs_distinct by exact Hkeys. reflexivity. }
    + clear - Hkxs IHkxs. induction IHkxs as [|[k' y] ys Hy Hys IHl];
        [constructor |].
      cbn [forallb fst snd] in Hkxs.
      apply andb_true_iff in Hkxs as [H1 H2].
      apply andb_true_iff in H1 as [H1 H1'].
      constructor; [| auto]. cbn [fst snd] in *.
      repeat split; [exact H1 | auto | exact (wf_within_not_number _ _ H1')].
    + cbn [length] in Hn. rewrite !length_app in Hn. cbn [length] in Hn.
      pose proof (newline_indent_length (S level)). lia.
Qed.

Lemma skip_ws_nil : skip_ws [] = [].
Proof. reflexivity. Qed.

#[local] Arguments nesting_room : simpl never.

Lemma json_loads_dumps (v : pyval) :
  wf_within nesting_room v = true -> json_loads (json_dumps v) = Ok v.
Proof.
  intros Hwf. unfold json_loads, json_dumps.
  pose proof (wf_within_not_number _ _ Hwf) as Hnum.
  destruct (iterencode_head 0 v Hnum) as (c & r & E & Hc).
  assert (c <> 65279) as Hbom.
  { destruct v as [| [|] | z | x | s | [|x xs] | [|[k x] kxs]];
      try discriminate; cbn in E; injection E as <- _; discriminate. }
  pose proof (scan_once_iterencode v nesting_room Hwf 0%nat
                (S (length (iterencode 0 v))) []) as H.
  rewrite List.app_nil_r in H.
  pose proof (skip_ws_value 0 v [] Hnum) as Hs. rewrite List.app_nil_r in Hs.
  rewrite Hs, H by lia.
  rewrite E. destruct c as [|p]; [reflexivity |].
  destruct (N.eq_dec (N.pos p) 65279) as [Heq | Hne]; [contradiction |].
  clear - Hne.
  repeat (destruct p as [p | p |]; try reflexivity). congruence.
Qed.

(** A list of records is one level above them. *)
Lemma wf_list (cs : list pyval) :
  forallb wf cs = true -> wf_within nesting_room (PList cs) = true.
Proof.
  intros H. change nesting_room with (S (Nat.pred nesting_room)).
  cbn [wf_within]. exact H.
Qed.

(** ** The catalog file *)

#[local] Arguments lit : simpl never.
#[local] Arguments str_eqb : simpl never.
#[local] Arguments strip : simpl never.
#[local] Arguments form_get : simpl never.
#[local] Arguments increment : simpl never.
#[local] Arguments count_of : simpl never.
#[local] Arguments subscript : simpl never.
#[local] Arguments json_dumps : simpl never.
#[local] Arguments json_loads : simpl never.
#[local] Arguments course_of_form : simpl never.

Lemma dump_then_load (fs : option file) (v : pyval) :
  usable fs = true -> wf_within nesting_room v = true ->
  exists fs', dump_to fs v = Ok fs' /\ load_courses_from fs' = Ok v
              /\ usable fs' = true.
Proof.
  intros Hu Hwf. destruct fs as [f|]; cbn in *.
  - apply andb_true_iff in Hu as [Hr Hw]. rewrite Hw.
    eexists; split; [reflexivity |]. cbn. rewrite Hr. unfold json_load.
    rewrite json_loads_dumps by assumption. auto.
  - eexists; split; [reflexivity |]. cbn. unfold json_load.
    rewrite json_loads_dumps by assumption. auto.
Qed.

Lemma forallb_wf_app (cs : list pyval) (data : pyval) :
  forallb wf cs = true -> wf data = true ->
  wf_within nesting_room (PList (cs ++ [data])) = true.
Proof.
  intros H1 H2. apply wf_list. rewrite forallb_app, H1. cbn [forallb].
  rewrite H2. reflexivity.
Qed.

Lemma save_courses_run (data : pyval) (cs : list pyval) (st : state) :
  load_courses_from (course_file st) = Ok (PList cs) ->
  usable (course_file st) = true ->
  forallb wf cs = true -> wf data = true ->
  exists fs',
    save_courses data st = (Ok tt, set_course_file fs' st)
    /\ dump_to (course_file st) (PList (cs ++ [data])) = Ok fs'
    /\ load_courses_from fs' = Ok (PList (cs ++ [data]))
    /\ usable fs' = true.
Proof.
  intros Hload Hu Hcs Hd.
  destruct (dump_then_load (course_file st) (PList (cs ++ [data])) Hu
              (forallb_wf_app cs data Hcs Hd)) as (fs' & Hdump & Hl & Hu').
  exists fs'. repeat split; try assumption.
  unfold save_courses, bind, load_courses, lift, dump_courses.
  rewrite Hload. cbn. rewrite Hdump. reflexivity.
Qed.

Lemma save_all_run (records : list pyval) :
  forall (cs : list pyval) (st : state),
    load_courses_from (course_file st) = Ok (PList cs) ->
    usable (course_file st) = true ->
    forallb wf cs = true -> forallb wf records = true ->
    exists fs',
      save_all records st = (Ok tt, set_course_file fs' st)
      /\ load_courses_from fs' = Ok (PList (cs ++ records))
      /\ usable fs' = true.
Proof.
  induction records as [|data records IH]; intros cs st Hload Hu Hcs Hrs.
  - exists (course_file st). rewrite List.app_nil_r.
    repeat split; try assumption. destruct st; reflexivity.
  - cbn [forallb] in Hrs. apply andb_true_iff in Hrs as [Hd Hrs].
    destruct (save_courses_run data cs st Hload Hu Hcs Hd)
      as (fs1 & Hrun & _ & Hl1 & Hu1).
    destruct (IH (cs ++ [data]) (set_course_file fs1 st)) as (fs2 & H2 & Hl2 & Hu2);
      try assumption.
    { rewrite forallb_app, Hcs. cbn. rewrite Hd. reflexivity. }
    exists fs2. rewrite <- List.app_assoc in Hl2. repeat split; try assumption.
    cbn [save_all]. unfold bind. rewrite Hrun, H2. reflexivity.
Qed.

(** C1. Records appended one after the other to a catalog that has no file
    yet are what [load_courses] returns afterwards, in the order of the
    calls. *)
Theorem appended_records_load_in_order (records : list pyval) (st : state) :
  forallb wf records = true -> course_file st = None ->
  outcome (save_all records ;;; load_courses) st = Ok (PList records).
Proof.
  intros Hrs Hnone.
  destruct (save_all_run records [] st) as (fs' & Hrun & Hl & _);
    try (rewrite Hnone); try reflexivity; try assumption.
  unfold outcome, bind. rewrite Hrun. cbn. exact Hl.
Qed.

(** C6. Writing a collection with the [json.dump] block of [delete_course]
    and loading it right away gives the same collection back. *)
Theorem replace_then_load_roundtrip (courses : list pyval) (st : state) :
  forallb wf courses = true -> usable (course_file st) = true ->
  outcome (dump_courses (PList courses) ;;; load_courses) st
  = Ok (PList courses).
Proof.
  intros Hcs Hu.
  destruct (dump_then_load (course_file st) (PList courses) Hu
              (wf_list courses Hcs))
    as (fs' & Hdump & Hl & _).
  unfold outcome, bind, dump_courses. rewrite Hdump. cbn. exact Hl.
Qed.

(** ** [json.load] reads every JSON text *)

(** *** Strings of the grammar *)

Lemma is_hex_hexval (c : N) : is_hex c = true -> exists x, hexval c = Some x.
Proof.
  unfold is_hex, is_digit, hexval. intros H.
  destruct ((48 <=? c) && (c <=? 57)); [eauto |].
  destruct ((97 <=? c) && (c <=? 102)); [eauto |].
  destruct ((65 <=? c) && (c <=? 70)); [eauto | discriminate].
Qed.

Lemma decode_hex (h1 h2 h3 h4 : N) :
  forallb is_hex [h1; h2; h3; h4] = true ->
  exists uni, decode_uXXXX h1 h2 h3 h4 = Some uni.
Proof.
  cbn [forallb]. rewrite !andb_true_iff. intros (H1 & H2 & H3 & H4 & _).
  destruct (is_hex_hexval _ H1) as [x1 E1].
  destruct (is_hex_hexval _ H2) as [x2 E2].
  destruct (is_hex_hexval _ H3) as [x3 E3].
  destruct (is_hex_hexval _ H4) as [x4 E4].
  unfold decode_uXXXX. rewrite E1, E2, E3, E4. eauto.
Qed.

Lemma json_chars_backslash (e : N) (t : text) :
  json_chars (92 :: e :: t) ->
  (In e [34; 92; 47; 98; 102; 110; 114; 116] /\ json_chars t)
  \/ exists h1 h2 h3 h4 t',
       e = 117 /\ t = h1 :: h2 :: h3 :: h4 :: t'
       /\ forallb is_hex [h1; h2; h3; h4] = true /\ json_chars t'.
Proof.
  intros H. inversion H; subst.
  - congruence.
  - left. auto.
  - right. do 5 eexists. eauto.
Qed.

Lemma keep_some (c : N) (r : option (str * text)) (rest : text) :
  (exists s, r = Some (s, rest)) -> exists s, keep c r = Some (s, rest).
Proof. intros [s ->]. cbn. eauto. Qed.

Lemma scanstring_chars_bounded (n : nat) :
  forall s rest, (length s <= n)%nat -> json_chars s ->
    exists s', scanstring (s ++ 34 :: rest) = Some (s', rest).
Proof.
  induction n as [|n IH]; intros s rest Hlen Hs.
  - destruct s; [| cbn in Hlen; lia]. cbn. eauto.
  - inversion Hs as [| c t Hc H34 H92 Ht | e t He Ht | h1 h2 h3 h4 t Hh Ht];
      subst; cbn [length] in Hlen.
    + cbn. eauto.
    + cbn [List.app]. rewrite scanstring_plain by lia.
      apply keep_some, IH; [lia | exact Ht].
    + cbn [List.app].
      assert (exists ch, scanstring (92 :: e :: t ++ 34 :: rest)
                         = keep ch (scanstring (t ++ 34 :: rest))) as [ch ->].
      { cbn [In] in He.
        repeat (destruct He as [<- | He]; [eexists; reflexivity |]).
        contradiction. }
      apply keep_some, IH; [lia | exact Ht].
    + cbn [List.app]. rewrite scanstring_u.
      destruct (decode_hex _ _ _ _ Hh) as [uni ->].
      assert (exists s', keep uni (scanstring (t ++ 34 :: rest))
                         = Some (s', rest)) as Hplain
        by (apply keep_some, IH; [lia | exact Ht]).
      destruct (is_high uni); [| exact Hplain].
      destruct (t ++ 34 :: rest) as [|b [|u [|l1 [|l2 [|l3 [|l4 t12]]]]]] eqn:E;
        try exact Hplain.
      destruct ((b =? 92) && (u =? 117)) eqn:Hbu; [| exact Hplain].
      apply andb_true_iff in Hbu as [Hb Hu].
      apply N.eqb_eq in Hb, Hu. subst b u.
      destruct t as [|b' [|u' t']]; try (cbn in E; discriminate E).
      cbn [List.app] in E. injection E as -> -> E.
      destruct (json_chars_backslash _ _ Ht) as [[Hin _] | Hu].
      { cbn [In] in Hin. repeat (destruct Hin as [Hin | Hin]; [discriminate |]).
        contradiction. }
      destruct Hu as (k1 & k2 & k3 & k4 & t'' & _ & -> & Hk & Ht'').
      cbn [List.app] in E. injection E as -> -> -> -> <-.
      destruct (decode_hex _ _ _ _ Hk) as [uni2 ->].
      destruct (is_low uni2); [| exact Hplain].
      apply keep_some, IH; [cbn [length] in Hlen; lia | exact Ht''].
Qed.

Lemma scanstring_chars (s rest : text) :
  json_chars s -> exists s', scanstring (s ++ 34 :: rest) = Some (s', rest).
Proof. apply (scanstring_chars_bounded (length s)). lia. Qed.

(** *** Numbers of the grammar *)

Lemma span_digits_app (d rest : text) :
  forallb is_digit d = true -> no_digit_ahead rest = true ->
  span_digits (d ++ rest) = (d, rest).
Proof.
  intros Hd Hrest. induction d as [|c d IH].
  - destruct rest as [|c rest]; [reflexivity |]. cbn in *.
    destruct (is_digit c); [discriminate | reflexivity].
  - cbn [forallb] in Hd. apply andb_true_iff in Hd as [Hc Hd].
    cbn [List.app span_digits]. rewrite Hc, IH by exact Hd. reflexivity.
Qed.

Lemma digits_head (t : text) :
  digits t -> exists c t', t = c :: t' /\ is_digit c = true
                           /\ forallb is_digit t' = true.
Proof.
  intros [Hne Hd]. destruct t as [|c t']; [contradiction |].
  cbn [forallb] in Hd. apply andb_true_iff in Hd as [Hc Hd]. eauto.
Qed.

Lemma json_int_head (i : text) :
  json_int i -> exists c t, i = c :: t /\ is_digit c = true.
Proof.
  intros [| c t Hc Ht]; do 2 eexists; split; try reflexivity.
  unfold is_digit. lia.
Qed.

Lemma integer_part_int (i rest : text) :
  json_int i -> no_digit_ahead rest = true ->
  integer_part (i ++ rest) = Some (i, rest).
Proof.
  intros [| c t Hc Ht] Hrest.
  - reflexivity.
  - cbn [List.app integer_part].
    replace ((49 <=? c) && (c <=? 57)) with true by lia.
    rewrite span_digits_app by assumption. reflexivity.
Qed.

Lemma fraction_part_frac (f rest : text) :
  json_frac f -> no_digit_ahead rest = true -> no_point_ahead rest = true ->
  fraction_part (f ++ rest)
  = (match f with [] => None | _ :: ds => Some ds end, rest).
Proof.
  intros [| t Ht] Hd Hp.
  - cbn [List.app]. destruct rest as [|c rest]; [reflexivity |].
    cbn in Hp. unfold fraction_part.
    destruct (N.eqb_spec c 46) as [-> | Hc]; [discriminate |].
    destruct c as [|q]; [reflexivity |].
    repeat (destruct q as [q | q |]; try reflexivity). congruence.
  - destruct (digits_head t Ht) as (c & t' & -> & Hc & Ht').
    cbn [List.app fraction_part]. rewrite Hc.
    rewrite span_digits_app by assumption. reflexivity.
Qed.

Lemma exponent_part_exp (x rest : text) :
  json_exp x -> no_digit_ahead rest = true -> no_exponent_ahead rest = true ->
  exists v, exponent_part (x ++ rest)
            = (match x with [] => None | _ :: _ => Some v end, rest).
Proof.
  intros [| e sign t He Hsign Ht] Hd Hx.
  - exists 0%Z. cbn [List.app]. destruct rest as [|c rest]; [reflexivity |].
    cbn in Hx. unfold exponent_part.
    destruct ((c =? 101) || (c =? 69)); [discriminate | reflexivity].
  - destruct (digits_head t Ht) as (c & t' & -> & Hc & Ht').
    assert (span_digits ((c :: t') ++ rest) = (c :: t', rest)) as Hspan
      by (apply span_digits_app; [cbn [forallb]; rewrite Hc; exact Ht' |
                                  exact Hd]).
    cbn [List.app exponent_part].
    replace ((e =? 101) || (e =? 69)) with true by lia.
    destruct Hsign as [-> | [-> | ->]]; cbn [List.app].
    + assert (c <> 45 /\ c <> 43) as [H45 H43]
        by (unfold is_digit in Hc; lia).
      assert (match c :: t' ++ rest with
              | 45 :: x => (true, x)
              | 43 :: x => (false, x)
              | _ => (false, c :: t' ++ rest)
              end = (false, c :: t' ++ rest)) as ->.
      { destruct c as [|q]; [reflexivity |].
        repeat (destruct q as [q | q |]; try reflexivity); congruence. }
      cbn [List.app] in Hspan. rewrite Hspan. eauto.
    + cbn [List.app] in Hspan. rewrite Hspan. eauto.
    + cbn [List.app] in Hspan. rewrite Hspan. eauto.
Qed.

Lemma delimited_no_digit (rest : text) :
  delimited rest = true ->
  no_digit_ahead rest = true /\ no_point_ahead rest = true
  /\ no_exponent_ahead rest = true.
Proof.
  destruct rest as [|c rest]; [auto |]. cbn. unfold is_ws, is_digit.
  intros H. repeat split; lia.
Qed.

Lemma json_exp_head (x rest : text) :
  json_exp x -> delimited rest = true ->
  no_digit_ahead (x ++ rest) = true /\ no_point_ahead (x ++ rest) = true.
Proof.
  intros [| e sign t He _ _] Hrest.
  - cbn [List.app]. apply delimited_no_digit in Hrest. tauto.
  - cbn. unfold is_digit. split; lia.
Qed.

Lemma json_frac_head (f rest : text) :
  json_frac f -> no_digit_ahead rest = true ->
  no_digit_ahead (f ++ rest) = true.
Proof. intros [| t _] H; [exact H | reflexivity]. Qed.

Lemma match_number_complete (D d room : nat) (t rest : text) :
  json_number D t -> delimited rest = true ->
  scanned D d room rest (match_number (t ++ rest)).
Proof.
  intros [minus i f x Hminus Hi Hf Hx Hlen] Hrest.
  destruct (delimited_no_digit rest Hrest) as (Hd & Hp & He).
  destruct (json_exp_head x rest Hx Hrest) as (Hxd & Hxp).
  pose proof (json_frac_head f (x ++ rest) Hf Hxd) as Hfd.
  destruct (exponent_part_exp x rest Hx Hd He) as [v Hexp].
  pose proof (fraction_part_frac f (x ++ rest) Hf Hxd Hxp) as Hfrac.
  pose proof (integer_part_int i (f ++ x ++ rest) Hi Hfd) as Hint.
  destruct (json_int_head i Hi) as (c & i' & Ei & Hc).
  assert (match_number ((minus ++ i ++ f ++ x) ++ rest)
          = match integer_part (i ++ f ++ x ++ rest) with
            | None => Raise JSONDecodeError
            | Some (idigits, r1) =>
                let '(fdigits, r2) := fraction_part r1 in
                let '(exponent, r3) := exponent_part r2 in
                match fdigits, exponent with
                | None, None =>
                    if (int_max_str_digits <? length idigits)%nat
                    then Raise ValueError
                    else
                      Ok (PInt (if match minus with [] => false | _ => true end
                                then (- Z.of_N (digits_value idigits))%Z
                                else Z.of_N (digits_value idigits)), r3)
                | _, _ =>
                    let fd := match fdigits with Some d => d | None => [] end in
                    let ex := match exponent with Some x => x | None => 0%Z end in
                    Ok (PFloat (float_of_decimal
                                  match minus with [] => false | _ => true end
                                  (digits_value (idigits ++ fd))
                                  (ex - Z.of_nat (length fd))%Z), r3)
                end
            end) as ->.
  { rewrite <- !List.app_assoc.
    destruct Hminus as [-> | ->]; [| reflexivity].
    cbn [List.app]. subst i. cbn [List.app]. unfold match_number.
    assert (c <> 45) as H45 by (unfold is_digit in Hc; lia).
    destruct c as [|q]; [reflexivity |].
    repeat (destruct q as [q | q |]; try reflexivity); congruence. }
  rewrite Hint, Hfrac, Hexp.
  destruct f as [|f0 f']; destruct x as [|x0 x']; cbn [scanned]; auto.
  destruct (int_max_str_digits <? length i)%nat eqn:Hbig; cbn [scanned]; auto.
  right. split; [reflexivity |].
  specialize (Hlen eq_refl eq_refl). apply Nat.ltb_lt in Hbig. lia.
Qed.

(** *** Values of the grammar *)

Lemma skip_ws_blank (w t : text) :
  blank w = true -> skip_ws (w ++ t) = skip_ws t.
Proof.
  induction w as [|c w IH]; intros H; [reflexivity |].
  cbn [blank forallb] in H. apply andb_true_iff in H as [Hc Hw].
  cbn [List.app skip_ws]. rewrite Hc. apply IH. exact Hw.
Qed.

Lemma delimited_blank (w : text) (c : N) (t : text) :
  blank w = true -> c = 44 \/ c = 93 \/ c = 125 ->
  delimited (w ++ c :: t) = true.
Proof.
  intros Hw Hc. destruct w as [|c' w].
  - cbn. destruct Hc as [-> | [-> | ->]]; reflexivity.
  - cbn [blank forallb] in Hw. apply andb_true_iff in Hw as [Hc' _].
    cbn. rewrite Hc'. reflexivity.
Qed.

Lemma json_number_head (D : nat) (t : text) :
  json_number D t ->
  exists c r, t = c :: r
    /\ ((is_digit c = true)
        \/ (c = 45 /\ exists c' r', r = c' :: r' /\ is_digit c' = true)).
Proof.
  intros [minus i f x Hminus Hi _ _ _].
  destruct (json_int_head i Hi) as (c & i' & -> & Hc).
  destruct Hminus as [-> | ->]; cbn [List.app]; do 2 eexists;
    (split; [reflexivity |]); [left; exact Hc |].
  right. split; [reflexivity |]. eauto.
Qed.

Lemma json_value_head (D d : nat) (v : text) :
  json_value D d v ->
  exists c r, v = c :: r /\ opens_value c = true.
Proof.
  intros [| | | | | | ? s _ | ? t Ht | | | |];
    try (do 2 eexists; split; reflexivity).
  destruct (json_number_head D t Ht) as (c & r & -> & [Hc | [-> _]]);
    do 2 eexists; (split; [reflexivity |]); [| reflexivity].
  unfold opens_value, is_ws. unfold is_digit in Hc. lia.
Qed.

Lemma skip_ws_json_value (D d : nat) (v t : text) :
  json_value D d v -> skip_ws (v ++ t) = v ++ t.
Proof.
  intros Hv. destruct (json_value_head D d v Hv) as (c & r & -> & Hc).
  cbn [List.app]. apply skip_ws_head. unfold opens_value in Hc.
  destruct (is_ws c); [discriminate | reflexivity].
Qed.

Lemma scan_once_number (D n room : nat) (t rest : text) :
  json_number D t ->
  scan_once (S n) room (t ++ rest) = match_number (t ++ rest).
Proof.
  intros Ht.
  destruct (json_number_head D t Ht)
    as (c & r & -> & [Hc | (-> & c' & r' & -> & Hc')]);
    cbn [List.app scan_once]; unfold is_digit in *.
  - replace (c =? 34) with false by lia.
    replace (c =? 123) with false by lia.
    replace (c =? 91) with false by lia.
    unfold t_null, t_true, t_false, t_nan, t_infinity, t_neg_infinity.
    cbn [after_prefix].
    replace (110 =? c) with false by lia.
    replace (116 =? c) with false by lia.
    replace (102 =? c) with false by lia.
    replace (78 =? c) with false by lia.
    replace (73 =? c) with false by lia.
    replace (45 =? c) with false by lia.
    reflexivity.
  - change (45 =? 34) with false. change (45 =? 123) with false.
    change (45 =? 91) with false.
    unfold t_null, t_true, t_false, t_nan, t_infinity, t_neg_infinity.
    cbn [after_prefix].
    change (110 =? 45) with false. change (116 =? 45) with false.
    change (102 =? 45) with false. change (78 =? 45) with false.
    change (73 =? 45) with false. change (45 =? 45) with true.
    replace (73 =? c') with false by lia.
    reflexivity.
Qed.

Lemma scan_once_string (n room : nat) (t : text) :
  scan_once (S n) room (34 :: t) =
  match scanstring t with
  | Some (s, r) => Ok (PStr s, r)
  | None => Raise JSONDecodeError
  end.
Proof. reflexivity. Qed.

Lemma scan_once_bracket (n room : nat) (t : text) :
  scan_once (S n) room (91 :: t) =
  match room with
  | O => Raise RecursionError
  | S room' =>
      match skip_ws t with
      | [] => Raise JSONDecodeError
      | c' :: r =>
          if c' =? 93 then Ok (PList [], r)
          else
            match JSONArray_loop n room' (c' :: r) with
            | Ok (vs, r') => Ok (PList vs, r')
            | Raise e => Raise e
            end
      end
  end.
Proof. reflexivity. Qed.

Lemma scan_once_brace (n room : nat) (t : text) :
  scan_once (S n) room (123 :: t) =
  match room with
  | O => Raise RecursionError
  | S room' =>
      match skip_ws t with
      | [] => Raise JSONDecodeError
      | c' :: r =>
          if c' =? 125 then Ok (PDict [], r)
          else
            match members_scan n room' t with
            | Ok (ps, r') => Ok (PDict (dict_of_pairs ps), r')
            | Raise e => Raise e
            end
      end
  end.
Proof.
  cbn [scan_once N.eqb Pos.eqb]. unfold members_scan.
  destruct room as [|room']; [reflexivity |].
  destruct (skip_ws t) as [|c' r]; [reflexivity |].
  destruct (c' =? 125); [reflexivity |].
  destruct (c' =? 34); reflexivity.
Qed.

Lemma JSONObject_loop_members (n room : nat) (t : text) :
  JSONObject_loop (S n) room t =
  match scanstring t with
  | None => Raise JSONDecodeError
  | Some (key, r) =>
      match skip_ws r with
      | [] => Raise JSONDecodeError
      | c :: r1 =>
          if c =? 58 then
            match scan_once n room (skip_ws r1) with
            | Raise e => Raise e
            | Ok (value, r2) =>
                match skip_ws r2 with
                | [] => Raise JSONDecodeError
                | c' :: r3 =>
                    if c' =? 125 then Ok ([(key, value)], r3)
                    else if c' =? 44 then
                      match members_scan n room r3 with
                      | Ok (ps, r5) => Ok ((key, value) :: ps, r5)
                      | Raise e => Raise e
                      end
                    else Raise JSONDecodeError
                end
            end
          else Raise JSONDecodeError
      end
  end.
Proof.
  rewrite JSONObject_loop_S. unfold members_scan.
  destruct (scanstring t) as [[key r] |]; [| reflexivity].
  destruct (skip_ws r) as [|c r1]; [reflexivity |].
  destruct (c =? 58); [| reflexivity].
  destruct (scan_once n room (skip_ws r1)) as [[value r2] | e];
    [| reflexivity].
  destruct (skip_ws r2) as [|c' r3]; [reflexivity |].
  destruct (c' =? 125); [reflexivity |].
  destruct (c' =? 44); [| reflexivity].
  destruct (skip_ws r3) as [|q r4]; [reflexivity |].
  destruct (q =? 34); reflexivity.
Qed.

(** A failure one level down is a failure of the list or the dict. *)
Lemma scanned_deeper {A B : Type} (D d room : nat) (rest : text)
    (f : A -> B) (r : result (A * text)) :
  scanned D d room rest r ->
  scanned D (S d) (S room) rest
    match r with
    | Ok (a, r') => Ok (f a, r')
    | Raise e => Raise e
    end.
Proof.
  destruct r as [[a r'] | e]; cbn [scanned]; [auto |].
  intros [[-> H] | [-> H]]; [left | right]; split; auto; lia.
Qed.

Lemma scanned_same {A B : Type} (D d room : nat) (rest : text)
    (f : A -> B) (r : result (A * text)) :
  scanned D d room rest r ->
  scanned D d room rest
    match r with
    | Ok (a, r') => Ok (f a, r')
    | Raise e => Raise e
    end.
Proof. destruct r as [[a r'] | e]; cbn [scanned]; auto. Qed.

Local Ltac lengths H :=
  repeat (progress (cbn [length] in H; rewrite ?length_app in H)).

Local Ltac right_assoc :=
  repeat (progress (rewrite <- ?List.app_assoc; cbn [List.app])).

Lemma scan_constant (D d : nat) (t : text) :
  In t [t_null; t_true; t_false; t_nan; t_infinity; t_neg_infinity] ->
  value_scans D d t.
Proof.
  intros Hin n room rest Hn _. destruct n as [|n]; [lia |].
  cbn [In] in Hin.
  repeat (destruct Hin as [<- | Hin]; [reflexivity |]). contradiction.
Qed.

Lemma scan_item (D d : nat) (w1 v w2 : text) (c : N) (t : text)
    (n room : nat) :
  blank w1 = true -> json_value D d v -> value_scans D d v ->
  blank w2 = true -> c = 44 \/ c = 93 \/ c = 125 ->
  (length v < n)%nat ->
  match scan_once n room (skip_ws (w1 ++ v ++ w2 ++ c :: t)) with
  | Ok (_, r) => skip_ws r = c :: t
  | Raise e =>
      (e = RecursionError /\ (room < d)%nat)
      \/ (e = ValueError /\ (int_max_str_digits < D)%nat)
  end.
Proof.
  intros Hw1 Hv IH Hw2 Hc Hn.
  rewrite skip_ws_blank, (skip_ws_json_value D d) by assumption.
  pose proof (IH n room (w2 ++ c :: t) Hn (delimited_blank w2 c t Hw2 Hc))
    as H.
  destruct (scan_once n room (v ++ w2 ++ c :: t)) as [[value r] | e];
    cbn [scanned] in H; [| exact H].
  subst r. rewrite skip_ws_blank by assumption.
  apply skip_ws_head. destruct Hc as [-> | [-> | ->]]; reflexivity.
Qed.

Lemma scan_complete (D : nat) :
  (forall d v, json_value D d v -> value_scans D d v)
  /\ (forall d t, json_items D d t -> items_scan D d t)
  /\ (forall d t, json_members D d t -> members_scanned D d t).
Proof.
  apply json_mutual_ind.
  - intros d. apply scan_constant. cbn [In]. tauto.
  - intros d. apply scan_constant. cbn [In]. tauto.
  - intros d. apply scan_constant. cbn [In]. tauto.
  - intros d. apply scan_constant. cbn [In]. tauto.
  - intros d. apply scan_constant. cbn [In]. tauto.
  - intros d. apply scan_constant. cbn [In]. tauto.
  - (* string *)
    intros d s Hs n room rest Hn _. destruct n as [|n]; [lia |].
    cbn [List.app]. rewrite <- List.app_assoc. cbn [List.app].
    rewrite scan_once_string.
    destruct (scanstring_chars s rest Hs) as [s' ->]. reflexivity.
  - (* number *)
    intros d t Ht n room rest Hn Hrest. destruct n as [|n]; [lia |].
    rewrite (scan_once_number D) by exact Ht.
    apply match_number_complete; assumption.
  - (* empty array *)
    intros d w Hw n room rest Hn _. destruct n as [|n]; [lia |].
    cbn [List.app]. rewrite <- List.app_assoc. cbn [List.app].
    rewrite scan_once_bracket.
    destruct room as [|room]; [left; split; [reflexivity | lia] |].
    rewrite skip_ws_blank by exact Hw. reflexivity.
  - (* array *)
    intros d t Ht IH n room rest Hn _. destruct n as [|n]; [lia |].
    cbn [List.app]. rewrite <- List.app_assoc. cbn [List.app].
    rewrite scan_once_bracket.
    destruct room as [|room]; [left; split; [reflexivity | lia] |].
    assert (exists c r, skip_ws (t ++ 93 :: rest) = c :: r
                        /\ (c =? 93) = false) as (c & r & E & Hc).
    { destruct Ht as [d w1 v w2 Hw1 Hv Hw2 | d w1 v w2 t Hw1 Hv Hw2 Ht];
        rewrite <- !List.app_assoc;
        rewrite skip_ws_blank, (skip_ws_json_value D d) by assumption;
        destruct (json_value_head D d v Hv) as (c & r & -> & Hc);
        cbn [List.app]; do 2 eexists; (split; [reflexivity |]);
        unfold opens_value in Hc; lia. }
    rewrite E, Hc, <- E.
    apply scanned_deeper, IH.
    lengths Hn. lia.
  - (* empty object *)
    intros d w Hw n room rest Hn _. destruct n as [|n]; [lia |].
    cbn [List.app]. rewrite <- List.app_assoc. cbn [List.app].
    rewrite scan_once_brace.
    destruct room as [|room]; [left; split; [reflexivity | lia] |].
    rewrite skip_ws_blank by exact Hw. reflexivity.
  - (* object *)
    intros d t Ht IH n room rest Hn _. destruct n as [|n]; [lia |].
    cbn [List.app]. rewrite <- List.app_assoc. cbn [List.app].
    rewrite scan_once_brace.
    destruct room as [|room]; [left; split; [reflexivity | lia] |].
    assert (exists r, skip_ws (t ++ 125 :: rest) = 34 :: r) as (r & E).
    { destruct Ht as [d w1 k w2 w3 v w4 Hw1 | d w1 k w2 w3 v w4 t Hw1];
        rewrite <- !List.app_assoc;
        rewrite skip_ws_blank by assumption; cbn [List.app];
        eexists; reflexivity. }
    rewrite E. cbn [N.eqb Pos.eqb].
    apply scanned_deeper, IH.
    lengths Hn. lia.
  - (* the last item *)
    intros d w1 v w2 Hw1 Hv IH Hw2 n room rest Hn.
    destruct n as [|n]; [lia |]. rewrite JSONArray_loop_S.
    right_assoc.
    lengths Hn.
    pose proof (scan_item D d w1 v w2 93 rest n room Hw1 Hv IH Hw2) as H.
    destruct (scan_once n room _) as [[value r] | e];
      [| apply H; [auto | lia]].
    rewrite H by (auto; lia). reflexivity.
  - (* an item and more *)
    intros d w1 v w2 t Hw1 Hv IHv Hw2 Ht IHt n room rest Hn.
    destruct n as [|n]; [lia |]. rewrite JSONArray_loop_S.
    right_assoc.
    lengths Hn.
    pose proof (scan_item D d w1 v w2 44 (t ++ 93 :: rest) n room
                  Hw1 Hv IHv Hw2) as H.
    destruct (scan_once n room _) as [[value r] | e];
      [| apply H; [auto | lia]].
    rewrite H by (auto; lia). cbn [N.eqb Pos.eqb].
    apply scanned_same, IHt. lia.
  - (* the last member *)
    intros d w1 k w2 w3 v w4 Hw1 Hk Hw2 Hw3 Hv IH Hw4 n room rest Hn.
    destruct n as [|n]; [lia |]. unfold members_scan.
    right_assoc. rewrite skip_ws_blank by exact Hw1.
    cbn [skip_ws is_ws N.eqb Pos.eqb orb].
    rewrite JSONObject_loop_members.
    match goal with
    | |- context [scanstring (k ++ 34 :: ?R)] =>
        destruct (scanstring_chars k R Hk) as [key ->]
    end.
    rewrite skip_ws_blank by exact Hw2.
    cbn [skip_ws is_ws N.eqb Pos.eqb orb].
    lengths Hn.
    pose proof (scan_item D d w3 v w4 125 rest n room Hw3 Hv IH Hw4) as H.
    destruct (scan_once n room _) as [[value r] | e];
      [| apply H; [auto | lia]].
    rewrite H by (auto; lia). reflexivity.
  - (* a member and more *)
    intros d w1 k w2 w3 v w4 t Hw1 Hk Hw2 Hw3 Hv IHv Hw4 Ht IHt
      n room rest Hn.
    destruct n as [|n]; [lia |]. unfold members_scan at 1.
    right_assoc. rewrite skip_ws_blank by exact Hw1.
    cbn [skip_ws is_ws N.eqb Pos.eqb orb].
    rewrite JSONObject_loop_members.
    match goal with
    | |- context [scanstring (k ++ 34 :: ?R)] =>
        destruct (scanstring_chars k R Hk) as [key ->]
    end.
    rewrite skip_ws_blank by exact Hw2.
    cbn [skip_ws is_ws N.eqb Pos.eqb orb].
    lengths Hn.
    pose proof (scan_item D d w3 v w4 44 (t ++ 125 :: rest) n room
                  Hw3 Hv IHv Hw4) as H.
    destruct (scan_once n room _) as [[value r] | e];
      [| apply H; [auto | lia]].
    rewrite H by (auto; lia). cbn [N.eqb Pos.eqb].
    apply scanned_same, IHt. lia.
Qed.

(** *** Whole texts *)

(** The byte order mark is no value either: the scan fails on it as the
    check before it does. *)
Lemma json_loads_scan (t : text) :
  json_loads t =
  match scan_once (S (length t)) nesting_room (skip_ws t) with
  | Ok (obj, r) =>
      match skip_ws r with
      | [] => Ok obj
      | _ :: _ => Raise JSONDecodeError
      end
  | Raise e => Raise e
  end.
Proof.
  unfold json_loads. destruct t as [|c t]; [reflexivity |].
  destruct c as [|p]; [reflexivity |].
  repeat (destruct p as [p | p |]; try reflexivity).
Qed.

(** *** What [json.load] raises *)





Lemma blank_delimited (w : text) : blank w = true -> delimited w = true.
Proof.
  destruct w as [|c w]; [reflexivity |]. cbn [blank forallb delimited].
  intros H. apply andb_true_iff in H as [-> _]. reflexivity.
Qed.

Lemma skip_ws_all_blank (w : text) : blank w = true -> skip_ws w = [].
Proof.
  intros H. rewrite <- (List.app_nil_r w), skip_ws_blank by exact H.
  reflexivity.
Qed.

(** [json.loads] reads every text of the grammar it has the levels and the
    digits for, and fails on the others for that reason only. *)
Lemma json_loads_document (D d : nat) (t : text) :
  json_document D d t ->
  match json_loads t with
  | Ok _ => True
  | Raise e =>
      (e = RecursionError /\ (nesting_room < d)%nat)
      \/ (e = ValueError /\ (int_max_str_digits < D)%nat)
  end.
Proof.
  intros (w1 & v & w2 & Hw1 & Hv & Hw2 & ->).
  rewrite json_loads_scan.
  rewrite skip_ws_blank, (skip_ws_json_value D d) by assumption.
  pose proof (proj1 (scan_complete D) d v Hv
                (S (length (w1 ++ v ++ w2))) nesting_room w2) as H.
  unfold scanned in H.
  destruct (scan_once _ _ _) as [[obj r'] | e].
  - rewrite H, skip_ws_all_blank; auto using blank_delimited.
    rewrite !length_app. lia.
  - apply H; [rewrite !length_app; lia | exact (blank_delimited w2 Hw2)].
Qed.

(** A text of the grammar within the limits of the interpreter is loaded. *)
Lemma json_loads_within_limits (t : text) :
  json_document int_max_str_digits nesting_room t ->
  exists v, json_loads t = Ok v.
Proof.
  intros H. apply json_loads_document in H.
  destruct (json_loads t) as [v | e]; [eauto |].
  destruct H as [[_ H] | [_ H]]; lia.
Qed.


(** ** Deleting and finding by code *)

Lemma subscript_code (course : pyval) :
  has_code_field course = true ->
  exists c, code_of course = Some c /\ subscript course (lit "code") = Ok c.
Proof.
  unfold has_code_field, code_of, subscript.
  destruct course as [| b | z | x | s | l | d]; try discriminate.
  destruct (dict_get d (lit "code")) as [c|]; [eauto | discriminate].
Qed.

Lemma without_code_filter (code : str) (cs : list pyval) :
  forallb has_code_field cs = true ->
  without_code cs code = Ok (List.filter (fun x => negb (has_code code x)) cs).
Proof.
  induction cs as [|x cs IH]; intros H; [reflexivity |].
  cbn [forallb] in H. apply andb_true_iff in H as [Hx Hcs].
  destruct (subscript_code x Hx) as (c & Hc & Hsub).
  cbn [without_code List.filter]. rewrite Hsub, (IH Hcs).
  unfold has_code. rewrite Hc. destruct (eq_str c code); reflexivity.
Qed.

Lemma forallb_filter_wf (p : pyval -> bool) (cs : list pyval) :
  forallb wf cs = true -> forallb wf (List.filter p cs) = true.
Proof.
  induction cs as [|x cs IH]; [reflexivity |]. cbn [forallb List.filter].
  intros H. apply andb_true_iff in H as [Hx Hcs].
  destruct (p x); cbn [forallb]; rewrite ?Hx; auto.
Qed.

Lemma delete_course_run (code : str) (req : request) (st : state)
    (cs : list pyval) :
  load_courses_from (course_file st) = Ok (PList cs) ->
  usable (course_file st) = true ->
  forallb wf cs = true -> forallb has_code_field cs = true ->
  outcome (delete_course code req) st = Ok (Redirect "course_catalog")
  /\ load_courses_from (course_file (exec (delete_course code req) st))
     = Ok (PList (List.filter (fun x => negb (has_code code x)) cs)).
Proof.
  intros Hload Hu Hwf Hcode.
  destruct (dump_then_load (course_file st)
              (PList (List.filter (fun x => negb (has_code code x)) cs)) Hu
              (forallb_filter_wf _ cs Hwf)) as (fs' & Hdump & Hl & _).
  unfold outcome, exec, delete_course, bind, load_courses, lift, dump_courses.
  rewrite Hload. cbn [py_iter]. rewrite (without_code_filter code cs Hcode).
  rewrite Hdump. cbn. auto.
Qed.

Lemma filter_none_matching (code : str) (cs : list pyval) :
  forallb (fun x => negb (has_code code x)) cs = true ->
  List.filter (fun x => negb (has_code code x)) cs = cs.
Proof.
  induction cs as [|x cs IH]; [reflexivity |]. cbn [forallb List.filter].
  intros H. apply andb_true_iff in H as [Hx Hcs]. rewrite Hx, (IH Hcs).
  reflexivity.
Qed.

(** C2. [delete_course] leaves in the catalog the records whose code is not
    the given one, unchanged and in their order, and none of the others. *)
Theorem delete_course_removes_matching (code : str) (req : request)
    (st : state) (cs : list pyval) :
  load_courses_from (course_file st) = Ok (PList cs) ->
  usable (course_file st) = true ->
  forallb wf cs = true -> forallb has_code_field cs = true ->
  outcome (delete_course code req) st = Ok (Redirect "course_catalog")
  /\ load_courses_from (course_file (exec (delete_course code req) st))
     = Ok (PList (List.filter (fun x => negb (has_code code x)) cs)).
Proof. apply delete_course_run. Qed.

(** C7. Deleting a code that no record has leaves the catalog as it was, and
    the handler completes with its redirect. *)
Theorem delete_course_absent_code (code : str) (req : request) (st : state)
    (cs : list pyval) :
  load_courses_from (course_file st) = Ok (PList cs) ->
  usable (course_file st) = true ->
  forallb wf cs = true -> forallb has_code_field cs = true ->
  forallb (fun x => negb (has_code code x)) cs = true ->
  outcome (delete_course code req) st = Ok (Redirect "course_catalog")
  /\ load_courses_from (course_file (exec (delete_course code req) st))
     = Ok (PList cs).
Proof.
  intros Hload Hu Hwf Hcode Hnone.
  destruct (delete_course_run code req st cs Hload Hu Hwf Hcode) as [H1 H2].
  rewrite (filter_none_matching code cs Hnone) in H2. auto.
Qed.

Lemma first_with_code_skips (code : str) (pre : list pyval) (l : list pyval) :
  forallb has_code_field pre = true ->
  forallb (fun y => negb (has_code code y)) pre = true ->
  first_with_code (pre ++ l) code = first_with_code l code.
Proof.
  induction pre as [|y pre IH]; [reflexivity |]. cbn [forallb List.app].
  intros H1 H2. apply andb_true_iff in H1 as [Hy H1].
  apply andb_true_iff in H2 as [Hn H2].
  destruct (subscript_code y Hy) as (c & Hc & Hsub).
  cbn [first_with_code]. rewrite Hsub. unfold has_code in Hn.
  rewrite Hc in Hn. apply negb_true_iff in Hn. rewrite Hn. auto.
Qed.

Lemma first_with_code_match (code : str) (x : pyval) (post : list pyval) :
  has_code code x = true ->
  first_with_code (x :: post) code = Ok (Some x)
  /\ truthy x = true
  /\ exists c, subscript x (lit "code") = Ok c.
Proof.
  unfold has_code, code_of. intros H.
  destruct x as [| b | z | x | s | l | d]; try discriminate.
  destruct (dict_get d (lit "code")) as [c|] eqn:Hc; [| discriminate].
  assert (subscript (PDict d) (lit "code") = Ok c) as Hsub
    by (unfold subscript; rewrite Hc; reflexivity).
  cbn [first_with_code]. rewrite Hsub, H. repeat split; eauto.
  destruct d; [discriminate | reflexivity].
Qed.

Lemma course_details_found (code : str) (req : request) (st : state)
    (cs : list pyval) (x : pyval) :
  load_courses_from (course_file st) = Ok (PList cs) ->
  first_with_code cs code = Ok (Some x) -> truthy x = true ->
  (exists c, subscript x (lit "code") = Ok c) ->
  outcome (course_details code req) st
  = Ok (Render "course_details.html" (Some x)).
Proof.
  intros Hload Hfirst Htruthy (c & Hsub).
  unfold outcome, course_details, with_span, bind, load_courses, lift.
  cbn. rewrite Hload. cbn. rewrite Hfirst, Htruthy. cbn.
  rewrite Hsub. reflexivity.
Qed.

Lemma course_details_missing (code : str) (req : request) (st : state)
    (cs : list pyval) :
  load_courses_from (course_file st) = Ok (PList cs) ->
  first_with_code cs code = Ok None ->
  outcome (course_details code req) st = Ok (Redirect "course_catalog").
Proof.
  intros Hload Hfirst.
  unfold outcome, course_details, with_span, bind, load_courses, lift.
  cbn. rewrite Hload. cbn. rewrite Hfirst. reflexivity.
Qed.

(** C8. [course_details] scans the loaded list from its start and renders
    the first record whose code is the given one, whatever comes after it;
    when no record has the code it finds nothing and redirects. *)
Theorem course_details_first_match (code : str) (req : request) (st : state)
    (cs : list pyval) :
  load_courses_from (course_file st) = Ok (PList cs) ->
  (forall pre x post,
      cs = pre ++ x :: post ->
      forallb has_code_field pre = true ->
      forallb (fun y => negb (has_code code y)) pre = true ->
      has_code code x = true ->
      first_with_code cs code = Ok (Some x)
      /\ outcome (course_details code req) st
         = Ok (Render "course_details.html" (Some x)))
  /\ (forallb has_code_field cs = true ->
      forallb (fun y => negb (has_code code y)) cs = true ->
      first_with_code cs code = Ok None
      /\ outcome (course_details code req) st = Ok (Redirect "course_catalog")).
Proof.
  intros Hload. split.
  - intros pre x post -> Hpre Hnone Hx.
    destruct (first_with_code_match code x post Hx) as (Hf & Ht & Hsub).
    assert (first_with_code (pre ++ x :: post) code = Ok (Some x)) as Hfirst
      by (rewrite first_with_code_skips by assumption; exact Hf).
    split; [exact Hfirst |].
    exact (course_details_found code req st _ x Hload Hfirst Ht Hsub).
  - intros Hall Hnone.
    assert (first_with_code cs code = Ok None) as Hfirst.
    { rewrite <- (List.app_nil_r cs).
      rewrite first_with_code_skips by assumption. reflexivity. }
    split; [exact Hfirst |].
    exact (course_details_missing code req st cs Hload Hfirst).
Qed.

(** ** The form of [add_course] *)

Lemma course_of_form_code (req : request) :
  subscript (PDict (course_of_form req)) (lit "code")
  = Ok (PStr (strip (form_get (form req) (lit "code")))).
Proof. reflexivity. Qed.

Lemma course_of_form_name (req : request) :
  subscript (PDict (course_of_form req)) (lit "name")
  = Ok (PStr (strip (form_get (form req) (lit "name")))).
Proof. reflexivity. Qed.

Lemma course_of_form_instructor (req : request) :
  subscript (PDict (course_of_form req)) (lit "instructor")
  = Ok (PStr (strip (form_get (form req) (lit "instructor")))).
Proof. reflexivity. Qed.

Lemma count_of_increment (counter : gmap string Z) (name : string) :
  count_of (increment counter name) name = (count_of counter name + 1)%Z.
Proof. unfold increment. unfold count_of at 1. rewrite lookup_insert_eq. reflexivity. Qed.

Lemma count_of_increment_other (counter : gmap string Z) (name other : string) :
  name <> other ->
  count_of (increment counter name) other = count_of counter other.
Proof.
  intros H. unfold increment, count_of. rewrite lookup_insert_ne by exact H.
  reflexivity.
Qed.

Lemma lstrip_all_space (s : str) : forallb isspace s = true -> lstrip s = [].
Proof.
  induction s as [|c s IH]; [reflexivity |]. cbn [forallb lstrip].
  intros H. apply andb_true_iff in H as [Hc Hs]. rewrite Hc. exact (IH Hs).
Qed.

Lemma strip_all_space (s : str) : forallb isspace s = true -> strip s = [].
Proof. intros H. unfold strip. rewrite (lstrip_all_space s H). reflexivity. Qed.

Lemma lstrip_head (s : str) :
  match lstrip s with
  | [] => True
  | c :: _ => isspace c = false
  end.
Proof.
  induction s as [|c s IH]; [exact I |]. cbn [lstrip].
  destruct (isspace c) eqn:E; [exact IH | exact E].
Qed.

Lemma lstrip_keeps_last (a : str) (c : N) :
  isspace c = false -> exists a', lstrip (a ++ [c]) = a' ++ [c].
Proof.
  intros Hc. induction a as [|x a IH]; cbn [List.app lstrip].
  - rewrite Hc. exists []. reflexivity.
  - destruct (isspace x); [exact IH |]. exists (x :: a). reflexivity.
Qed.

Lemma strip_no_edge_space (s : str) : no_edge_space (strip s) = true.
Proof.
  unfold no_edge_space, strip, rstrip. rewrite List.rev_involutive.
  apply andb_true_iff. split.
  - pose proof (lstrip_head s) as H. destruct (lstrip s) as [|c l];
      [reflexivity |].
    cbn [rev]. destruct (lstrip_keeps_last (rev l) c H) as (a' & ->).
    rewrite List.rev_app_distr. cbn. rewrite H. reflexivity.
  - pose proof (lstrip_head (rev (lstrip s))) as H.
    destruct (lstrip (rev (lstrip s))) as [|c l]; [reflexivity |].
    rewrite H. reflexivity.
Qed.

Lemma add_course_rejects (req : request) (st : state) :
  method req = lit "POST" -> required_missing req = true ->
  let st' := exec (add_course req) st in
  outcome (add_course req) st = Ok (Render "add_course.html" None)
  /\ flashed st'
     = flashed st
       ++ [(lit "Course Code, Course Name and Instructor are required!",
            "error"%string)]
  /\ app_log st'
     = app_log st
       ++ [LogRecord WARNING
             [("event"%string, VStr (lit "Form Validation Error"));
              ("route"%string, VStr (lit "/add_course"));
              ("error"%string, VStr (lit "Missing required fields"))]]
  /\ course_file st' = course_file st
  /\ error_count st' = increment (error_count st) "add_course".
Proof.
  intros Hm Hmiss. unfold outcome, exec, add_course.
  rewrite Hm, str_eqb_refl.
  rewrite course_of_form_code, course_of_form_name, course_of_form_instructor.
  unfold with_span. cbn. rewrite !negb_involutive.
  unfold required_missing, missing in Hmiss. rewrite Hmiss. cbn.
  repeat split; reflexivity.
Qed.

(** C3. A submitted form that lacks the code, the name or the instructor is
    rejected: the form is rendered again with the error message flashed and
    a warning logged, the catalog file is not touched, and the error counter
    of [add_course] goes up by one. *)
Theorem add_course_missing_required (req : request) (st : state) :
  method req = lit "POST" -> required_missing req = true ->
  let st' := exec (add_course req) st in
  outcome (add_course req) st = Ok (Render "add_course.html" None)
  /\ flashed st'
     = flashed st
       ++ [(lit "Course Code, Course Name and Instructor are required!",
            "error"%string)]
  /\ (exists fields, app_log st' = app_log st ++ [LogRecord WARNING fields])
  /\ course_file st' = course_file st
  /\ count_of (error_count st') "add_course"
     = (count_of (error_count st) "add_course" + 1)%Z
  /\ (forall other, other <> "add_course"%string ->
        count_of (error_count st') other = count_of (error_count st) other).
Proof.
  intros Hm Hmiss.
  destruct (add_course_rejects req st Hm Hmiss) as (H1 & H2 & H3 & H4 & H5).
  cbv zeta. rewrite H5. repeat split; try assumption.
  - eexists. exact H3.
  - apply count_of_increment.
  - intros other Ho. apply count_of_increment_other. congruence.
Qed.

Lemma dump_to_usable (fs : option file) (v : pyval) :
  usable fs = true -> exists fs', dump_to fs v = Ok fs'.
Proof.
  destruct fs as [f|]; cbn; [| eauto]. intros H.
  apply andb_true_iff in H as [_ ->]. eauto.
Qed.

Lemma add_course_saves (req : request) (st : state) (cs : list pyval) :
  method req = lit "POST" -> required_missing req = false ->
  load_courses_from (course_file st) = Ok (PList cs) ->
  usable (course_file st) = true ->
  outcome (add_course req) st = Ok (Redirect "course_catalog")
  /\ dump_to (course_file st) (PList (cs ++ [PDict (course_of_form req)]))
     = Ok (course_file (exec (add_course req) st)).
Proof.
  intros Hm Hmiss Hload Hu.
  destruct (dump_to_usable (course_file st)
              (PList (cs ++ [PDict (course_of_form req)])) Hu) as (fs' & Hdump).
  unfold outcome, exec, add_course. rewrite Hm, str_eqb_refl.
  rewrite course_of_form_code, course_of_form_name, course_of_form_instructor.
  unfold with_span. cbn. rewrite !negb_involutive.
  unfold required_missing, missing in Hmiss. rewrite Hmiss.
  unfold save_courses, bind, load_courses, lift, dump_courses. cbn.
  rewrite Hload. cbn. rewrite Hdump. cbn. auto.
Qed.

Lemma missing_blank (req : request) (key : string) :
  forallb isspace (form_get (form req) (lit key)) = true ->
  missing req key = true.
Proof.
  intros H. unfold missing. rewrite (strip_all_space _ H). reflexivity.
Qed.

(** C10. [add_course] strips every field of the form before it tests and
    stores them: a required field made of blanks only is rejected like a
    missing one, every field of the record it builds is free of leading and
    trailing blanks, and that record is the one appended to the catalog. *)
Theorem add_course_strips_fields (req : request) (st : state) :
  method req = lit "POST" ->
  (forall key,
      In key ["code"; "name"; "instructor"]%string ->
      forallb isspace (form_get (form req) (lit key)) = true ->
      outcome (add_course req) st = Ok (Render "add_course.html" None)
      /\ course_file (exec (add_course req) st) = course_file st
      /\ count_of (error_count (exec (add_course req) st)) "add_course"
         = (count_of (error_count st) "add_course" + 1)%Z)
  /\ Forall (fun kv =>
               exists s, snd kv = PStr s
                         /\ s = strip (form_get (form req) (fst kv))
                         /\ no_edge_space s = true)
       (course_of_form req)
  /\ (forall cs,
        required_missing req = false ->
        load_courses_from (course_file st) = Ok (PList cs) ->
        usable (course_file st) = true ->
        outcome (add_course req) st = Ok (Redirect "course_catalog")
        /\ dump_to (course_file st)
             (PList (cs ++ [PDict (course_of_form req)]))
           = Ok (course_file (exec (add_course req) st))).
Proof.
  intros Hm. split; [| split].
  - intros key Hkey Hblank.
    assert (required_missing req = true) as Hmiss.
    { pose proof (missing_blank req key Hblank) as Hk.
      unfold required_missing. cbn [In] in Hkey.
      destruct Hkey as [<- | [<- | [<- | []]]]; rewrite Hk;
        rewrite ?orb_true_r; reflexivity. }
    destruct (add_course_rejects req st Hm Hmiss) as (H1 & _ & _ & H4 & H5).
    cbv zeta in H5. rewrite H5. repeat split; try assumption.
    apply count_of_increment.
  - unfold course_of_form, field.
    repeat (constructor;
            [eexists; cbn [fst snd]; repeat split;
             apply strip_no_edge_space |]).
    constructor.
  - intros cs Hmiss Hload Hu. exact (add_course_saves req st cs Hm Hmiss Hload Hu).
Qed.

(** ** Spans and log records of the handlers *)

Lemma first_with_code_found (code : str) (cs : list pyval) (x : pyval) :
  first_with_code cs code = Ok (Some x) ->
  truthy x = true /\ exists c, subscript x (lit "code") = Ok c.
Proof.
  induction cs as [|y cs IH]; [discriminate |]. cbn [first_with_code].
  destruct (subscript y (lit "code")) as [c|e] eqn:Hsub; [| discriminate].
  destruct (eq_str c code); [| exact IH].
  intros H. injection H as <-. split; [| eauto].
  unfold subscript in Hsub. destruct y as [| b | z | x | s | l | d]; try discriminate.
  destruct d; [discriminate | reflexivity].
Qed.

(** C4, as the code has it. The handlers that list the catalog, add a
    course and show a course write one log record and end one span when they
    succeed, and the span then carries the elapsed time, not negative when
    the clock does not go back; a rejected form and a code that is not found
    also give one log record and one ended span; [delete_course] writes no
    log record and ends no span. *)
Theorem instrumented_paths_log_and_trace (req : request) (st : state) :
  (forall courses n,
      load_courses_from (course_file st) = Ok courses ->
      py_len courses = Ok n -> monotone (time_source st) ->
      fully_traced RCatalog req st)
  /\ (forall cs,
        method req = lit "POST" -> required_missing req = false ->
        load_courses_from (course_file st) = Ok (PList cs) ->
        usable (course_file st) = true -> monotone (time_source st) ->
        fully_traced RAddCourse req st)
  /\ (forall code cs x,
        load_courses_from (course_file st) = Ok (PList cs) ->
        first_with_code cs code = Ok (Some x) -> monotone (time_source st) ->
        fully_traced (RCourseDetails code) req st)
  /\ (method req = lit "POST" -> required_missing req = true ->
      one_record_one_span st (exec (handle RAddCourse req) st))
  /\ (forall code cs,
        load_courses_from (course_file st) = Ok (PList cs) ->
        first_with_code cs code = Ok None ->
        one_record_one_span st (exec (handle (RCourseDetails code) req) st))
  /\ (forall code,
        app_log (exec (handle (RDeleteCourse code) req) st) = app_log st
        /\ finished_spans (exec (handle (RDeleteCourse code) req) st)
           = finished_spans st).
Proof.
  unfold fully_traced, one_record_one_span, elapsed_time_recorded,
    closes_span, span_has, exec, handle.
  split; [| split; [| split; [| split; [| split]]]].
  - intros courses n Hload Hlen Hmono.
    unfold course_catalog, with_span, bind, load_courses, lift. cbn.
    rewrite Hload, Hlen. cbn.
    repeat split; eauto. do 2 eexists. repeat split.
    specialize (Hmono (ticks st)). lia.
  - intros cs Hm Hmiss Hload Hu Hmono.
    destruct (dump_to_usable (course_file st)
                (PList (cs ++ [PDict (course_of_form req)])) Hu)
      as (fs' & Hdump).
    unfold add_course. rewrite Hm, str_eqb_refl.
    rewrite course_of_form_code, course_of_form_name,
      course_of_form_instructor.
    unfold with_span. cbn. rewrite !negb_involutive.
    unfold required_missing, missing in Hmiss. rewrite Hmiss.
    unfold save_courses, bind, load_courses, lift, dump_courses. cbn.
    rewrite Hload. cbn. rewrite Hdump. cbn.
    repeat split; eauto. do 2 eexists. repeat split.
    specialize (Hmono (ticks st)). lia.
  - intros code cs x Hload Hfirst Hmono.
    destruct (first_with_code_found code cs x Hfirst) as (Ht & c & Hsub).
    unfold course_details, with_span, bind, load_courses, lift. cbn.
    rewrite Hload. cbn. rewrite Hfirst, Ht. cbn. rewrite Hsub. cbn.
    repeat split; eauto. do 2 eexists. repeat split.
    specialize (Hmono (ticks st)). lia.
  - intros Hm Hmiss. unfold add_course. rewrite Hm, str_eqb_refl.
    rewrite course_of_form_code, course_of_form_name,
      course_of_form_instructor.
    unfold with_span. cbn. rewrite !negb_involutive.
    unfold required_missing, missing in Hmiss. rewrite Hmiss. cbn.
    split; eauto.
  - intros code cs Hload Hfirst.
    unfold course_details, with_span, bind, load_courses, lift. cbn.
    rewrite Hload. cbn. rewrite Hfirst. cbn. split; eauto.
  - intros code.
    unfold delete_course, bind, load_courses, lift, dump_courses. cbn.
    destruct (load_courses_from (course_file st)) as [courses | e]; cbn;
      [| auto].
    destruct (py_iter courses) as [items | e]; cbn; [| auto].
    destruct (without_code items code) as [updated | e]; cbn; [| auto].
    destruct (dump_to (course_file st) (PList updated)) as [fs' | e]; cbn;
      auto.
Qed.

(** C9, as the code has it. Every handler that opens a span records the
    method and the URL of the request on it, on every way out; the handlers
    of the catalog, of the form and of the details also record the caller's
    address; the first two record their request count, just incremented; and
    the error count, just incremented, is recorded when the form is rejected
    and when the code is not found. *)
Theorem spans_carry_request_data (req : request) (st : state) :
  (exists s,
      closes_span st (exec (handle RCatalog req) st) s
      /\ span_has s "http.method" (VStr (method req))
      /\ span_has s "http.url" (VStr (url req))
      /\ span_has s "user.ip" (VStr (remote_addr req))
      /\ span_has s "requests.count"
           (VInt (count_of (requests_count st) "catalog" + 1)))
  /\ (exists s,
        closes_span st (exec (handle RAddCourse req) st) s
        /\ span_has s "http.method" (VStr (method req))
        /\ span_has s "http.url" (VStr (url req))
        /\ span_has s "user.ip" (VStr (remote_addr req))
        /\ span_has s "requests.count"
             (VInt (count_of (requests_count st) "add_course" + 1))
        /\ (method req = lit "POST" -> required_missing req = true ->
            span_has s "error_count"
              (VInt (count_of (error_count st) "add_course" + 1))))
  /\ (forall code, exists s,
        closes_span st (exec (handle (RCourseDetails code) req) st) s
        /\ span_has s "http.method" (VStr (method req))
        /\ span_has s "http.url" (VStr (url req))
        /\ span_has s "user.ip" (VStr (remote_addr req))
        /\ (forall cs,
              load_courses_from (course_file st) = Ok (PList cs) ->
              first_with_code cs code = Ok None ->
              span_has s "error_count"
                (VInt (count_of (error_count st) "course_details" + 1))))
  /\ (exists s,
        closes_span st (exec (handle RManualTrace req) st) s
        /\ span_has s "http.method" (VStr (method req))
        /\ span_has s "http.url" (VStr (url req))).
Proof.
  unfold closes_span, span_has, exec, handle.
  split; [| split; [| split]].
  - unfold course_catalog, with_span, bind, load_courses, lift. cbn.
    rewrite count_of_increment.
    destruct (load_courses_from (course_file st)) as [courses | e]; cbn;
      [destruct (py_len courses) as [n | e]; cbn |];
      eexists; repeat split.
  - unfold add_course.
    rewrite course_of_form_code, course_of_form_name,
      course_of_form_instructor.
    unfold with_span.
    destruct (str_eqb (method req) (lit "POST")) eqn:Hpost; cbn;
      rewrite count_of_increment.
    + rewrite !negb_involutive.
      fold (missing req "code") (missing req "name")
        (missing req "instructor").
      fold (required_missing req).
      destruct (required_missing req) eqn:Hmiss; cbn.
      * rewrite count_of_increment. eexists; repeat split.
      * unfold save_courses, bind, load_courses, lift, dump_courses. cbn.
        destruct (load_courses_from (course_file st)) as [courses | e]; cbn;
          [destruct (py_append courses (PDict (course_of_form req)))
             as [courses' | e]; cbn;
           [destruct (dump_to (course_file st) courses') as [fs' | e]; cbn
           |] |];
          eexists; repeat split; discriminate.
    + eexists; repeat split. intros Hm. rewrite Hm, str_eqb_refl in Hpost.
      discriminate.
  - intros code.
    unfold course_details, course_not_found, with_span, bind, load_courses,
      lift. cbn.
    destruct (load_courses_from (course_file st)) as [courses | e]; cbn.
    + destruct (py_iter courses) as [items | e] eqn:Hiter; cbn.
      * destruct (first_with_code items code) as [[x |] | e] eqn:Hfirst; cbn.
        -- destruct (truthy x) eqn:Ht; cbn.
           ++ destruct (subscript x (lit "code")) as [c | e]; cbn;
                eexists; repeat split; intros cs Hcs Hnone;
                injection Hcs as ->; cbn in Hiter; injection Hiter as ->;
                congruence.
           ++ rewrite count_of_increment. eexists; repeat split.
        -- rewrite count_of_increment. eexists; repeat split.
        -- eexists; repeat split. intros cs Hcs Hnone.
           injection Hcs as ->. cbn in Hiter. injection Hiter as ->.
           congruence.
      * eexists; repeat split. intros cs Hcs Hnone.
        injection Hcs as ->. discriminate.
    + eexists; repeat split. intros cs Hcs. discriminate.
  - unfold manual_trace, with_span, bind. cbn. eexists; repeat split.
Qed.

(** ** The theorems at concrete requests *)

Lemma appended_records_load_in_order_witness :
  outcome (save_all [intro_course; logic_course; intro_again] ;;; load_courses)
    fresh_state
  = Ok (PList [intro_course; logic_course; intro_again]).
Proof.
  apply (appended_records_load_in_order
           [intro_course; logic_course; intro_again] fresh_state);
    reflexivity.
Defined.

Lemma replace_then_load_roundtrip_witness :
  outcome (dump_courses (PList [logic_course; intro_course]) ;;; load_courses)
    (state_with [intro_course])
  = Ok (PList [logic_course; intro_course]).
Proof.
  apply (replace_then_load_roundtrip [logic_course; intro_course]
           (state_with [intro_course])); reflexivity.
Defined.


Lemma delete_course_removes_matching_witness :
  outcome (delete_course (lit "CS101") delete_request)
    (state_with [intro_course; logic_course; intro_again])
  = Ok (Redirect "course_catalog")
  /\ load_courses_from
       (course_file
          (exec (delete_course (lit "CS101") delete_request)
             (state_with [intro_course; logic_course; intro_again])))
     = Ok (PList [logic_course]).
Proof.
  apply (delete_course_removes_matching (lit "CS101") delete_request
           (state_with [intro_course; logic_course; intro_again])
           [intro_course; logic_course; intro_again]);
    vm_compute; reflexivity.
Defined.

Lemma delete_course_absent_code_witness :
  outcome (delete_course (lit "CS999") delete_request)
    (state_with [intro_course; logic_course])
  = Ok (Redirect "course_catalog")
  /\ load_courses_from
       (course_file
          (exec (delete_course (lit "CS999") delete_request)
             (state_with [intro_course; logic_course])))
     = Ok (PList [intro_course; logic_course]).
Proof.
  apply (delete_course_absent_code (lit "CS999") delete_request
           (state_with [intro_course; logic_course])
           [intro_course; logic_course]);
    vm_compute; reflexivity.
Defined.

Lemma course_details_first_match_witness :
  outcome (course_details (lit "CS101") get_request)
    (state_with [logic_course; intro_course; intro_again])
  = Ok (Render "course_details.html" (Some intro_course))
  /\ outcome (course_details (lit "CS999") get_request)
       (state_with [logic_course; intro_course; intro_again])
     = Ok (Redirect "course_catalog").
Proof.
  assert (load_courses_from
            (course_file (state_with [logic_course; intro_course; intro_again]))
          = Ok (PList [logic_course; intro_course; intro_again])) as Hload
    by (vm_compute; reflexivity).
  split.
  - apply (proj1 (course_details_first_match (lit "CS101") get_request
                    _ _ Hload) [logic_course] intro_course [intro_again]);
      vm_compute; reflexivity.
  - apply (proj2 (course_details_first_match (lit "CS999") get_request
                    _ _ Hload)); vm_compute; reflexivity.
Defined.

Lemma add_course_missing_required_witness :
  outcome (add_course nameless_form) fresh_state
  = Ok (Render "add_course.html" None)
  /\ course_file (exec (add_course nameless_form) fresh_state) = None
  /\ count_of (error_count (exec (add_course nameless_form) fresh_state))
       "add_course" = 1%Z.
Proof.
  destruct (add_course_missing_required nameless_form fresh_state)
    as (H1 & _ & _ & H4 & H5 & _); [reflexivity | vm_compute; reflexivity |].
  split; [exact H1 | split; [exact H4 | exact H5]].
Defined.

Lemma add_course_strips_fields_witness :
  outcome (add_course blank_name_form) fresh_state
  = Ok (Render "add_course.html" None)
  /\ outcome (add_course intro_form) fresh_state
     = Ok (Redirect "course_catalog")
  /\ dict_get (course_of_form intro_form) (lit "name")
     = Some (PStr (lit "Intro")).
Proof.
  split; [| split].
  - destruct (add_course_strips_fields blank_name_form fresh_state)
      as (H & _); [reflexivity |].
    destruct (H "name"%string) as (H1 & _);
      [cbn; tauto | vm_compute; reflexivity | exact H1].
  - destruct (add_course_strips_fields intro_form fresh_state)
      as (_ & _ & H); [reflexivity |].
    assert (required_missing intro_form = false) as Hmiss
      by (vm_compute; reflexivity).
    destruct (H [] Hmiss eq_refl eq_refl) as (H1 & _). exact H1.
  - vm_compute; reflexivity.
Defined.

Lemma fresh_clock_monotone : monotone (time_source fresh_state).
Proof. intros i. cbn. lia. Qed.

Lemma instrumented_paths_log_and_trace_witness :
  fully_traced RCatalog get_request (state_with [intro_course])
  /\ fully_traced RAddCourse intro_form fresh_state
  /\ fully_traced (RCourseDetails (lit "CS101")) get_request
       (state_with [logic_course; intro_course])
  /\ one_record_one_span fresh_state
       (exec (handle RAddCourse blank_name_form) fresh_state)
  /\ one_record_one_span (state_with [logic_course])
       (exec (handle (RCourseDetails (lit "CS101")) get_request)
          (state_with [logic_course]))
  /\ app_log (exec (handle (RDeleteCourse (lit "CS101")) delete_request)
                (state_with [intro_course])) = [].
Proof.
  split; [| split; [| split; [| split; [| split]]]].
  - apply (proj1 (instrumented_paths_log_and_trace get_request
                    (state_with [intro_course])) (PList [intro_course]) 1%Z);
      [vm_compute; reflexivity | reflexivity | exact fresh_clock_monotone].
  - apply (proj1 (proj2 (instrumented_paths_log_and_trace intro_form
                           fresh_state)) []);
      [reflexivity | vm_compute; reflexivity | reflexivity | reflexivity
      | exact fresh_clock_monotone].
  - apply (proj1 (proj2 (proj2 (instrumented_paths_log_and_trace get_request
                                  (state_with [logic_course; intro_course]))))
             (lit "CS101") [logic_course; intro_course] intro_course);
      [vm_compute; reflexivity | vm_compute; reflexivity
      | exact fresh_clock_monotone].
  - apply (proj1 (proj2 (proj2 (proj2
             (instrumented_paths_log_and_trace blank_name_form
                fresh_state)))));
      [reflexivity | vm_compute; reflexivity].
  - apply (proj1 (proj2 (proj2 (proj2 (proj2
             (instrumented_paths_log_and_trace get_request
                (state_with [logic_course]))))))
             (lit "CS101") [logic_course]);
      vm_compute; reflexivity.
  - exact (proj1 (proj2 (proj2 (proj2 (proj2 (proj2
             (instrumented_paths_log_and_trace delete_request
                (state_with [intro_course]))))))
             (lit "CS101"))).
Defined.

Lemma spans_carry_request_data_witness :
  exists s,
    closes_span fresh_state (exec (handle RAddCourse blank_name_form) fresh_state) s
    /\ span_has s "requests.count" (VInt 1)
    /\ span_has s "error_count" (VInt 1).
Proof.
  destruct (proj1 (proj2 (spans_carry_request_data blank_name_form
                            fresh_state)))
    as (s & Hc & _ & _ & _ & Hreq & Herr).
  exists s. split; [exact Hc |]. split; [exact Hreq |].
  apply Herr; [reflexivity | vm_compute; reflexivity].
Defined.

(** ** Where [load_courses] fails on a file that is neither unreadable nor
    corrupt *)






(** ** Where the handlers leave no trace *)

(** C4 fails on the code: [delete_course] writes no log record and opens no
    span, and the span of a rejected form carries no elapsed time. The clock
    of the example never goes back. *)
Lemma delete_untraced_rejection_untimed :
  monotone (time_source fresh_state)
  /\ ~ fully_traced (RDeleteCourse (lit "CS101")) delete_request
         (state_with [intro_course])
  /\ ~ fully_traced RAddCourse blank_name_form fresh_state.
Proof.
  split; [exact fresh_clock_monotone |]. split.
  - intros [[[r Hr] _] _]. vm_compute in Hr. discriminate.
  - intros [_ (s & d & Hc & Hs & _)]. unfold closes_span in Hc.
    unfold span_has in Hs. vm_compute in Hc. injection Hc as <-.
    vm_compute in Hs. discriminate.
Qed.

(** C9 fails on the code: the span of [manual_trace] holds neither the
    caller's address nor a request count, and the span of [course_details]
    holds no request count. *)
Lemma manual_trace_span_lacks_caller :
  (exists s,
      closes_span fresh_state (exec (handle RManualTrace get_request) fresh_state) s
      /\ ~ records_request get_request s)
  /\ (exists s,
        closes_span (state_with [intro_course])
          (exec (handle (RCourseDetails (lit "CS101")) get_request)
             (state_with [intro_course])) s
        /\ ~ records_request get_request s).
Proof.
  split; eexists; (split; [vm_compute; reflexivity |]).
  - intros (_ & _ & Hip & _). vm_compute in Hip. discriminate.
  - intros (_ & _ & _ & n & Hn). vm_compute in Hn. discriminate.
Qed.

(** * Further properties of the handlers *)

(** Running a handler on a state given by its fields: the monad, the
    primitives and the handlers are unfolded, the values they work on are
    left as they are. *)
Ltac run :=
  cbv beta iota zeta delta
    [outcome exec handle index course_catalog add_course delete_course
     course_details course_not_found manual_trace auto_instrumented
     save_courses with_span bind load_courses dump_courses lift ret
     time_time incr_requests incr_errors get_requests get_errors
     set_open_spans set_attribute add_event end_span record_exception
     logger flash set_course_file attr_set
     course_file requests_count error_count open_spans finished_spans
     app_log flashed time_source ticks
     span_name kind attributes events status_error
     fst snd negb orb andb String.eqb Ascii.eqb Bool.eqb].

Ltac fields st :=
  destruct st as [cf rc ec os fs al fl ts tk];
  cbn [course_file requests_count error_count open_spans finished_spans
       app_log flashed time_source ticks] in *.

(** ** What [add_course] stores *)

Lemma forallb_lstrip (p : N -> bool) (s : str) :
  forallb p s = true -> forallb p (lstrip s) = true.
Proof.
  induction s as [|c s IH]; [reflexivity |]. cbn [forallb lstrip].
  intros H. destruct (isspace c).
  - apply andb_true_iff in H as [_ H]. exact (IH H).
  - exact H.
Qed.

Lemma forallb_rev_true (p : N -> bool) (s : str) :
  forallb p s = true -> forallb p (rev s) = true.
Proof.
  rewrite !forallb_forall. intros H x Hx. apply H.
  apply in_rev. exact Hx.
Qed.

Lemma valid_str_strip (s : str) :
  valid_str s = true -> valid_str (strip s) = true.
Proof.
  unfold valid_str, strip, rstrip. intros H.
  apply forallb_rev_true, forallb_lstrip, forallb_rev_true, forallb_lstrip.
  exact H.
Qed.

Lemma valid_str_form_get (f : list (str * str)) (key : str) :
  forallb (fun kv => valid_str (snd kv)) f = true ->
  valid_str (form_get f key) = true.
Proof.
  induction f as [|[k v] f IH]; [reflexivity |]. cbn [forallb snd].
  intros H. apply andb_true_iff in H as [Hv Hf].
  change (form_get ((k, v) :: f) key)
    with (if str_eqb k key then v else form_get f key).
  destruct (str_eqb k key); auto.
Qed.

Lemma course_of_form_wf (req : request) :
  form_valid req = true -> wf (PDict (course_of_form req)) = true.
Proof.
  intros H. unfold form_valid in H.
  assert (forall key, valid_str (strip (form_get (form req) (lit key))) = true)
    as Hv by (intros key; apply valid_str_strip, valid_str_form_get, H).
  unfold wf.
  change (Nat.pred nesting_room) with (S (Nat.pred (Nat.pred nesting_room))).
  unfold course_of_form, field. cbn [wf_within List.map fst snd forallb].
  rewrite !Hv. reflexivity.
Qed.

Lemma course_of_form_has_code (req : request) :
  has_code (strip (form_get (form req) (lit "code")))
    (PDict (course_of_form req)) = true.
Proof.
  unfold has_code.
  change (code_of (PDict (course_of_form req)))
    with (Some (PStr (strip (form_get (form req) (lit "code"))))).
  cbn [eq_str]. apply str_eqb_refl.
Qed.

Lemma add_course_appends (req : request) (st : state) (cs : list pyval) :
  method req = lit "POST" -> required_missing req = false ->
  form_valid req = true ->
  load_courses_from (course_file st) = Ok (PList cs) ->
  usable (course_file st) = true -> forallb wf cs = true ->
  outcome (add_course req) st = Ok (Redirect "course_catalog")
  /\ load_courses_from (course_file (exec (add_course req) st))
     = Ok (PList (cs ++ [PDict (course_of_form req)]))
  /\ usable (course_file (exec (add_course req) st)) = true.
Proof.
  intros Hm Hmiss Hform Hload Hu Hwf.
  destruct (add_course_saves req st cs Hm Hmiss Hload Hu) as [Hout Hdump].
  destruct (dump_then_load (course_file st)
              (PList (cs ++ [PDict (course_of_form req)])) Hu
              (forallb_wf_app cs _ Hwf (course_of_form_wf req Hform)))
    as (fs' & Hdump' & Hl & Hu').
  rewrite Hdump in Hdump'. injection Hdump' as <-. auto.
Qed.

(** X1. A submitted form with the three required fields appends one record
    to the catalog, after the records already there: the catalog then loads
    as the old list followed by the dict built from the form, and the client
    is sent to the catalog page. *)
Theorem add_course_appends_record (req : request) (st : state)
    (cs : list pyval) :
  method req = lit "POST" -> required_missing req = false ->
  form_valid req = true ->
  load_courses_from (course_file st) = Ok (PList cs) ->
  usable (course_file st) = true -> forallb wf cs = true ->
  outcome (add_course req) st = Ok (Redirect "course_catalog")
  /\ load_courses_from (course_file (exec (add_course req) st))
     = Ok (PList (cs ++ [PDict (course_of_form req)])).
Proof.
  intros Hm Hmiss Hform Hload Hu Hwf.
  destruct (add_course_appends req st cs Hm Hmiss Hform Hload Hu Hwf)
    as (H1 & H2 & _). auto.
Qed.

Lemma add_course_appends_record_witness :
  load_courses_from
    (course_file (exec (add_course intro_form) (state_with [logic_course])))
  = Ok (PList [logic_course; PDict (course_of_form intro_form)]).
Proof.
  refine (proj2 (add_course_appends_record intro_form
                   (state_with [logic_course]) [logic_course] _ _ _ _ _ _));
    vm_compute; reflexivity.
Defined.

(** X2. After a course is added, [course_details] for its code shows the new
    record when no record of the catalog had that code; when one had it, the
    earliest of them is still the one shown, the new record staying behind
    it. *)
Theorem added_course_found_unless_shadowed (req req' : request) (st : state)
    (cs : list pyval) :
  method req = lit "POST" -> required_missing req = false ->
  form_valid req = true ->
  load_courses_from (course_file st) = Ok (PList cs) ->
  usable (course_file st) = true -> forallb wf cs = true ->
  forallb has_code_field cs = true ->
  (forallb (fun y => negb (has_code (strip (form_get (form req) (lit "code"))) y))
     cs = true ->
   outcome (course_details (strip (form_get (form req) (lit "code"))) req')
     (exec (add_course req) st)
   = Ok (Render "course_details.html" (Some (PDict (course_of_form req)))))
  /\ (forall pre x post,
        cs = pre ++ x :: post ->
        forallb
          (fun y => negb (has_code (strip (form_get (form req) (lit "code"))) y))
          pre = true ->
        has_code (strip (form_get (form req) (lit "code"))) x = true ->
        outcome (course_details (strip (form_get (form req) (lit "code"))) req')
          (exec (add_course req) st)
        = Ok (Render "course_details.html" (Some x))).
Proof.
  intros Hm Hmiss Hform Hload Hu Hwf Hcode.
  destruct (add_course_appends req st cs Hm Hmiss Hform Hload Hu Hwf)
    as (_ & Hload1 & _).
  set (code := strip (form_get (form req) (lit "code"))) in *.
  split.
  - intros Hnone.
    destruct (first_with_code_match code (PDict (course_of_form req)) []
                (course_of_form_has_code req)) as (Hf & Ht & Hsub).
    apply (course_details_found code req' _ _ _ Hload1); try assumption.
    rewrite first_with_code_skips by assumption. exact Hf.
  - intros pre x post -> Hnone Hx.
    rewrite forallb_app in Hcode. apply andb_true_iff in Hcode as [Hpre _].
    destruct (first_with_code_match code x (post ++ [PDict (course_of_form req)])
                Hx) as (Hf & Ht & Hsub).
    apply (course_details_found code req' _ _ _ Hload1); try assumption.
    rewrite <- List.app_assoc. cbn [List.app].
    rewrite first_with_code_skips by assumption. exact Hf.
Qed.

Lemma added_course_found_unless_shadowed_witness :
  outcome (course_details (lit "CS101") get_request)
    (exec (add_course intro_form) (state_with [logic_course]))
  = Ok (Render "course_details.html" (Some (PDict (course_of_form intro_form))))
  /\ outcome (course_details (lit "CS101") get_request)
       (exec (add_course intro_form) (state_with [logic_course; intro_again]))
     = Ok (Render "course_details.html" (Some intro_again)).
Proof.
  split.
  - refine (proj1 (added_course_found_unless_shadowed intro_form get_request
                     (state_with [logic_course]) [logic_course]
                     _ _ _ _ _ _ _) _);
      vm_compute; reflexivity.
  - refine (proj2 (added_course_found_unless_shadowed intro_form get_request
                     (state_with [logic_course; intro_again])
                     [logic_course; intro_again] _ _ _ _ _ _ _)
              [logic_course] intro_again [] _ _ _);
      vm_compute; reflexivity.
Defined.

(** ** [course_catalog] *)

Lemma course_catalog_run (req : request) (st : state) (courses : pyval)
    (n : Z) :
  load_courses_from (course_file st) = Ok courses -> py_len courses = Ok n ->
  outcome (course_catalog req) st
  = Ok (Render "course_catalog.html" (Some courses))
  /\ (exists s,
        closes_span st (exec (course_catalog req) st) s
        /\ span_has s "total_courses" (VInt n)
        /\ events s = ["Loading course catalog"%string]
        /\ status_error s = false)
  /\ course_file (exec (course_catalog req) st) = course_file st
  /\ flashed (exec (course_catalog req) st) = flashed st
  /\ error_count (exec (course_catalog req) st) = error_count st.
Proof.
  intros Hload Hlen. fields st. unfold closes_span, span_has.
  run. rewrite Hload. run. rewrite Hlen. run. split; [reflexivity |].
  split; [eexists; split; [reflexivity |]; auto | auto].
Qed.

(** X3. [course_catalog] renders the value [load_courses] returns, as it is,
    and records its length on the span as [total_courses]; it flashes
    nothing, counts no error and leaves the catalog file as it was. *)
Theorem course_catalog_renders_stored (req : request) (st : state)
    (courses : pyval) (n : Z) :
  load_courses_from (course_file st) = Ok courses -> py_len courses = Ok n ->
  outcome (course_catalog req) st
  = Ok (Render "course_catalog.html" (Some courses))
  /\ (exists s,
        closes_span st (exec (course_catalog req) st) s
        /\ span_has s "total_courses" (VInt n)
        /\ events s = ["Loading course catalog"%string]
        /\ status_error s = false)
  /\ course_file (exec (course_catalog req) st) = course_file st
  /\ flashed (exec (course_catalog req) st) = flashed st
  /\ error_count (exec (course_catalog req) st) = error_count st.
Proof. apply course_catalog_run. Qed.

Lemma course_catalog_renders_stored_witness :
  outcome (course_catalog get_request) (state_with [intro_course; logic_course])
  = Ok (Render "course_catalog.html"
          (Some (PList [intro_course; logic_course]))).
Proof.
  refine (proj1 (course_catalog_renders_stored get_request
                   (state_with [intro_course; logic_course])
                   (PList [intro_course; logic_course]) 2%Z _ _));
    vm_compute; reflexivity.
Defined.

(** X4. The catalog page requested after a course was added lists the old
    records followed by the new one, and counts one course more. *)
Theorem catalog_after_add_lists_new_course (req req' : request) (st : state)
    (cs : list pyval) :
  method req = lit "POST" -> required_missing req = false ->
  form_valid req = true ->
  load_courses_from (course_file st) = Ok (PList cs) ->
  usable (course_file st) = true -> forallb wf cs = true ->
  outcome (course_catalog req') (exec (add_course req) st)
  = Ok (Render "course_catalog.html"
          (Some (PList (cs ++ [PDict (course_of_form req)]))))
  /\ exists s,
       closes_span (exec (add_course req) st)
         (exec (course_catalog req') (exec (add_course req) st)) s
       /\ span_has s "total_courses" (VInt (Z.of_nat (length cs) + 1)).
Proof.
  intros Hm Hmiss Hform Hload Hu Hwf.
  destruct (add_course_appends req st cs Hm Hmiss Hform Hload Hu Hwf)
    as (_ & Hload1 & _).
  assert (py_len (PList (cs ++ [PDict (course_of_form req)]))
          = Ok (Z.of_nat (length cs) + 1)%Z) as Hlen.
  { cbn [py_len]. rewrite length_app. cbn [length]. f_equal. lia. }
  destruct (course_catalog_run req' _ _ _ Hload1 Hlen)
    as (H1 & (s & Hs & Ht & _) & _).
  split; [exact H1 | eauto].
Qed.

Lemma catalog_after_add_lists_new_course_witness :
  outcome (course_catalog get_request)
    (exec (add_course intro_form) (state_with [logic_course]))
  = Ok (Render "course_catalog.html"
          (Some (PList [logic_course; PDict (course_of_form intro_form)]))).
Proof.
  refine (proj1 (catalog_after_add_lists_new_course intro_form get_request
                   (state_with [logic_course]) [logic_course] _ _ _ _ _ _));
    vm_compute; reflexivity.
Defined.

(** ** [course_details] when the code is not found *)

Lemma course_details_not_found_run (code : str) (req : request) (st : state)
    (cs : list pyval) :
  load_courses_from (course_file st) = Ok (PList cs) ->
  first_with_code cs code = Ok None ->
  outcome (course_details code req) st = Ok (Redirect "course_catalog")
  /\ flashed (exec (course_details code req) st)
     = flashed st
       ++ [(lit "No course found with code '" ++ code ++ lit "'.",
            "error"%string)]
  /\ app_log (exec (course_details code req) st)
     = app_log st
       ++ [LogRecord ERROR
             [("event"%string, VStr (lit "Course Not Found"));
              ("route"%string, VStr (lit "/course/<code>"));
              ("course_code"%string, VStr code)]]
  /\ error_count (exec (course_details code req) st)
     = increment (error_count st) "course_details"
  /\ course_file (exec (course_details code req) st) = course_file st
  /\ requests_count (exec (course_details code req) st) = requests_count st.
Proof.
  intros Hload Hfirst. fields st.
  run. rewrite Hload. run. cbn [py_iter]. run. rewrite Hfirst. run.
  auto 10.
Qed.

(** X5. When no record has the code, [course_details] redirects to the
    catalog with an error message naming the code, logs the code at level
    [ERROR], raises its error counter by one, and touches neither the
    catalog file nor the request counters. *)
Theorem course_details_not_found (code : str) (req : request) (st : state)
    (cs : list pyval) :
  load_courses_from (course_file st) = Ok (PList cs) ->
  forallb has_code_field cs = true ->
  forallb (fun y => negb (has_code code y)) cs = true ->
  outcome (course_details code req) st = Ok (Redirect "course_catalog")
  /\ flashed (exec (course_details code req) st)
     = flashed st
       ++ [(lit "No course found with code '" ++ code ++ lit "'.",
            "error"%string)]
  /\ app_log (exec (course_details code req) st)
     = app_log st
       ++ [LogRecord ERROR
             [("event"%string, VStr (lit "Course Not Found"));
              ("route"%string, VStr (lit "/course/<code>"));
              ("course_code"%string, VStr code)]]
  /\ count_of (error_count (exec (course_details code req) st))
       "course_details"
     = (count_of (error_count st) "course_details" + 1)%Z
  /\ course_file (exec (course_details code req) st) = course_file st
  /\ requests_count (exec (course_details code req) st) = requests_count st.
Proof.
  intros Hload Hcode Hnone.
  assert (first_with_code cs code = Ok None) as Hfirst.
  { rewrite <- (List.app_nil_r cs).
    rewrite first_with_code_skips by assumption. reflexivity. }
  destruct (course_details_not_found_run code req st cs Hload Hfirst)
    as (H1 & H2 & H3 & H4 & H5 & H6).
  rewrite H4, count_of_increment. auto 10.
Qed.

Lemma course_details_not_found_witness :
  outcome (course_details (lit "CS999") get_request) (state_with [intro_course])
  = Ok (Redirect "course_catalog")
  /\ count_of
       (error_count
          (exec (course_details (lit "CS999") get_request)
             (state_with [intro_course]))) "course_details" = 1%Z.
Proof.
  destruct (course_details_not_found (lit "CS999") get_request
              (state_with [intro_course]) [intro_course])
    as (H1 & _ & _ & H4 & _); try (vm_compute; reflexivity).
  split; [exact H1 | exact H4].
Defined.

(** ** [delete_course] *)

Lemma filter_has_code_field (code : str) (cs : list pyval) :
  forallb has_code_field cs = true ->
  forallb has_code_field
    (List.filter (fun x => negb (has_code code x)) cs) = true.
Proof.
  induction cs as [|x cs IH]; [reflexivity |]. cbn [forallb List.filter].
  intros H. apply andb_true_iff in H as [Hx Hcs].
  destruct (negb (has_code code x)); cbn [forallb]; rewrite ?Hx; auto.
Qed.

Lemma filter_no_code_left (code : str) (cs : list pyval) :
  forallb (fun y => negb (has_code code y))
    (List.filter (fun x => negb (has_code code x)) cs) = true.
Proof.
  induction cs as [|x cs IH]; [reflexivity |]. cbn [List.filter].
  destruct (negb (has_code code x)) eqn:E; [| exact IH].
  cbn [forallb]. rewrite E. exact IH.
Qed.

Lemma delete_course_file (code : str) (req : request) (st : state)
    (cs : list pyval) :
  load_courses_from (course_file st) = Ok (PList cs) ->
  usable (course_file st) = true ->
  forallb wf cs = true -> forallb has_code_field cs = true ->
  load_courses_from (course_file (exec (delete_course code req) st))
  = Ok (PList (List.filter (fun x => negb (has_code code x)) cs))
  /\ usable (course_file (exec (delete_course code req) st)) = true
  /\ flashed (exec (delete_course code req) st)
     = flashed st
       ++ [(lit "Course with code '" ++ code
            ++ lit "' deleted successfully!", "success"%string)]
  /\ error_count (exec (delete_course code req) st) = error_count st
  /\ requests_count (exec (delete_course code req) st) = requests_count st.
Proof.
  intros Hload Hu Hwf Hcode.
  destruct (dump_then_load (course_file st)
              (PList (List.filter (fun x => negb (has_code code x)) cs)) Hu
              (forallb_filter_wf _ cs Hwf)) as (fs' & Hdump & Hl & Hu').
  unfold exec, delete_course, bind, load_courses, lift, dump_courses.
  rewrite Hload. cbn [py_iter]. rewrite (without_code_filter code cs Hcode).
  rewrite Hdump. cbn. auto.
Qed.

(** X6. After [delete_course] for a code, [course_details] for that code
    finds nothing: it redirects to the catalog and counts one error. *)
Theorem deleted_course_not_found (code : str) (req req' : request)
    (st : state) (cs : list pyval) :
  load_courses_from (course_file st) = Ok (PList cs) ->
  usable (course_file st) = true ->
  forallb wf cs = true -> forallb has_code_field cs = true ->
  outcome (course_details code req') (exec (delete_course code req) st)
  = Ok (Redirect "course_catalog")
  /\ count_of
       (error_count
          (exec (course_details code req') (exec (delete_course code req) st)))
       "course_details"
     = (count_of (error_count st) "course_details" + 1)%Z.
Proof.
  intros Hload Hu Hwf Hcode.
  destruct (delete_course_file code req st cs Hload Hu Hwf Hcode)
    as (Hload1 & _ & _ & Herr & _).
  assert (first_with_code
            (List.filter (fun x => negb (has_code code x)) cs) code = Ok None)
    as Hfirst.
  { rewrite <- (List.app_nil_r (List.filter _ cs)).
    rewrite first_with_code_skips;
      [reflexivity | apply filter_has_code_field; assumption
      | apply filter_no_code_left]. }
  destruct (course_details_not_found_run code req' _ _ Hload1 Hfirst)
    as (H1 & _ & _ & H4 & _).
  rewrite H4, count_of_increment, Herr. auto.
Qed.

Lemma deleted_course_not_found_witness :
  outcome (course_details (lit "CS101") get_request)
    (exec (delete_course (lit "CS101") delete_request)
       (state_with [intro_course; logic_course; intro_again]))
  = Ok (Redirect "course_catalog").
Proof.
  refine (proj1 (deleted_course_not_found (lit "CS101") delete_request
                   get_request
                   (state_with [intro_course; logic_course; intro_again])
                   [intro_course; logic_course; intro_again] _ _ _ _));
    vm_compute; reflexivity.
Defined.

Lemma filter_filter_same (code : str) (cs : list pyval) :
  List.filter (fun x => negb (has_code code x))
    (List.filter (fun x => negb (has_code code x)) cs)
  = List.filter (fun x => negb (has_code code x)) cs.
Proof. apply filter_none_matching, filter_no_code_left. Qed.

(** X7. Deleting the same code a second time changes nothing more: the
    catalog loads as after the first deletion, and the handler answers with
    the same redirect and the same message of success. *)
Theorem delete_course_twice (code : str) (req req' : request) (st : state)
    (cs : list pyval) :
  load_courses_from (course_file st) = Ok (PList cs) ->
  usable (course_file st) = true ->
  forallb wf cs = true -> forallb has_code_field cs = true ->
  outcome (delete_course code req') (exec (delete_course code req) st)
  = Ok (Redirect "course_catalog")
  /\ load_courses_from
       (course_file
          (exec (delete_course code req') (exec (delete_course code req) st)))
     = load_courses_from (course_file (exec (delete_course code req) st)).
Proof.
  intros Hload Hu Hwf Hcode.
  destruct (delete_course_file code req st cs Hload Hu Hwf Hcode)
    as (Hload1 & Hu1 & _).
  destruct (delete_course_run code req' _ _ Hload1 Hu1
              (forallb_filter_wf _ cs Hwf)
              (filter_has_code_field code cs Hcode)) as [H1 H2].
  rewrite H2, filter_filter_same, Hload1. auto.
Qed.

Lemma delete_course_twice_witness :
  load_courses_from
    (course_file
       (exec (delete_course (lit "CS101") delete_request)
          (exec (delete_course (lit "CS101") delete_request)
             (state_with [intro_course; logic_course]))))
  = load_courses_from
      (course_file
         (exec (delete_course (lit "CS101") delete_request)
            (state_with [intro_course; logic_course]))).
Proof.
  refine (proj2 (delete_course_twice (lit "CS101") delete_request
                   delete_request (state_with [intro_course; logic_course])
                   [intro_course; logic_course] _ _ _ _));
    vm_compute; reflexivity.
Defined.

(** ** What every handler keeps *)

Ltac split_paths :=
  repeat (run;
          match goal with
          | |- context [load_courses_from ?f] =>
              destruct (load_courses_from f) eqn:?
          | |- context [py_len ?o] => destruct (py_len o) eqn:?
          | |- context [py_iter ?o] => destruct (py_iter o) eqn:?
          | |- context [py_append ?o ?x] => destruct (py_append o x) eqn:?
          | |- context [without_code ?l ?c] =>
              destruct (without_code l c) eqn:?
          | |- context [first_with_code ?l ?c] =>
              destruct (first_with_code l c) eqn:?
          | |- context [dump_to ?f ?d] => destruct (dump_to f d) eqn:?
          | |- context [subscript ?o ?k] => destruct (subscript o k) eqn:?
          | |- context [str_eqb ?a ?b] => destruct (str_eqb a b) eqn:?
          | |- context [truthy ?o] => destruct (truthy o) eqn:?
          | |- context [match ?x with _ => _ end] => is_var x; destruct x
          end);
  run.

Ltac grown :=
  unfold grows_by_one;
  first [left; reflexivity | right; eexists; reflexivity].

(** X8. Whatever the route, the request and the way out of the handler, an
    exception included, the handler leaves no span open behind it and ends
    one span at most; the log, the flashed messages and the ended spans only
    grow, by one entry at most each, what was there staying in place. *)
Theorem handlers_leave_no_span_open (r : route) (req : request) (st : state) :
  open_spans (exec (handle r req) st) = open_spans st
  /\ grows_by_one (finished_spans st) (finished_spans (exec (handle r req) st))
  /\ grows_by_one (app_log st) (app_log (exec (handle r req) st))
  /\ grows_by_one (flashed st) (flashed (exec (handle r req) st))
  /\ time_source (exec (handle r req) st) = time_source st
  /\ (ticks st <= ticks (exec (handle r req) st))%nat.
Proof.
  fields st. destruct r; split_paths; repeat split; try lia; grown.
Qed.

(** ** Failures of the storage *)

Lemma without_code_raises (code : str) (cs : list pyval) :
  forallb has_code_field cs = false ->
  exists e, without_code cs code = Raise e /\ (e = KeyError \/ e = TypeError).
Proof.
  induction cs as [|x cs IH]; [discriminate |]. cbn [forallb without_code].
  intros H. destruct (has_code_field x) eqn:Hx.
  - destruct (subscript_code x Hx) as (c & _ & ->).
    destruct (IH H) as (e & -> & He). eauto.
  - clear IH H. unfold has_code_field, code_of in Hx. unfold subscript.
    destruct x as [| b | z | x | s | l | d]; eauto.
    destruct (dict_get d (lit "code")); [discriminate | eauto].
Qed.

(** X9. A [delete_course] that raises has changed nothing: the catalog file
    is not written and no message is flashed. It raises, with [KeyError] or
    [TypeError], as soon as one record of the catalog has no code, whatever
    the code asked for. *)
Theorem delete_course_failure_writes_nothing (code : str) (req : request)
    (st : state) :
  (forall e, outcome (delete_course code req) st = Raise e ->
             exec (delete_course code req) st = st)
  /\ (forall cs,
        load_courses_from (course_file st) = Ok (PList cs) ->
        forallb has_code_field cs = false ->
        exists e, outcome (delete_course code req) st = Raise e
                  /\ (e = KeyError \/ e = TypeError)).
Proof.
  fields st. split.
  - intros e. split_paths; intros H; try discriminate; reflexivity.
  - intros cs Hload Hcode.
    destruct (without_code_raises code cs Hcode) as (e & He & Hk).
    exists e. split; [| exact Hk].
    run. rewrite Hload. run. cbn [py_iter]. run. rewrite He. reflexivity.
Qed.

Lemma delete_course_failure_writes_nothing_witness :
  exec (delete_course (lit "CS101") delete_request)
    (state_with [intro_course; codeless_course])
  = state_with [intro_course; codeless_course]
  /\ exists e,
       outcome (delete_course (lit "CS101") delete_request)
         (state_with [intro_course; codeless_course]) = Raise e
       /\ (e = KeyError \/ e = TypeError).
Proof.
  split.
  - apply (proj1 (delete_course_failure_writes_nothing (lit "CS101")
                    delete_request
                    (state_with [intro_course; codeless_course])) KeyError).
    vm_compute; reflexivity.
  - apply (proj2 (delete_course_failure_writes_nothing (lit "CS101")
                    delete_request
                    (state_with [intro_course; codeless_course]))
             [intro_course; codeless_course]);
      vm_compute; reflexivity.
Defined.

(** X10. A [save_courses] that raises has written nothing. It raises
    [AttributeError] when the catalog file holds JSON that is not a list, and
    the error of [load_courses] when the file cannot be loaded. *)
Theorem save_courses_failure_writes_nothing (data : pyval) (st : state) :
  (forall e, outcome (save_courses data) st = Raise e ->
             exec (save_courses data) st = st)
  /\ (forall v,
        load_courses_from (course_file st) = Ok v ->
        (forall l, v <> PList l) ->
        outcome (save_courses data) st = Raise AttributeError)
  /\ (forall e,
        load_courses_from (course_file st) = Raise e ->
        outcome (save_courses data) st = Raise e).
Proof.
  fields st. split; [| split].
  - intros e. split_paths; intros H; try discriminate; reflexivity.
  - intros v Hload Hv. run. rewrite Hload. run.
    destruct v as [| b | z | x | s | l | d]; try reflexivity.
    exfalso. exact (Hv l eq_refl).
  - intros e Hload. run. rewrite Hload. reflexivity.
Qed.

Lemma save_courses_failure_writes_nothing_witness :
  exec (save_courses intro_course) state_object = state_object
  /\ outcome (save_courses intro_course) state_object = Raise AttributeError
  /\ outcome (save_courses intro_course) state_corrupt
     = Raise JSONDecodeError.
Proof.
  split; [| split].
  - apply (proj1 (save_courses_failure_writes_nothing intro_course
                    state_object) AttributeError).
    vm_compute; reflexivity.
  - apply (proj1 (proj2 (save_courses_failure_writes_nothing intro_course
                           state_object)) (PDict []));
      [vm_compute; reflexivity | discriminate].
  - apply (proj2 (proj2 (save_courses_failure_writes_nothing intro_course
                           state_corrupt)) JSONDecodeError).
    vm_compute; reflexivity.
Defined.

(** X11. When the catalog file cannot be loaded, [course_catalog] and
    [course_details] let the exception go on to the caller: nothing is
    logged or flashed, no error is counted, the file is left alone, and the
    span still ends, marked as failed with an [exception] event; the request
    of the catalog has been counted all the same. *)
Theorem load_failure_propagates (code : str) (req : request) (st : state)
    (e : exn) :
  load_courses_from (course_file st) = Raise e ->
  (outcome (course_catalog req) st = Raise e
   /\ app_log (exec (course_catalog req) st) = app_log st
   /\ flashed (exec (course_catalog req) st) = flashed st
   /\ error_count (exec (course_catalog req) st) = error_count st
   /\ course_file (exec (course_catalog req) st) = course_file st
   /\ requests_count (exec (course_catalog req) st)
      = increment (requests_count st) "catalog"
   /\ exists s,
        closes_span st (exec (course_catalog req) st) s
        /\ status_error s = true
        /\ events s = ["Loading course catalog"; "exception"]%string)
  /\ (outcome (course_details code req) st = Raise e
      /\ app_log (exec (course_details code req) st) = app_log st
      /\ flashed (exec (course_details code req) st) = flashed st
      /\ error_count (exec (course_details code req) st) = error_count st
      /\ course_file (exec (course_details code req) st) = course_file st
      /\ exists s,
           closes_span st (exec (course_details code req) st) s
           /\ status_error s = true
           /\ events s = ["exception"%string]).
Proof.
  intros Hload. fields st. unfold closes_span.
  split; run; rewrite Hload; run;
    repeat (split; [reflexivity |]); eexists; repeat split.
Qed.

Lemma load_failure_propagates_witness :
  outcome (course_catalog get_request) state_corrupt = Raise JSONDecodeError
  /\ outcome (course_details (lit "CS101") get_request) state_corrupt
     = Raise JSONDecodeError.
Proof.
  destruct (load_failure_propagates (lit "CS101") get_request state_corrupt
              JSONDecodeError) as [[H1 _] [H2 _]];
    [vm_compute; reflexivity |].
  split; [exact H1 | exact H2].
Defined.

(** ** Counters and the catalog file over the routes *)

Lemma handle_requests_count (r : route) (req : request) (st : state) :
  requests_count (exec (handle r req) st)
  = if is_catalog r then increment (requests_count st) "catalog"
    else if is_add_course r then increment (requests_count st) "add_course"
    else requests_count st.
Proof. fields st. destruct r; split_paths; reflexivity. Qed.

(** X12. Over any sequence of requests served one after the other, the
    request counter of the catalog goes up by the number of requests to
    [/catalog] and the one of [add_course] by the number of requests to
    [/add_course], whether the handlers succeeded or raised; no other request
    counter is ever touched. *)
Theorem request_counters_count_requests (requests : list (route * request))
    (st : state) :
  count_of (requests_count (serve requests st)) "catalog"
  = (count_of (requests_count st) "catalog"
     + Z.of_nat (length (List.filter (fun p => is_catalog (fst p)) requests)))%Z
  /\ count_of (requests_count (serve requests st)) "add_course"
     = (count_of (requests_count st) "add_course"
        + Z.of_nat
            (length (List.filter (fun p => is_add_course (fst p)) requests)))%Z
  /\ (forall name,
        name <> "catalog"%string -> name <> "add_course"%string ->
        count_of (requests_count (serve requests st)) name
        = count_of (requests_count st) name).
Proof.
  revert st. induction requests as [|[r req] requests IH]; intros st.
  - cbn. repeat split; lia.
  - cbn [serve List.filter fst].
    destruct (IH (exec (handle r req) st)) as (H1 & H2 & H3).
    rewrite handle_requests_count in H1, H2, H3.
    split; [| split].
    + rewrite H1. destruct r; cbn [is_catalog is_add_course length];
        rewrite ?count_of_increment, ?count_of_increment_other by discriminate;
        lia.
    + rewrite H2. destruct r; cbn [is_catalog is_add_course length];
        rewrite ?count_of_increment, ?count_of_increment_other by discriminate;
        lia.
    + intros name Hc Ha. rewrite (H3 name Hc Ha).
      destruct r; cbn [is_catalog is_add_course];
        rewrite ?count_of_increment_other by congruence; reflexivity.
Qed.

Lemma request_counters_count_requests_witness :
  count_of
    (requests_count
       (serve [(RCatalog, get_request); (RAddCourse, blank_name_form);
               (RCourseDetails (lit "CS101"), get_request);
               (RCatalog, get_request)] state_corrupt)) "course_details"
  = 0%Z.
Proof.
  refine (proj2 (proj2 (request_counters_count_requests _ state_corrupt))
            "course_details"%string _ _); discriminate.
Defined.

(** X13. The catalog file changes only when [add_course] or [delete_course]
    succeed: if a request left the file different from what it was, its
    route is one of the two and its handler returned the redirect to the
    catalog. No other route, and no request that was rejected or that
    raised, writes the file. *)
Theorem file_written_only_on_success (r : route) (req : request)
    (st : state) :
  course_file (exec (handle r req) st) <> course_file st ->
  writes_catalog r = true
  /\ outcome (handle r req) st = Ok (Redirect "course_catalog").
Proof.
  fields st. destruct r; split_paths; intros H;
    first [solve [split; reflexivity] | exfalso; apply H; reflexivity].
Qed.

Lemma file_written_only_on_success_witness :
  outcome (handle RAddCourse intro_form) fresh_state
  = Ok (Redirect "course_catalog").
Proof.
  refine (proj2 (file_written_only_on_success RAddCourse intro_form
                   fresh_state _)).
  vm_compute. discriminate.
Defined.

(** X14. A request to [/add_course] that is not a [POST] only shows the
    form: whatever the form data sent with it, nothing is stored, logged,
    flashed or counted as an error; the request itself is counted and its
    span ends without event. *)
Theorem add_course_other_method_shows_form (req : request) (st : state) :
  method req <> lit "POST" ->
  outcome (add_course req) st = Ok (Render "add_course.html" None)
  /\ course_file (exec (add_course req) st) = course_file st
  /\ app_log (exec (add_course req) st) = app_log st
  /\ flashed (exec (add_course req) st) = flashed st
  /\ error_count (exec (add_course req) st) = error_count st
  /\ requests_count (exec (add_course req) st)
     = increment (requests_count st) "add_course"
  /\ exists s, closes_span st (exec (add_course req) st) s
               /\ events s = [] /\ status_error s = false.
Proof.
  intros Hm. apply str_eqb_neq in Hm. fields st. unfold closes_span.
  run. rewrite Hm. run. repeat (split; [reflexivity |]).
  eexists; repeat split.
Qed.

Lemma add_course_other_method_shows_form_witness :
  outcome (add_course get_request) (state_with [intro_course])
  = Ok (Render "add_course.html" None).
Proof.
  refine (proj1 (add_course_other_method_shows_form get_request
                   (state_with [intro_course]) _)).
  vm_compute. discriminate.
Defined.

(** X16. An error is counted only by a rejected form and by a code that is
    not found, and by one: if a request changed the error counters, either it
    went to [/add_course], the form was rendered again and the counter of
    [add_course] went up, or it went to [/course/<code>], the client was
    redirected and the counter of [course_details] went up. A handler that
    raises counts no error. *)
Theorem errors_counted_only_on_rejection (r : route) (req : request)
    (st : state) :
  error_count (exec (handle r req) st) <> error_count st ->
  (r = RAddCourse
   /\ outcome (handle r req) st = Ok (Render "add_course.html" None)
   /\ error_count (exec (handle r req) st)
      = increment (error_count st) "add_course")
  \/ (exists code,
        r = RCourseDetails code
        /\ outcome (handle r req) st = Ok (Redirect "course_catalog")
        /\ error_count (exec (handle r req) st)
           = increment (error_count st) "course_details").
Proof.
  fields st. destruct r; split_paths; intros H;
    first [ exfalso; apply H; reflexivity
          | left; repeat split; reflexivity
          | right; eexists; repeat split; reflexivity ].
Qed.

Lemma errors_counted_only_on_rejection_witness :
  (RAddCourse = RAddCourse
   /\ outcome (handle RAddCourse blank_name_form) fresh_state
      = Ok (Render "add_course.html" None)
   /\ error_count (exec (handle RAddCourse blank_name_form) fresh_state)
      = increment (error_count fresh_state) "add_course")
  \/ (exists code,
        RAddCourse = RCourseDetails code
        /\ outcome (handle RAddCourse blank_name_form) fresh_state
           = Ok (Redirect "course_catalog")
        /\ error_count (exec (handle RAddCourse blank_name_form) fresh_state)
           = increment (error_count fresh_state) "course_details").
Proof.
  apply (errors_counted_only_on_rejection RAddCourse blank_name_form
           fresh_state).
  intros H.
  assert (count_of (error_count (exec (handle RAddCourse blank_name_form)
                                    fresh_state)) "add_course"
          = count_of (error_count fresh_state) "add_course") as Hc
    by (rewrite H; reflexivity).
  vm_compute in Hc. discriminate.
Defined.

(** X17. The elapsed time that [course_catalog] and [course_details] write
    to the log is read from the clock after the one they put on the span:
    with a clock that does not go back, the time on the span is not negative
    and the time in the log record is not below it. *)
Theorem logged_time_not_below_span_time (code : str) (req : request)
    (st : state) :
  monotone (time_source st) ->
  (forall courses n,
      load_courses_from (course_file st) = Ok courses ->
      py_len courses = Ok n ->
      exists s rec ds dl,
        closes_span st (exec (course_catalog req) st) s
        /\ app_log (exec (course_catalog req) st) = app_log st ++ [rec]
        /\ span_has s "processing_time" (VSeconds ds)
        /\ attr_get (log_fields rec) "processing_time" = Some (VSeconds dl)
        /\ (0 <= ds <= dl)%Z)
  /\ (forall cs x,
        load_courses_from (course_file st) = Ok (PList cs) ->
        first_with_code cs code = Ok (Some x) ->
        exists s rec ds dl,
          closes_span st (exec (course_details code req) st) s
          /\ app_log (exec (course_details code req) st) = app_log st ++ [rec]
          /\ span_has s "processing_time" (VSeconds ds)
          /\ attr_get (log_fields rec) "processing_time" = Some (VSeconds dl)
          /\ (0 <= ds <= dl)%Z).
Proof.
  intros Hmono. fields st. unfold closes_span, span_has.
  pose proof (Hmono tk) as H1. pose proof (Hmono (S tk)) as H2.
  split.
  - intros courses n Hload Hlen. run. rewrite Hload. run. rewrite Hlen. run.
    do 4 eexists. repeat (split; [reflexivity |]). lia.
  - intros cs x Hload Hfirst.
    destruct (first_with_code_found code cs x Hfirst) as (Ht & c & Hsub).
    run. rewrite Hload. run. cbn [py_iter]. run. rewrite Hfirst. run.
    rewrite Ht. run. rewrite Hsub. run.
    do 4 eexists. repeat (split; [reflexivity |]). lia.
Qed.

Lemma logged_time_not_below_span_time_witness :
  exists s rec ds dl,
    closes_span (state_with [intro_course])
      (exec (course_catalog get_request) (state_with [intro_course])) s
    /\ app_log (exec (course_catalog get_request) (state_with [intro_course]))
       = app_log (state_with [intro_course]) ++ [rec]
    /\ span_has s "processing_time" (VSeconds ds)
    /\ attr_get (log_fields rec) "processing_time" = Some (VSeconds dl)
    /\ (0 <= ds <= dl)%Z.
Proof.
  refine (proj1 (logged_time_not_below_span_time (lit "CS101") get_request
                   (state_with [intro_course]) fresh_clock_monotone)
            (PList [intro_course]) 1%Z _ _);
    vm_compute; reflexivity.
Defined.

(** ** The catalog over any sequence of requests *)

Lemma complete_has_code_field (course : pyval) :
  complete course = true -> has_code_field course = true.
Proof.
  unfold complete, field_filled, has_code_field, code_of.
  destruct course as [| b | z | x | s | l | d]; try discriminate.
  destruct (dict_get d (lit "code")); [reflexivity | discriminate].
Qed.

Lemma forallb_complete_code (cs : list pyval) :
  forallb complete cs = true -> forallb has_code_field cs = true.
Proof.
  induction cs as [|x cs IH]; [reflexivity |]. cbn [forallb].
  intros H. apply andb_true_iff in H as [Hx Hcs].
  rewrite (complete_has_code_field x Hx). exact (IH Hcs).
Qed.

Lemma forallb_filter_keeps (p q : pyval -> bool) (cs : list pyval) :
  forallb q cs = true -> forallb q (List.filter p cs) = true.
Proof.
  induction cs as [|x cs IH]; [reflexivity |]. cbn [forallb List.filter].
  intros H. apply andb_true_iff in H as [Hx Hcs].
  destruct (p x); cbn [forallb]; rewrite ?Hx; auto.
Qed.

Lemma field_filled_of_form (req : request) (key : string) :
  dict_get (course_of_form req) (lit key)
  = Some (PStr (strip (form_get (form req) (lit key)))) ->
  missing req key = false ->
  field_filled (PDict (course_of_form req)) key = true.
Proof.
  intros Hget Hmiss. unfold field_filled. rewrite Hget.
  unfold missing in Hmiss. rewrite Hmiss, strip_no_edge_space. reflexivity.
Qed.

Lemma course_of_form_complete (req : request) :
  required_missing req = false -> complete (PDict (course_of_form req)) = true.
Proof.
  unfold required_missing. intros H.
  apply orb_false_iff in H as [H Hi]. apply orb_false_iff in H as [Hc Hn].
  unfold complete.
  rewrite !field_filled_of_form by (reflexivity || assumption). reflexivity.
Qed.

Lemma add_course_file_cases (req : request) (st : state) :
  (method req = lit "POST" /\ required_missing req = false)
  \/ course_file (exec (add_course req) st) = course_file st.
Proof.
  destruct (str_eqb (method req) (lit "POST")) eqn:Hm.
  - apply str_eqb_eq in Hm. destruct (required_missing req) eqn:Hmiss.
    + right. destruct (add_course_rejects req st Hm Hmiss) as (_ & _ & _ & H & _).
      exact H.
    + left. auto.
  - right. fields st. run. rewrite Hm. reflexivity.
Qed.

Lemma handle_keeps_store (r : route) (req : request) (st : state) :
  form_valid req = true -> good_store st ->
  good_store (exec (handle r req) st).
Proof.
  intros Hform (cs & Hload & Hu & Hwf & Hall).
  assert (course_file (exec (handle r req) st) = course_file st
          -> good_store (exec (handle r req) st)) as Hsame.
  { intros E. exists cs. rewrite E. auto. }
  destruct r; try (apply Hsame; fields st; split_paths; reflexivity).
  - cbn [handle]. cbn [handle] in Hsame.
    destruct (add_course_file_cases req st) as [[Hm Hmiss] | E]; [| auto].
    destruct (add_course_appends req st cs Hm Hmiss Hform Hload Hu Hwf)
      as (_ & Hload1 & Hu1).
    exists (cs ++ [PDict (course_of_form req)]).
    repeat split; try assumption.
    + rewrite forallb_app, Hwf. cbn [forallb].
      rewrite (course_of_form_wf req Hform). reflexivity.
    + rewrite forallb_app, Hall. cbn [forallb].
      rewrite (course_of_form_complete req Hmiss). reflexivity.
  - cbn [handle].
    destruct (delete_course_file code req st cs Hload Hu Hwf
                (forallb_complete_code cs Hall)) as (Hload1 & Hu1 & _).
    exists (List.filter (fun x => negb (has_code code x)) cs).
    repeat split; try assumption.
    + apply forallb_filter_keeps. exact Hwf.
    + apply forallb_filter_keeps. exact Hall.
Qed.

(** X18. A catalog whose file loads as a list of records with code, name and
    instructor filled stays one over any sequence of requests served one
    after the other: no request leaves the file unloadable, leaves something
    other than a list in it, or leaves a record with an empty or blank-edged
    required field. *)
Theorem served_requests_keep_store (requests : list (route * request))
    (st : state) :
  forallb (fun p => form_valid (snd p)) requests = true ->
  good_store st -> good_store (serve requests st).
Proof.
  revert st. induction requests as [|[r req] requests IH]; intros st Hreq Hst.
  - exact Hst.
  - cbn [forallb snd] in Hreq. apply andb_true_iff in Hreq as [Hform Hreq].
    cbn [serve]. apply IH; [exact Hreq |].
    apply handle_keeps_store; assumption.
Qed.

Lemma served_requests_keep_store_witness :
  good_store
    (serve [(RAddCourse, intro_form); (RAddCourse, blank_name_form);
            (RCourseDetails (lit "CS999"), get_request);
            (RDeleteCourse (lit "CS203"), delete_request);
            (RCatalog, get_request)]
       (state_with [logic_course])).
Proof.
  apply served_requests_keep_store; [vm_compute; reflexivity |].
  exists [logic_course]. repeat split; vm_compute; reflexivity.
Defined.

(** ** The text written to the catalog file *)

Lemma hexdigit_ascii (d : N) : d < 16 -> is_ascii (hexdigit d) = true.
Proof. unfold is_ascii, hexdigit. intros H. destruct (d <? 10) eqn:E; lia. Qed.

Lemma u_escape_ascii (n : N) : forallb is_ascii (u_escape n) = true.
Proof.
  unfold u_escape. cbn [forallb].
  rewrite !hexdigit_ascii by (apply N.mod_lt; discriminate). reflexivity.
Qed.

Lemma escape_char_ascii (c : N) : forallb is_ascii (escape_char c) = true.
Proof.
  unfold escape_char.
  repeat match goal with
  | |- context [if ?x =? ?k then _ else _] =>
      destruct (x =? k); [reflexivity |]
  end.
  destruct ((32 <=? c) && (c <=? 126)) eqn:Hp.
  - cbn [forallb]. unfold is_ascii. lia.
  - destruct (c <? 65536); rewrite ?forallb_app, !u_escape_ascii; reflexivity.
Qed.

Lemma encode_basestring_ascii_ascii (s : str) :
  forallb is_ascii (encode_basestring_ascii s) = true.
Proof.
  unfold encode_basestring_ascii. cbn [forallb].
  rewrite forallb_app. cbn [forallb]. rewrite andb_true_r.
  change (is_ascii 34) with true. cbn [andb].
  induction s as [|c s IH]; [reflexivity |]. cbn [flat_map].
  rewrite forallb_app, escape_char_ascii, IH. reflexivity.
Qed.

Lemma newline_indent_ascii (level : nat) :
  forallb is_ascii (newline_indent level) = true.
Proof.
  unfold newline_indent. cbn [forallb]. change (is_ascii 10) with true.
  cbn [andb]. induction (4 * level)%nat as [|k IH]; [reflexivity | exact IH].
Qed.

Lemma digits_of_uint_ascii (u : Decimal.uint) :
  forallb is_ascii (digits_of_uint u) = true.
Proof. induction u; cbn [digits_of_uint forallb]; rewrite ?IHu; reflexivity. Qed.

Lemma int_repr_ascii (n : Z) : forallb is_ascii (int_repr n) = true.
Proof.
  unfold int_repr, digits_of. destruct (n <? 0)%Z; cbn [forallb];
    rewrite digits_of_uint_ascii; reflexivity.
Qed.

Lemma forallb_strip_zeros (p : N -> bool) (t : text) :
  forallb p t = true -> forallb p (strip_zeros t) = true.
Proof.
  induction t as [|c t IH]; intros H; [reflexivity |].
  cbn [strip_zeros].
  destruct (N.eq_dec c 48) as [-> | Hc].
  - destruct t as [|c' t']; [exact H |]. apply IH.
    cbn [forallb] in H. apply andb_true_iff in H as [_ H]. exact H.
  - destruct c as [|q]; [exact H |].
    repeat (destruct q as [q | q |]; try exact H). congruence.
Qed.

Lemma forallb_firstn (p : N -> bool) (n : nat) (t : text) :
  forallb p t = true -> forallb p (firstn n t) = true.
Proof.
  revert t. induction n as [|n IH]; intros [|c t] H; try reflexivity.
  cbn [firstn forallb] in *. apply andb_true_iff in H as [H1 H2].
  rewrite H1, IH by exact H2. reflexivity.
Qed.

Lemma forallb_skipn (p : N -> bool) (n : nat) (t : text) :
  forallb p t = true -> forallb p (skipn n t) = true.
Proof.
  revert t. induction n as [|n IH]; intros [|c t] H; try reflexivity;
    [exact H |].
  cbn [skipn forallb] in *. apply andb_true_iff in H as [H1 H2].
  apply IH. exact H2.
Qed.

Lemma forallb_repeat_zero (n : nat) : forallb is_ascii (repeat 48 n) = true.
Proof. induction n as [|n IH]; [reflexivity | exact IH]. Qed.

Lemma float_repr_ascii (x : pyfloat) : forallb is_ascii (float_repr x) = true.
Proof.
  destruct x as [| [|] | negative m e]; try reflexivity.
  unfold float_repr.
  assert (forallb is_ascii (if negative then [45] else []) = true) as Hsign
    by (destruct negative; reflexivity).
  destruct (m =? 0); [rewrite forallb_app, Hsign; reflexivity |].
  destruct (if (0 <=? e)%Z then _ else _) as [num den].
  destruct (shortest_digits _ _ _ _ _ _) as [c s].
  cbv zeta.
  pose proof (digits_of_uint_ascii (N.to_uint (Z.to_N c))) as Hall.
  fold (digits_of (Z.to_N c)) in Hall.
  assert (forallb is_ascii (rev (strip_zeros (rev (digits_of (Z.to_N c)))))
          = true) as Hd
    by (apply forallb_rev_true, forallb_strip_zeros, forallb_rev_true, Hall).
  destruct (_ || _).
  - rewrite !forallb_app, Hsign. cbn [andb].
    assert (forall t, forallb is_ascii t = true ->
              forallb is_ascii match t with [_] => 48 :: t | _ => t end = true)
      as Hex.
    { intros [|a [|b t]] H; exact H. }
    rewrite Hex by apply digits_of_uint_ascii.
    destruct (rev (strip_zeros (rev (digits_of (Z.to_N c)))))
      as [|c0 [|c1 rest]]; cbn [forallb] in *.
    + destruct (_ <? 0)%Z; reflexivity.
    + rewrite Hd. destruct (_ <? 0)%Z; reflexivity.
    + apply andb_true_iff in Hd as [-> ->]. destruct (_ <? 0)%Z; reflexivity.
  - destruct (_ <=? 0)%Z; [| destruct (_ <=? _)%Z];
      rewrite ?forallb_app, ?Hsign, ?Hd, ?forallb_repeat_zero,
        ?forallb_firstn, ?forallb_skipn by exact Hd; reflexivity.
Qed.

Lemma floatstr_ascii (x : pyfloat) : forallb is_ascii (floatstr x) = true.
Proof.
  destruct x as [| [|] | negative m e]; try reflexivity.
  apply float_repr_ascii.
Qed.

Lemma iterencode_ascii (v : pyval) :
  forall level, forallb is_ascii (iterencode level v) = true.
Proof.
  induction v as [| b | z | x | s | l IH | d IH] using pyval_nested_ind;
    intros level.
  - reflexivity.
  - destruct b; reflexivity.
  - apply int_repr_ascii.
  - apply floatstr_ascii.
  - apply encode_basestring_ascii_ascii.
  - destruct l as [|x xs]; [reflexivity |].
    rewrite iterencode_list_cons. inversion IH as [|? ? Hx Hxs]; subst.
    cbn [forallb]. rewrite !forallb_app, newline_indent_ascii, Hx,
      newline_indent_ascii.
    assert (forallb is_ascii (list_items level xs) = true) as ->.
    { clear Hx IH. induction Hxs as [|y ys Hy _ IHl]; [reflexivity |].
      rewrite list_items_cons. cbn [forallb].
      rewrite !forallb_app, newline_indent_ascii, Hy, IHl. reflexivity. }
    reflexivity.
  - destruct d as [|[k x] kxs]; [reflexivity |].
    rewrite iterencode_dict_cons. inversion IH as [|? ? Hx Hxs]; subst.
    cbn [snd] in Hx. cbn [forallb].
    rewrite !forallb_app, newline_indent_ascii,
      encode_basestring_ascii_ascii, Hx, newline_indent_ascii.
    assert (forallb is_ascii (dict_items level kxs) = true) as ->.
    { clear Hx IH. induction Hxs as [|[k' y] ys Hy _ IHl]; [reflexivity |].
      rewrite dict_items_cons. cbn [forallb snd] in *.
      rewrite !forallb_app, newline_indent_ascii,
        encode_basestring_ascii_ascii, Hy, IHl. reflexivity. }
    reflexivity.
Qed.

(** X19. Whatever text the records hold, the [json.dump] blocks of
    [save_courses] and [delete_course] write a file made of ASCII characters
    only, every other character going out as a [\u] escape, and the file
    they leave can be written again. *)
Theorem catalog_file_is_ascii (fs : option file) (data : pyval) (f : file) :
  dump_to fs data = Ok (Some f) ->
  forallb is_ascii (content f) = true /\ writable f = true.
Proof.
  unfold dump_to. destruct fs as [f0|].
  - destruct (writable f0); [| discriminate]. intros H. injection H as <-.
    cbn [content writable]. split; [apply iterencode_ascii | reflexivity].
  - intros H. injection H as <-. cbn [content writable].
    split; [apply iterencode_ascii | reflexivity].
Qed.

Lemma catalog_file_is_ascii_witness :
  forallb is_ascii
    (content (File true true (json_dumps (PList [PStr [233; 128512]]))))
  = true.
Proof.
  refine (proj1 (catalog_file_is_ascii None (PList [PStr [233; 128512]]) _ _)).
  reflexivity.
Defined.

(** ** The record built from the form *)

Lemma form_get_absent (f : list (str * str)) (key : str) :
  (forall v, ~ In (key, v) f) -> form_get f key = [].
Proof.
  induction f as [|[k v] f IH]; intros H; [reflexivity |].
  change (form_get ((k, v) :: f) key)
    with (if str_eqb k key then v else form_get f key).
  destruct (str_eqb k key) eqn:E.
  - apply str_eqb_eq in E. subst k. exfalso. apply (H v). left. reflexivity.
  - apply IH. intros v' Hv'. apply (H v'). right. exact Hv'.
Qed.

(** X20. The record that [add_course] builds always has the same nine keys,
    in the same order, whatever the form holds: each one maps to the stripped
    value of the field of that name, a field that the form does not have
    gives the empty text, and form fields of other names are left out. *)
Theorem course_of_form_nine_fields (req : request) :
  List.map fst (course_of_form req) = List.map lit course_keys
  /\ (forall key,
        In key course_keys ->
        dict_get (course_of_form req) (lit key)
        = Some (PStr (strip (form_get (form req) (lit key)))))
  /\ (forall key,
        In key course_keys ->
        (forall v, ~ In (lit key, v) (form req)) ->
        dict_get (course_of_form req) (lit key) = Some (PStr [])).
Proof.
  assert (forall key,
             In key course_keys ->
             dict_get (course_of_form req) (lit key)
             = Some (PStr (strip (form_get (form req) (lit key))))) as Hget.
  { intros key Hkey. unfold course_keys in Hkey. cbn [In] in Hkey.
    repeat (destruct Hkey as [<- | Hkey]; [reflexivity |]).
    destruct Hkey. }
  split; [reflexivity | split; [exact Hget |]].
  intros key Hkey Habsent.
  rewrite (Hget key Hkey), (form_get_absent _ _ Habsent). reflexivity.
Qed.

Lemma course_of_form_nine_fields_witness :
  dict_get (course_of_form intro_form) (lit "semester") = Some (PStr []).
Proof.
  refine (proj2 (proj2 (course_of_form_nine_fields intro_form))
            "semester"%string _ _).
  - cbn. tauto.
  - intros v H. cbn in H.
    repeat (destruct H as [H | H]; [discriminate H |]). exact H.
Defined.
